(** * PlantDoc dataset tools: label resolution, format conversion, splits

    A shallow embedding of the three batch scripts of the repository

    - [scripts/reorganize_dataset.py]  (the reorganizer),
    - [scripts/update_csv_labels.py]   (the label updater),
    - [scripts/convert_to_coco.py]     (the COCO exporter),

    together with the properties their specification states about them.

    Modelling conventions.
    - Python [str] values are modelled as [string] (sequences of 8-bit
      characters).  The [str] methods below follow CPython on ASCII text;
      characters above 127 are treated as caseless, non-digit, non-space.
      A property whose truth depends on what the methods do outside ASCII
      is either stated for ASCII strings ([is_ascii]) or stated over
      arbitrary methods (modules [Methods] and [Raw]).
    - A row read with [csv.DictReader] is a [csv_row] when every cell is
      a string, and a [raw_row] when the line may be shorter than the
      header, so that cells may be [None]; the loops over raw rows
      (module [Raw]) carry the exceptions that such cells raise.
    - Python [float] is IEEE binary64, here the primitive type [float].
    - Python [int] is unbounded, here [Z].
    - A Python [dict] keeps its keys in insertion order and overwrites
      values in place; it is modelled as an association list ([pydict]).
    - A Python [set] of strings is a [gset string]; [sorted] is a merge
      sort for the lexicographic order on strings.
    - The file system is passed explicitly: a directory is the list of the
      names it holds, a text file is [option string] ([None] when absent),
      a parsed CSV file is a list of rows. *)

From Stdlib Require Import ZArith NArith Floats Ascii String List Bool Lia.
From stdpp Require Import base gmap strings list sorting pretty.

Local Open Scope string_scope.
Local Open Scope Z_scope.

(** ** Python [str] methods (ASCII model) *)

Definition ord (c : ascii) : N := N_of_ascii c.

Definition is_upper (c : ascii) : bool := ((65 <=? ord c) && (ord c <=? 90))%N.
Definition is_lower (c : ascii) : bool := ((97 <=? ord c) && (ord c <=? 122))%N.
Definition is_digit (c : ascii) : bool := ((48 <=? ord c) && (ord c <=? 57))%N.

(** [str.isspace] on one character: TAB, LF, VT, FF, CR, the four
    separators FS, GS, RS, US, and the space. *)
Definition is_space (c : ascii) : bool :=
  (((9 <=? ord c) && (ord c <=? 13)) || ((28 <=? ord c) && (ord c <=? 32)))%N.

Definition chr_lower (c : ascii) : ascii :=
  if is_upper c then ascii_of_N (ord c + 32) else c.
Definition chr_upper (c : ascii) : ascii :=
  if is_lower c then ascii_of_N (ord c - 32) else c.

Fixpoint str_map (f : ascii -> ascii) (s : string) : string :=
  match s with
  | EmptyString => EmptyString
  | String c r => String (f c) (str_map f r)
  end.

Fixpoint str_forall (p : ascii -> bool) (s : string) : bool :=
  match s with
  | EmptyString => true
  | String c r => p c && str_forall p r
  end.

(** [s.lower()] *)
Definition str_lower (s : string) : string := str_map chr_lower s.

(** [s.replace(old, new)] for one-character [old] and [new], the only
    form the scripts use. *)
Definition chr_replace (old new c : ascii) : ascii :=
  if Ascii.eqb c old then new else c.
Definition str_replace (old new : ascii) (s : string) : string :=
  str_map (chr_replace old new) s.

(** [s.title()]: a cased character is upper-cased when the previous
    character is not cased and lower-cased when it is. *)
Fixpoint title_from (previous_is_cased : bool) (s : string) : string :=
  match s with
  | EmptyString => EmptyString
  | String c r =>
      if is_lower c then
        String (if previous_is_cased then c else chr_upper c) (title_from true r)
      else if is_upper c then
        String (if previous_is_cased then chr_lower c else c) (title_from true r)
      else String c (title_from false r)
  end.
Definition str_title (s : string) : string := title_from false s.

(** [s.capitalize()] *)
Definition str_capitalize (s : string) : string :=
  match s with
  | EmptyString => EmptyString
  | String c r => String (chr_upper c) (str_lower r)
  end.

(** [s.isdigit()]: non-empty and made of digits. *)
Definition str_isdigit (s : string) : bool :=
  match s with
  | EmptyString => false
  | String _ _ => str_forall is_digit s
  end.

(** [s.strip()] *)
Fixpoint str_lstrip (s : string) : string :=
  match s with
  | EmptyString => EmptyString
  | String c r => if is_space c then str_lstrip r else s
  end.
Fixpoint str_rstrip (s : string) : string :=
  match s with
  | EmptyString => EmptyString
  | String c r =>
      match str_rstrip r with
      | EmptyString => if is_space c then EmptyString else String c EmptyString
      | r' => String c r'
      end
  end.
Definition str_strip (s : string) : string := str_rstrip (str_lstrip s).

(** [s.endswith(suffix)] and the slice [s[:-n]] *)
Definition str_endswith (suffix s : string) : bool :=
  let n := String.length s in
  let k := String.length suffix in
  (k <=? n)%nat && String.eqb (String.substring (n - k) k s) suffix.
Definition str_drop_last (n : nat) (s : string) : string :=
  String.substring 0 (String.length s - n) s.

(** [int(s)] on a digit string. *)
Fixpoint int_from (acc : Z) (s : string) : Z :=
  match s with
  | EmptyString => acc
  | String c r => int_from (10 * acc + (Z.of_N (ord c) - 48)) r
  end.
Definition int_of_digits (s : string) : Z := int_from 0 s.

(** [str(n)] for an integer. *)
Definition str_of_int (n : Z) : string := pretty n.

(** [s1 < s2] on strings is lexicographic on character codes. *)
Definition str_le (s1 s2 : string) : Prop := String.leb s1 s2 = true.

(** ** Python dictionaries with string keys *)

Section PyDict.
Context {V : Type}.

(** Keys in insertion order; every key occurs once. *)
Definition pydict := list (string * V).

(** [d.get(k)], and [d[k]] when the key is present. *)
Fixpoint dict_get (k : string) (d : pydict) : option V :=
  match d with
  | [] => None
  | (k', v) :: r => if String.eqb k k' then Some v else dict_get k r
  end.

(** [k in d] *)
Definition dict_mem (k : string) (d : pydict) : bool :=
  match dict_get k d with Some _ => true | None => false end.

(** [d[k] = v]: an existing key keeps its position, a new key goes last. *)
Fixpoint dict_set (k : string) (v : V) (d : pydict) : pydict :=
  match d with
  | [] => [(k, v)]
  | (k', v') :: r =>
      if String.eqb k k' then (k', v) :: r else (k', v') :: dict_set k v r
  end.

(** [for k in keys: d[k] = v] *)
Definition dict_set_all (keys : list string) (v : V) (d : pydict) : pydict :=
  fold_left (fun acc k => dict_set k v acc) keys d.

(** The loop
    [for key, val in d.items(): if key.lower() == label.lower(): ...; break]
    which yields the value of the first key, in insertion order, that
    equals the label up to case. *)
Definition ci_eqb (label key : string) : bool :=
  String.eqb (str_lower key) (str_lower label).
Fixpoint ci_scan (label : string) (d : pydict) : option V :=
  match d with
  | [] => None
  | (key, val) :: r => if ci_eqb label key then Some val else ci_scan label r
  end.
End PyDict.
Arguments pydict V : clear implicits.

(** ** Data model *)

(** One element of [labelmap.json]. *)
Record LabelMapEntry := {
  object_id : Z;
  label_id : Z;
  keyboard_shortcut : string;
  object_name : string
}.

(** Rows of a CSV file read with [csv.DictReader]: column name to cell.
    Rows shorter than the header, whose missing cells the reader fills
    with [None], are outside this model. *)
Definition csv_row := pydict string.

(** [row.get(key, default)] *)
Definition row_get (key default : string) (row : csv_row) : string :=
  match dict_get key row with Some v => v | None => default end.

(** The lookup key [label.lower().replace(' ', '_')]. *)
Definition normalized (label : string) : string :=
  str_replace " " "_" (str_lower label).

(** ** COCO exporter: variant table and label resolver *)

Module Coco.

(** The four keys written for one entry by [load_labelmap], in order. *)
Definition variants (obj_name : string) : list string :=
  [ obj_name;
    str_replace "_" " " obj_name;
    str_title (str_replace "_" " " obj_name);
    str_title obj_name ].

(** [load_labelmap], after the JSON file has been parsed. *)
Definition load_labelmap (labelmap : list LabelMapEntry) : pydict Z :=
  fold_left
    (fun class_to_id item =>
       if 0 <? object_id item
       then dict_set_all (variants (object_name item)) (label_id item) class_to_id
       else class_to_id)
    labelmap [].

(** The category of a stripped label in [parse_csv_boxes]; [None] is
    the Python [None] that makes the row be skipped. *)
Definition category_id_of (class_to_id : pydict Z) (label : string) : option Z :=
  if str_isdigit label then Some (int_of_digits label)
  else
    match dict_get (normalized label) class_to_id with
    | Some v => Some v
    | None => ci_scan label class_to_id
    end.

End Coco.

(** ** Label updater: variant table and label resolver *)

Module Updater.

(** The list [variations] built for one entry. *)
Definition variations (obj_name : string) : list string :=
  [ obj_name;
    str_replace "_" " " obj_name;
    str_title (str_replace "_" " " obj_name);
    str_title obj_name;
    str_capitalize (str_replace "_" " " obj_name) ]
  ++ (if str_endswith "_leaf" obj_name then
        let base := str_drop_last 5 obj_name in
        [ str_replace "_" " " base +:+ " leaf";
          str_title (str_replace "_" " " base) +:+ " leaf";
          str_title base +:+ " leaf" ]
      else []).

(** First loop: the variations of every non-background entry. *)
Definition variation_table (labelmap : list LabelMapEntry) : pydict Z :=
  fold_left
    (fun class_to_id item =>
       if 0 <? object_id item
       then dict_set_all (variations (object_name item)) (label_id item) class_to_id
       else class_to_id)
    labelmap [].

(** The inner loop over the labelmap with its [break]: the first
    non-background entry whose name is the normalized spelling. *)
Definition entry_named (name : string) (labelmap : list LabelMapEntry)
  : option LabelMapEntry :=
  find (fun item => (0 <? object_id item) && String.eqb (object_name item) name)
       labelmap.

(** One iteration of the loop over [original_classes]. *)
Definition add_original (labelmap : list LabelMapEntry)
    (class_to_id : pydict Z) (orig_class : string) : pydict Z :=
  let d1 :=
    match entry_named (normalized orig_class) labelmap with
    | Some item => dict_set orig_class (label_id item) class_to_id
    | None => class_to_id
    end in
  if dict_mem orig_class d1 then d1
  else
    match ci_scan orig_class d1 with
    | Some val => dict_set orig_class val d1
    | None => d1
    end.

(** The table [class_to_id] of [update_csv_labels].  [original_classes]
    lists the set of original spellings in the order the loop visits
    them. *)
Definition build_table (labelmap : list LabelMapEntry)
    (original_classes : list string) : pydict Z :=
  fold_left (add_original labelmap) original_classes (variation_table labelmap).

(** The label of a stripped cell; [None] triggers the warning. *)
Definition label_id_of (class_to_id : pydict Z) (class_name : string) : option Z :=
  match dict_get class_name class_to_id with
  | Some v => Some v
  | None => ci_scan class_name class_to_id
  end.

End Updater.

(** The resolution order as the specification words it, for comparison
    with the two resolvers above. *)
Definition spec_resolve (table : pydict Z) (label : string) : option Z :=
  if str_isdigit label then Some (int_of_digits label)
  else
    match dict_get label table with
    | Some v => Some v
    | None =>
        match dict_get (normalized label) table with
        | Some v => Some v
        | None => ci_scan label table
        end
    end.

Definition entry (oid lid : Z) (name : string) : LabelMapEntry :=
  {| object_id := oid; label_id := lid;
     keyboard_shortcut := str_of_int oid; object_name := name |}.

Definition background : LabelMapEntry :=
  {| object_id := 0; label_id := 0;
     keyboard_shortcut := "0"; object_name := "background" |}.

(** ** Paths, directories and sorting *)

(** Index of the last occurrence of a character. *)
Fixpoint str_rfind (c : ascii) (s : string) : option nat :=
  match s with
  | EmptyString => None
  | String c' r =>
      match str_rfind c r with
      | Some i => Some (S i)
      | None => if Ascii.eqb c' c then Some O else None
      end
  end.

(** The text between the slashes of a POSIX path, and the components
    that pathlib keeps of it: the empty ones and the ones that are a
    single dot are dropped. *)
Fixpoint path_split (component : string) (p : string) : list string :=
  match p with
  | EmptyString => [component]
  | String c r =>
      if Ascii.eqb c "/" then component :: path_split "" r
      else path_split (component +:+ String c "") r
  end.
Definition path_parts (p : string) : list string :=
  filter (fun part => part ≠ "" /\ part ≠ ".") (path_split "" p).

(** [Path(p).name]: the last component, the empty string when the path
    has none. *)
Definition path_name (p : string) : string := default "" (last (path_parts p)).

(** [Path(p).stem]: the name without its last suffix; a leading or a
    trailing dot does not start a suffix. *)
Definition path_stem (p : string) : string :=
  let name := path_name p in
  match str_rfind "." name with
  | Some i =>
      if (0 <? i)%nat && (i <? String.length name - 1)%nat
      then String.substring 0 i name else name
  | None => name
  end.

(** A directory is the list of the file names it holds. *)
Definition directory := list string.

(** [(dir / name).exists()] *)
Definition dir_exists (dir : directory) (name : string) : bool :=
  existsb (String.eqb name) dir.

(** The extensions probed for an image, in the order of the loops. *)
Definition image_extensions : list string := [".jpg"; ".jpeg"; ".png"].

(** [for ext in [...]: if (images_dir / f"{stem}{ext}").exists(): ...; break] *)
Definition find_image (images_dir : directory) (stem : string) : option string :=
  find (dir_exists images_dir) (map (fun ext => stem +:+ ext) image_extensions).

#[global] Instance str_le_dec : RelDecision str_le.
Proof. intros x y. unfold str_le. apply _. Defined.

(** [sorted(xs)] on strings. *)
Definition sorted (xs : list string) : list string := merge_sort str_le xs.

(** [sorted(s)] for a set [s]. *)
Definition sorted_set (s : gset string) : list string := sorted (elements s).

(** [enumerate(xs, start)] *)
Fixpoint enumerate {A : Type} (start : Z) (xs : list A) : list (Z * A) :=
  match xs with
  | [] => []
  | x :: r => (start, x) :: enumerate (start + 1) r
  end.

(** ** Reorganizer *)

Module Reorganizer.

(** The test [if class_name and not class_name.isdigit()]. *)
Definition is_class_name (class_name : string) : bool :=
  negb (String.eqb class_name "") && negb (str_isdigit class_name).

(** The rows of one file, added to the set [classes]. *)
Definition add_classes (classes : gset string) (rows : list csv_row) : gset string :=
  fold_left
    (fun acc row =>
       let class_name := str_strip (row_get "class" "" row) in
       if is_class_name class_name then {[ class_name ]} ∪ acc else acc)
    rows classes.

(** [get_all_classes]: each file is given by its rows. *)
Definition get_all_classes (csv_files : list (list csv_row)) : list string :=
  sorted_set (fold_left add_classes csv_files ∅).

(** [convert_bbox_format] on coordinates that are floats already, on
    which [float(v)] is [v]. *)
Definition convert_bbox_format (xmin ymin xmax ymax : float)
  : float * float * float * float :=
  let x := xmin in
  let y := ymin in
  let width := (xmax - xmin)%float in
  let height := (ymax - ymin)%float in
  (x, y, width, height).

(** [create_labelmap]: the list dumped to [labelmap.json] and the
    dictionary it returns. *)
Definition labelmap_entry (ic : Z * string) : LabelMapEntry :=
  {| object_id := fst ic;
     label_id := fst ic;
     keyboard_shortcut := str_of_int (fst ic);
     object_name := normalized (snd ic) |}.

Definition create_labelmap (classes : list string)
  : list LabelMapEntry * pydict Z :=
  let numbered := enumerate 1 (sorted classes) in
  ( background :: map labelmap_entry numbered,
    fold_left (fun d ic => dict_set (snd ic) (fst ic) d) numbered [] ).

(** The labelmap that [main] writes for the two input CSV files. *)
Definition main_labelmap (train_csv test_csv : list csv_row) : list LabelMapEntry :=
  fst (create_labelmap (get_all_classes [train_csv; test_csv])).

(** [get_image_stems]; [None] is the [KeyError] of [row['filename']]. *)
Fixpoint get_image_stems (images_dir : directory) (rows : list csv_row)
    (stems : gset string) : option (gset string) :=
  match rows with
  | [] => Some stems
  | row :: rest =>
      match dict_get "filename" row with
      | None => None
      | Some cell =>
          let filename := str_strip cell in
          if String.eqb filename "" then get_image_stems images_dir rest stems
          else
            let stem := path_stem filename in
            match find_image images_dir stem with
            | Some _ => get_image_stems images_dir rest ({[ stem ]} ∪ stems)
            | None => get_image_stems images_dir rest stems
            end
      end
  end.

(** The split files, each as the list of its lines, after the last write. *)
Record sets_files := {
  train_txt : list string;
  test_txt : list string;
  all_txt : list string;
  val_txt : list string;
  train_val_txt : list string
}.

(** The body of [create_sets_files] once the two stem sets are known.
    [train.txt] is first written with every train stem and later
    overwritten; the record holds the final content. *)
Definition write_sets_files (train_stems test_stems : gset string) : sets_files :=
  let all_stems := train_stems ∪ test_stems in
  let train_list := sorted_set train_stems in
  let val_size := (length train_list / 5)%nat in
  let val_stems : gset string := list_to_set (take val_size train_list) in
  let train_only_stems : gset string := list_to_set (drop val_size train_list) in
  let train_val_stems := train_only_stems ∪ val_stems in
  {| train_txt := sorted_set train_only_stems;
     test_txt := sorted_set test_stems;
     all_txt := sorted_set all_stems;
     val_txt := sorted_set val_stems;
     train_val_txt := sorted_set train_val_stems |}.

Definition create_sets_files (train_csv test_csv : list csv_row)
    (images_dir : directory) : option sets_files :=
  match get_image_stems images_dir train_csv ∅ with
  | None => None
  | Some train_stems =>
      match get_image_stems images_dir test_csv ∅ with
      | None => None
      | Some test_stems => Some (write_sets_files train_stems test_stems)
      end
  end.

End Reorganizer.

(** ** Label updater: rewriting the per-image CSV files *)

Module UpdaterRun.
Import Updater.

(** A per-image CSV file as [csv.reader] yields it: the header row and
    the data rows, each a list of cells. *)
Definition csv_file := list (list string).

(** The set [original_classes] collected from the flat CSV files that
    exist; it applies the same test as the reorganizer. *)
Definition original_classes (flat_csvs : list (list csv_row)) : gset string :=
  fold_left Reorganizer.add_classes flat_csvs ∅.

(** One pass of the row loop: the row that is kept and whether its
    label was resolved. *)
Definition update_row (class_to_id : pydict Z) (row : list string)
  : list string * bool :=
  if (6 <=? length row)%nat then
    let class_name := str_strip (nth 5 row "") in
    match label_id_of class_to_id class_name with
    | Some label_id => (<[5%nat := str_of_int label_id]> row, true)
    | None => (row, false)
    end
  else (row, false).

(** What happens to one file. *)
Inductive file_outcome :=
| StopIteration                     (* [next(reader)] on a file without rows *)
| Unwritten                         (* [updated] stayed [False] *)
| Written (rows : csv_file).        (* [writer.writerows(rows)] *)

Definition update_file (class_to_id : pydict Z) (file : csv_file) : file_outcome :=
  match file with
  | [] => StopIteration
  | header :: body =>
      let results := map (update_row class_to_id) body in
      if existsb snd results then Written (header :: map fst results)
      else Unwritten
  end.

(** The loop over [csv_dir.glob("*.csv")], in the order of the listing.
    It returns the directory as the run leaves it and [Some updated_count]
    when the run completes, [None] when it is stopped by an exception. *)
Fixpoint update_files (class_to_id : pydict Z) (dir : list (string * csv_file))
  : list (string * csv_file) * option nat :=
  match dir with
  | [] => ([], Some O)
  | (name, file) :: rest =>
      match update_file class_to_id file with
      | StopIteration => (dir, None)
      | Unwritten =>
          let '(rest', count) := update_files class_to_id rest in
          ((name, file) :: rest', count)
      | Written rows =>
          let '(rest', count) := update_files class_to_id rest in
          ((name, rows) :: rest', S <$> count)
      end
  end.

(** [update_csv_labels]: [original] is the set of original spellings in
    the order the loop over the set visits it. *)
Definition update_csv_labels (labelmap : list LabelMapEntry)
    (original : list string) (csv_dir : list (string * csv_file))
  : list (string * csv_file) * option nat :=
  update_files (build_table labelmap original) csv_dir.

(** Every data row with a label cell carries a digit string there. *)
Definition numeric_labels (file : csv_file) : bool :=
  match file with
  | [] => true
  | _ :: body =>
      forallb (fun row => (length row <? 6)%nat || str_isdigit (str_strip (nth 5 row "")))
              body
  end.

End UpdaterRun.

(** ** COCO exporter *)

(** [s.splitlines()]: the line boundaries are LF, CR, CR LF, VT, FF, FS,
    GS and RS; a final line break does not open a new line. *)
Definition is_linebreak (c : ascii) : bool :=
  (((10 <=? ord c) && (ord c <=? 13)) || ((28 <=? ord c) && (ord c <=? 30)))%N.
Fixpoint splitlines_from (after_cr : bool) (line : string) (s : string) : list string :=
  match s with
  | EmptyString => if String.eqb line "" then [] else [line]
  | String c r =>
      if after_cr && Ascii.eqb c "010" then splitlines_from false line r
      else if is_linebreak c
           then line :: splitlines_from (Ascii.eqb c "013") "" r
           else splitlines_from false (line +:+ String c "") r
  end.
Definition str_splitlines (s : string) : list string := splitlines_from false "" s.

Module CocoExport.
Import Coco.

Record Image := {
  image_ident : Z;          (* "id" *)
  file_name : string;
  image_width : Z;
  image_height : Z
}.

(** One element of the list returned by [parse_csv_boxes]. *)
Record Box := {
  box_x : float;
  box_y : float;
  box_width : float;
  box_height : float;
  box_category_id : Z;
  box_area : float
}.

Record Annotation := {
  ann_ident : Z;            (* "id" *)
  image_id : Z;
  category_id : Z;
  bbox : list float;
  area : float;
  iscrowd : Z
}.

Record Category := {
  cat_ident : Z;            (* "id" *)
  cat_name : string;
  supercategory : string
}.

(** [read_split_list]; the file is [None] when it does not exist. *)
Definition read_split_list (split_file : option string) : list string :=
  match split_file with
  | None => []
  | Some text =>
      let lines := map str_strip (str_splitlines text) in
      filter (fun line => line ≠ "") lines
  end.

(** [{p.stem for p in images_dir.glob("*" + ext)}] *)
Definition glob_stems (images_dir : directory) (ext : string) : gset string :=
  list_to_set (map path_stem (filter (fun name => str_endswith ext name = true) images_dir)).

(** The stems the split is built from: the split list, or every image
    when the list is empty. *)
Definition target_stems (split_file : option string) (images_dir : directory)
  : gset string :=
  let image_stems : gset string := list_to_set (read_split_list split_file) in
  if decide (image_stems = ∅) then
    glob_stems images_dir ".jpg" ∪ glob_stems images_dir ".jpeg"
      ∪ glob_stems images_dir ".png"
  else image_stems.

(** The category list. *)
Definition categories_of (labelmap : list LabelMapEntry) : list Category :=
  map (fun item => {| cat_ident := label_id item;
                      cat_name := object_name item;
                      supercategory := "plant_disease" |})
      (filter (fun item => 0 < object_id item) labelmap).

Section WithLibraries.
(** [float(s)] on a string, [None] for [ValueError]; and the size of
    the image stored under a name of [images/], read with PIL. *)
Variable float_of_str : string -> option float.
Variable image_size : string -> Z * Z.

(** [float(row.get(key, 0))] *)
Definition cell_float (key : string) (row : csv_row) : option float :=
  match dict_get key row with
  | Some cell => float_of_str cell
  | None => Some 0%float
  end.

(** The body of the row loop of [parse_csv_boxes]; [None] when the
    row is skipped, by [ValueError] or for want of a category. *)
Definition parse_row (class_to_id : pydict Z) (row : csv_row) : option Box :=
  x ← cell_float "x" row;
  y ← cell_float "y" row;
  width ← cell_float "width" row;
  height ← cell_float "height" row;
  let label := str_strip (row_get "label" "" row) in
  category_id ← category_id_of class_to_id label;
  Some {| box_x := x; box_y := y; box_width := width; box_height := height;
          box_category_id := category_id;
          box_area := (width * height)%float |}.

(** [parse_csv_boxes]; the file is [None] when it does not exist. *)
Definition parse_csv_boxes (csv : option (list csv_row)) (class_to_id : pydict Z)
  : list Box :=
  match csv with
  | None => []
  | Some rows => omap (parse_row class_to_id) rows
  end.

(** The standard layout under [category_root]. *)
Record Layout := {
  labelmap_json : list LabelMapEntry;
  images_dir : directory;
  csv_dir : pydict (list csv_row);     (* keyed by file name *)
  sets_dir : pydict string             (* keyed by file name *)
}.

(** The state of the loop over the stems. *)
Record LoopState := {
  images : list Image;
  annotations : list Annotation;
  image_id_counter : Z;
  ann_id_counter : Z
}.

(** [for box in boxes: annotations.append(...); ann_id_counter += 1] *)
Definition add_boxes (image_id_counter : Z) (boxes : list Box)
    (annotations : list Annotation) (ann_id_counter : Z)
  : list Annotation * Z :=
  fold_left
    (fun '(anns, counter) box =>
       ((anns ++ [ {| ann_ident := counter;
                     image_id := image_id_counter;
                     category_id := box_category_id box;
                     bbox := [box_x box; box_y box; box_width box; box_height box];
                     area := box_area box;
                     iscrowd := 0 |} ])%list,
        counter + 1))
    boxes (annotations, ann_id_counter).

(** One pass of the loop [for stem in sorted(image_stems)]. *)
Definition export_stem (category : string) (layout : Layout)
    (class_to_id : pydict Z) (st : LoopState) (stem : string) : LoopState :=
  match find_image (images_dir layout) stem with
  | None => st
  | Some img_name =>
      let '(width, height) := image_size img_name in
      let image := {| image_ident := image_id_counter st;
                      file_name := category +:+ "/images/" +:+ img_name;
                      image_width := width;
                      image_height := height |} in
      let boxes := parse_csv_boxes (dict_get (stem +:+ ".csv") (csv_dir layout))
                                   class_to_id in
      let '(anns, counter) :=
        add_boxes (image_id_counter st) boxes (annotations st) (ann_id_counter st) in
      {| images := (images st ++ [image])%list;
         annotations := anns;
         image_id_counter := image_id_counter st + 1;
         ann_id_counter := counter |}
  end.

(** [collect_annotations_for_split]; it prints nothing.  [category] is
    the name of the directory [category_root], which the file names are
    made relative to the parent of. *)
Definition collect_annotations_for_split (layout : Layout) (split category : string)
  : list Image * list Annotation * list Category :=
  let class_to_id := load_labelmap (labelmap_json layout) in
  let categories := categories_of (labelmap_json layout) in
  let image_stems :=
    target_stems (dict_get (split +:+ ".txt") (sets_dir layout)) (images_dir layout) in
  let final :=
    fold_left (export_stem category layout class_to_id)
              (sorted_set image_stems)
              {| images := []; annotations := [];
                 image_id_counter := 1; ann_id_counter := 1 |} in
  (images final, annotations final, categories).

(** The document built by [build_coco_dict]; [info] has fixed year,
    version and url, and [licenses] is the empty list. *)
Record CocoDoc := {
  info_description : string;
  doc_images : list Image;
  doc_annotations : list Annotation;
  doc_categories : list Category;
  licenses : list unit
}.

Definition build_coco_dict (images : list Image) (annotations : list Annotation)
    (categories : list Category) (description : string) : CocoDoc :=
  {| info_description := description;
     doc_images := images;
     doc_annotations := annotations;
     doc_categories := categories;
     licenses := [] |}.

(** [convert]: the files written, by path, and the lines printed. *)
Definition convert_split (layout : Layout) (out_dir category split : string)
  : (string * CocoDoc) * string :=
  let '(images, annotations, categories) :=
    collect_annotations_for_split layout split category in
  let desc := "PlantDoc " +:+ category +:+ " " +:+ split +:+ " split" in
  let coco := build_coco_dict images annotations categories desc in
  let out_path := out_dir +:+ "/" +:+ category +:+ "_instances_" +:+ split +:+ ".json" in
  ((out_path, coco),
   "Generated " +:+ out_path +:+ ": "
     +:+ str_of_int (Z.of_nat (length images)) +:+ " images, "
     +:+ str_of_int (Z.of_nat (length annotations)) +:+ " annotations, "
     +:+ str_of_int (Z.of_nat (length categories)) +:+ " categories").

Definition convert (layout : Layout) (out_dir category : string) (splits : list string)
  : list (string * CocoDoc) * list string :=
  let results := map (convert_split layout out_dir category) splits in
  (map fst results, map snd results).

End WithLibraries.

End CocoExport.

(** ** Integers in binary64 *)

(** [p] followed by [k] zero bits. *)
Definition shl (p : positive) (k : nat) : positive := Nat.iter k xO p.

Definition exact (m : positive) : SpecFloat.shr_record :=
  {| SpecFloat.shr_m := Zpos m; SpecFloat.shr_r := false; SpecFloat.shr_s := false |}.

Abbreviation prec := FloatOps.prec.
Abbreviation emax := FloatOps.emax.

(** The second half of [binary_round_aux]: rounding to nearest even,
    renormalizing, and the overflow test. *)
Definition round_rest (s : bool) (mrs : SpecFloat.shr_record) (e : Z) : spec_float :=
  let '(mrs2, e2) :=
    SpecFloat.shr_fexp prec emax
      (SpecFloat.round_nearest_even (SpecFloat.shr_m mrs) (SpecFloat.loc_of_shr_record mrs))
      e SpecFloat.loc_Exact in
  match SpecFloat.shr_m mrs2 with
  | Z0 => S754_zero s
  | Zpos m => if e2 <=? emax - prec then S754_finite s m e2 else S754_infinity s
  | Zneg _ => S754_nan
  end.

(** The binary64 number that holds the integer [z], for [|z| < 2^53]:
    the mantissa is [|z|] shifted to 53 bits. *)
Definition mant (p : positive) : positive :=
  shl p (Z.to_nat (53 - Zpos (SpecFloat.digits2_pos p))).
Definition expo (p : positive) : Z := Zpos (SpecFloat.digits2_pos p) - 53.
Definition exact_int (z : Z) : spec_float :=
  match z with
  | Z0 => S754_zero false
  | Zpos p => S754_finite false (mant p) (expo p)
  | Zneg p => S754_finite true (mant p) (expo p)
  end.

(** [float(n)] for a pixel coordinate [0 <= n < 2^53]. *)
Definition float_of_nonneg (z : Z) : float := PrimFloat.of_uint63 (Uint63.of_Z z).

(** [float(n)] for an integer of either sign. *)
Definition float_of_int (z : Z) : float :=
  if z <? 0 then (- float_of_nonneg (- z))%float else float_of_nonneg z.

(** ** Predicates used to state the properties *)

(** "First match wins": [r] is the value of the first key of [d], in
    insertion order, that equals [label] up to case, if there is one. *)
Inductive FirstMatch {V : Type} (label : string) : pydict V -> option V -> Prop :=
| first_match_none d :
    Forall (fun kv => ci_eqb label (fst kv) = false) d ->
    FirstMatch label d None
| first_match_some (before : pydict V) key val (after : pydict V) :
    Forall (fun kv => ci_eqb label (fst kv) = false) before ->
    ci_eqb label key = true ->
    FirstMatch label (before ++ (key, val) :: after)%list (Some val).

(** The three spellings of a canonical name: the underscore form, the
    title-cased space form and the title-cased underscore form. *)
Definition spellings (obj_name : string) : list string :=
  [ obj_name;
    str_title (str_replace "_" " " obj_name);
    str_title obj_name ].

(** No two non-background entries whose names agree up to case and up to
    the choice between space and underscore carry different label ids. *)
Definition unambiguous (labelmap : list LabelMapEntry) : bool :=
  forallb
    (fun a =>
       forallb
         (fun b =>
            implb ((0 <? object_id a) && (0 <? object_id b)
                   && String.eqb (normalized (object_name a)) (normalized (object_name b)))
                  (label_id a =? label_id b))
         labelmap)
    labelmap.

(** No non-background entry is named by a digit string or carries a
    negative label id. *)
Definition plain_entry (item : LabelMapEntry) : bool :=
  implb (0 <? object_id item)
        (negb (str_isdigit (object_name item)) && (0 <=? label_id item)).
Definition plain_labelmap (labelmap : list LabelMapEntry) : bool :=
  forallb plain_entry labelmap.

(** Every value of the table is the label id of a non-background entry
    whose name normalizes like the key. *)
Definition sound (labelmap : list LabelMapEntry) (d : pydict Z) : Prop :=
  forall k v, (k, v) ∈ d ->
    exists item, item ∈ labelmap /\ 0 < object_id item
      /\ normalized k = normalized (object_name item) /\ v = label_id item.

(** The step shared by the loops that fill the two tables, for the list
    of keys [vars] written per entry. *)
Definition add_entry (vars : string -> list string) (d : pydict Z)
    (item : LabelMapEntry) : pydict Z :=
  if 0 <? object_id item
  then dict_set_all (vars (object_name item)) (label_id item) d
  else d.

(** No key of the table is a digit string. *)
Definition nodigit (d : pydict Z) : Prop :=
  forall k v, (k, v) ∈ d -> str_isdigit k = false.

(** The annotation appended for a box under a given pair of counters. *)
Definition annotation_of (image_id_counter : Z) (p : Z * CocoExport.Box)
  : CocoExport.Annotation :=
  {| CocoExport.ann_ident := fst p;
     CocoExport.image_id := image_id_counter;
     CocoExport.category_id := CocoExport.box_category_id (snd p);
     CocoExport.bbox := [CocoExport.box_x (snd p); CocoExport.box_y (snd p);
                         CocoExport.box_width (snd p); CocoExport.box_height (snd p)];
     CocoExport.area := CocoExport.box_area (snd p);
     CocoExport.iscrowd := 0 |}.

(** The area of an annotation is the product of the width and the
    height of its own box. *)
Definition area_computed (a : CocoExport.Annotation) : Prop :=
  exists x y width height,
    CocoExport.bbox a = [x; y; width; height]
    /\ CocoExport.area a = (width * height)%float.

(** What holds of the loop state of the exporter between two stems. *)
Record numbered (st : CocoExport.LoopState) : Prop := {
  images_numbered :
    CocoExport.image_ident <$> CocoExport.images st
    = seqZ 1 (Z.of_nat (length (CocoExport.images st)));
  image_counter_next :
    CocoExport.image_id_counter st = 1 + Z.of_nat (length (CocoExport.images st));
  annotations_numbered :
    CocoExport.ann_ident <$> CocoExport.annotations st
    = seqZ 1 (Z.of_nat (length (CocoExport.annotations st)));
  ann_counter_next :
    CocoExport.ann_id_counter st = 1 + Z.of_nat (length (CocoExport.annotations st));
  areas_computed : Forall area_computed (CocoExport.annotations st)
}.

(** The lines of a split file, none when the file is absent. *)
Definition file_lines (split_file : option string) : list string :=
  match split_file with
  | None => []
  | Some text => str_splitlines text
  end.

(** A reading of [float(s)] on unsigned decimal integers, rounded to
    the nearest float, used to run the exporter on concrete rows. *)
Definition float_of_digits (s : string) : option float :=
  if str_isdigit s
  then Some (SF2Prim (SpecFloat.binary_normalize prec emax (int_of_digits s) 0 false))
  else None.

(** Sample data. *)
Definition lm_rust : list LabelMapEntry :=
  [background; entry 1 1 "bell_pepper_leaf"; entry 2 2 "rust_leaf"].
Definition lm_mixed : list LabelMapEntry :=
  [background; entry 1 1 "bell_pepper_leaf"; entry 2 2 "Bell Pepper Leaf"].
Definition lm_twice : list LabelMapEntry :=
  [background; entry 1 1 "apple_leaf"; entry 2 2 "apple_leaf"].
Definition lm_digit : list LabelMapEntry :=
  [background; entry 1 3 "7"].

Definition csv_header : list string := ["#item"; "x"; "y"; "width"; "height"; "label"].
Definition row_label (label : string) : csv_row :=
  [("#item", "0"); ("x", "5"); ("y", "6"); ("width", "10"); ("height", "20");
   ("label", label)].
Definition layout_missing : CocoExport.Layout :=
  {| CocoExport.labelmap_json := lm_rust;
     CocoExport.images_dir := ["c.jpg"];
     CocoExport.csv_dir := [];
     CocoExport.sets_dir := [("train.txt", "a" +:+ String "010" "b")] |}.

Definition flat_train : list csv_row :=
  [ [("filename", "1.jpg"); ("class", "Rust leaf")];
    [("filename", "2.jpg"); ("class", " apple Scab")];
    [("filename", "3.jpg"); ("class", "12")] ].
Definition flat_test : list csv_row :=
  [ [("filename", "4.jpg"); ("class", "Apple leaf")];
    [("filename", "5.jpg"); ("class", "")] ].
Definition layout_two : CocoExport.Layout :=
  {| CocoExport.labelmap_json := lm_rust;
     CocoExport.images_dir := ["b.png"; "a.jpg"];
     CocoExport.csv_dir :=
       [("a.csv", [row_label "rust_leaf"; row_label "oak"; row_label "Bell Pepper Leaf"]);
        ("b.csv", [row_label "2"])];
     CocoExport.sets_dir := [("train.txt", "b" +:+ String "010" "missing" +:+ String "010" "a")] |}.

(** ** Further parts of the scripts *)

(** The stems that [create_sets_files] writes to one of its files. *)
Definition listed_stems (files : Reorganizer.sets_files) : list string :=
  (Reorganizer.train_txt files ++ Reorganizer.val_txt files
   ++ Reorganizer.test_txt files ++ Reorganizer.all_txt files
   ++ Reorganizer.train_val_txt files)%list.

(** Sample input of the reorganizer. *)
Definition flat_rows : list csv_row :=
  [ [("filename", "a.jpg"); ("class", "Rust leaf")];
    [("filename", " b.png "); ("class", "Rust leaf")];
    [("filename", "ghost.jpg"); ("class", "Rust leaf")];
    [("filename", ""); ("class", "Rust leaf")] ].

(** The stems of a list that have an image file in the directory. *)
Definition with_image (dir : directory) (stems : list string) : list string :=
  filter (fun stem => is_Some (find_image dir stem)) stems.

(** What an annotation holds besides its own id, and what the annotation
    made from a box for the image numbered [i] holds. *)
Definition annotation_info (a : CocoExport.Annotation)
  : Z * Z * list float * float * Z :=
  (CocoExport.image_id a, CocoExport.category_id a, CocoExport.bbox a,
   CocoExport.area a, CocoExport.iscrowd a).
Definition box_info (i : Z) (b : CocoExport.Box) : Z * Z * list float * float * Z :=
  (i, CocoExport.box_category_id b,
   [CocoExport.box_x b; CocoExport.box_y b; CocoExport.box_width b;
    CocoExport.box_height b],
   CocoExport.box_area b, 0).

(** The boxes of the CSV file of a stem, for the image numbered
    [fst p]. *)
Definition stem_info (float_of_str : string -> option float)
    (layout : CocoExport.Layout) (class_to_id : pydict Z) (p : Z * string)
  : list (Z * Z * list float * float * Z) :=
  box_info (fst p)
    <$> CocoExport.parse_csv_boxes float_of_str
          (dict_get (snd p +:+ ".csv") (CocoExport.csv_dir layout)) class_to_id.

(** The rows of a per-image CSV file without coordinate columns. *)
Definition label_only (label : string) : csv_row := [("#item", "0"); ("label", label)].

(** The first annotation of a list. *)
Definition first_annotation (annotations : list CocoExport.Annotation)
  : CocoExport.Annotation :=
  hd {| CocoExport.ann_ident := 0; CocoExport.image_id := 0; CocoExport.category_id := 0;
        CocoExport.bbox := []; CocoExport.area := 0; CocoExport.iscrowd := 0 |}
     annotations.

(** ** The split files as text *)

(** [for stem in stems: f.write(f"{stem}\n")]: the text of the file is
    the stems, each followed by a line feed. *)
Definition write_lines (stems : list string) : string :=
  fold_right (fun stem text => stem +:+ String "010" text) "" stems.



(** A stem that a split file gives back as it was written: it holds no
    line break, is not empty and neither starts nor ends with white
    space. *)
Definition clean_stem (s : string) : bool :=
  str_forall (fun c => negb (is_linebreak c)) s
  && negb (String.eqb s "") && String.eqb (str_strip s) s.


(** ** Reorganizer: copying the images *)

Section CopyImages.
(** The content of a file.  A folder maps the names of its files to
    their content, in the order in which it is listed. *)
Context {C : Type}.

(** [source_dir.glob(f"*{ext}")] *)
Definition glob (ext : string) (source_dir : list (string * C)) : list (string * C) :=
  filter (fun img => str_endswith ext (fst img) = true) source_dir.

(** One pass of the inner loop: the destination and [copied]. *)
Definition copy_image (st : pydict C * Z) (img : string * C) : pydict C * Z :=
  if dict_mem (fst img) (fst st) then st
  else (dict_set (fst img) (snd img) (fst st), snd st + 1).

(** [copy_images]: the destination as it is left, and [copied]. *)
Definition copy_images (source_dir dest_dir : pydict C) : pydict C * Z :=
  fold_left (fun st ext => fold_left copy_image (glob ext source_dir) st)
            image_extensions (dest_dir, 0).
End CopyImages.

(** A name that one of the three patterns matches. *)
Definition is_image_name (name : string) : bool :=
  existsb (fun ext => str_endswith ext name) image_extensions.

(** ** Reorganizer: the per-image CSV files *)

(** The exceptions that stop [create_per_image_csvs]. *)
Inductive error :=
| KeyError (key : string)        (* [row[key]] on a row without the column *)
| ValueError (cell : string).    (* [float(cell)] *)

#[global] Instance error_ret : MRet (sum error) := fun A => inr.
#[global] Instance error_bind : MBind (sum error) :=
  fun A B f m => match m with inl e => inl e | inr a => f a end.

(** One element of a list of [annotations_by_image]. *)
Record FlatAnnotation := {
  flat_x : float;
  flat_y : float;
  flat_width : float;
  flat_height : float;
  flat_label : string
}.

(** [d[k].append(v)] on a [defaultdict(list)] *)
Definition group_append {A : Type} (k : string) (v : A) (d : pydict (list A))
  : pydict (list A) :=
  dict_set k (match dict_get k d with Some l => l ++ [v] | None => [v] end)%list d.

(** [row[key]] *)
Definition row_item (key : string) (row : csv_row) : error + string :=
  match dict_get key row with
  | Some cell => inr cell
  | None => inl (KeyError key)
  end.

Section PerImage.
(** [float(s)] on a string, [None] for [ValueError]; and the text that
    [csv.writer] writes for a float. *)
Variable float_of_str : string -> option float.
Variable str_of_float : float -> string.

(** [float(cell)] *)
Definition to_float (cell : string) : error + float :=
  match float_of_str cell with
  | Some v => inr v
  | None => inl (ValueError cell)
  end.

(** [convert_bbox_format] on the cells of a row: the conversions are
    made in the order [xmin], [ymin], [xmax], [ymax]. *)
Definition convert_bbox_cells (xmin ymin xmax ymax : string)
  : error + (float * float * float * float) :=
  fxmin ← to_float xmin;
  fymin ← to_float ymin;
  fxmax ← to_float xmax;
  fymax ← to_float ymax;
  mret (Reorganizer.convert_bbox_format fxmin fymin fxmax fymax).

(** The body of the loop over the rows up to the [append]: [None] for
    a row that is skipped, else the key and the element appended. *)
Definition flat_row (row : csv_row) : error + option (string * FlatAnnotation) :=
  filename_cell ← row_item "filename" row;
  class_cell ← row_item "class" row;
  let filename := str_strip filename_cell in
  let class_name := str_strip class_cell in
  if String.eqb filename "" || String.eqb class_name "" || str_isdigit class_name
  then mret None
  else
    xmin ← row_item "xmin" row;
    ymin ← row_item "ymin" row;
    xmax ← row_item "xmax" row;
    ymax ← row_item "ymax" row;
    box ← convert_bbox_cells xmin ymin xmax ymax;
    let '(x, y, width, height) := box in
    mret (Some (filename,
                {| flat_x := x; flat_y := y; flat_width := width;
                   flat_height := height; flat_label := class_name |})).

(** The loop over the rows of the flat CSV file. *)
Fixpoint read_rows (rows : list csv_row)
    (annotations_by_image : pydict (list FlatAnnotation))
  : error + pydict (list FlatAnnotation) :=
  match rows with
  | [] => mret annotations_by_image
  | row :: rest =>
      item ← flat_row row;
      read_rows rest
        (match item with
         | Some (filename, ann) => group_append filename ann annotations_by_image
         | None => annotations_by_image
         end)
  end.

(** The search for the image of a file name: under the three
    extensions, then under the name as it stands. *)
Definition image_found (images_dir : directory) (filename : string) : bool :=
  match find_image images_dir (path_stem filename) with
  | Some _ => true
  | None => dir_exists images_dir filename
  end.

(** The rows written for one image, as [csv.reader] reads them back. *)
Definition per_image_row (p : Z * FlatAnnotation) : list string :=
  [ str_of_int (fst p); str_of_float (flat_x (snd p)); str_of_float (flat_y (snd p));
    str_of_float (flat_width (snd p)); str_of_float (flat_height (snd p));
    flat_label (snd p) ].
Definition per_image_file (annotations : list FlatAnnotation) : UpdaterRun.csv_file :=
  csv_header :: map per_image_row (enumerate 0 annotations).

(** One pass of the loop over [annotations_by_image.items()]: the
    directory [csv/] and the warnings printed. *)
Definition write_group (images_dir : directory)
    (st : pydict UpdaterRun.csv_file * list string)
    (group : string * list FlatAnnotation)
  : pydict UpdaterRun.csv_file * list string :=
  if image_found images_dir (fst group)
  then (dict_set (path_stem (fst group) +:+ ".csv") (per_image_file (snd group)) (fst st),
        snd st)
  else (fst st, (snd st ++ ["Warning: Image not found for " +:+ fst group])%list).

(** [create_per_image_csvs]: the directory [csv/] as it is left, the
    warnings printed and the number returned. *)
Definition create_per_image_csvs (rows : list csv_row) (images_dir : directory)
    (output_csv_dir : pydict UpdaterRun.csv_file)
  : error + (pydict UpdaterRun.csv_file * list string * Z) :=
  annotations_by_image ← read_rows rows [];
  let written := fold_left (write_group images_dir) annotations_by_image
                           (output_csv_dir, []) in
  mret (fst written, snd written, Z.of_nat (length annotations_by_image)).

(** The annotations that the rows give for one file name, in the order
    of the rows. *)
Definition row_annotation (filename : string) (row : csv_row) : option FlatAnnotation :=
  match flat_row row with
  | inr (Some (f, ann)) => if String.eqb f filename then Some ann else None
  | _ => None
  end.
Definition annotations_of (filename : string) (rows : list csv_row)
  : list FlatAnnotation :=
  omap (row_annotation filename) rows.
End PerImage.

(** A folder of images for the examples, the content of a file being a
    number. *)
Definition folder_train : pydict Z := [("a.jpg", 1); ("notes.txt", 2); ("b.png", 3)].
Definition folder_test : pydict Z := [("a.jpg", 4); ("c.jpeg", 5)].

(** Rows of a flat CSV file with boxes. *)
Definition flat_box (filename class xmin ymin xmax ymax : string) : csv_row :=
  [("filename", filename); ("width", "640"); ("height", "480"); ("class", class);
   ("xmin", xmin); ("ymin", ymin); ("xmax", xmax); ("ymax", ymax)].
Definition flat_boxes : list csv_row :=
  [ flat_box "a.jpg" "Rust leaf" "1" "2" "11" "22";
    flat_box "b.png" "Apple leaf" "3" "4" "13" "24";
    flat_box "a.jpg" " Apple leaf " "5" "6" "15" "26";
    flat_box "a.jpg" "7" "x" "y" "z" "w";
    flat_box "ghost.jpg" "Rust leaf" "0" "0" "1" "1" ].

(** A list of a [defaultdict(list)] after further elements have been
    appended to it; a key without elements is not created. *)
Definition extended {A : Type} (old : option (list A)) (new : list A)
  : option (list A) :=
  match old with
  | Some l => Some (l ++ new)%list
  | None => match new with [] => None | _ => Some new end
  end.

(** The key of the file written for a file name, and the line printed
    when no image is found for it. *)
Definition csv_key (filename : string) : string := path_stem filename +:+ ".csv".
Definition not_found (filename : string) : string :=
  "Warning: Image not found for " +:+ filename.

(** A per-image file as the reorganizer writes it for class names of a
    list: the header, then at least one row, each of six cells of which
    the last is a class name of the list that [strip] leaves as it is. *)
Definition class_row (classes : list string) (row : list string) : Prop :=
  length row = 6%nat
  /\ exists c, row !! 5%nat = Some c /\ c ∈ classes /\ str_strip c = c.
Definition class_file (classes : list string) (file : UpdaterRun.csv_file) : Prop :=
  exists body, file = csv_header :: body /\ body ≠ [] /\ Forall (class_row classes) body.

(** The row that [csv.DictReader] yields for a line of as many cells as
    the header: [dict(zip(fieldnames, row))]. *)
Definition dict_row (fieldnames row : list string) : csv_row :=
  fold_left (fun d kv => dict_set (fst kv) (snd kv) d) (zip fieldnames row) [].

(** A text for the floats 1 and 2 that [float_of_digits] reads back, for
    the examples. *)
Definition float_text (x : float) : string :=
  if PrimFloat.eqb x 1 then "1" else if PrimFloat.eqb x 2 then "2" else "0".

(** ** ASCII text *)

(** The strings on which the [str] methods of this file are those of
    Python: every character is below 128. *)
Definition is_ascii (s : string) : bool := str_forall (fun c => (ord c <? 128)%N) s.
Definition ascii_labelmap (labelmap : list LabelMapEntry) : bool :=
  forallb (fun item => is_ascii (object_name item)) labelmap.

(** [int(s)] on a string of ASCII digits. *)
Definition ascii_int (s : string) : option Z :=
  if str_isdigit s then Some (int_of_digits s) else None.

(** Every value of the table is the label id of a non-background
    entry, whatever its key is. *)
Definition known_ids (labelmap : list LabelMapEntry) (d : pydict Z) : Prop :=
  forall k v, (k, v) ∈ d ->
    exists item, item ∈ labelmap /\ 0 < object_id item /\ v = label_id item.

(** ** The resolvers over arbitrary string methods *)

(** The two resolvers use of a label only [isdigit], [int], [lower],
    [replace(' ', '_')] and comparison.  Here they are written over any
    type of strings and any such methods, [to_int] answering [None] where
    [int] raises [ValueError]; what is proved of them does not depend on
    how the methods treat characters outside ASCII.  With the methods of
    this file they are [Coco.category_id_of] and [Updater.label_id_of]. *)
Module Methods.
Section Resolvers.
Context {Str : Type} `{EqDecision Str}.
Variable isdigit : Str -> bool.
Variable to_int : Str -> option Z.
Variable lower : Str -> Str.
Variable underscored : Str -> Str.

(** [d.get(k)] *)
Fixpoint get (k : Str) (d : list (Str * Z)) : option Z :=
  match d with
  | [] => None
  | (k', v) :: r => if decide (k = k') then Some v else get k r
  end.

(** [for key, val in d.items(): if key.lower() == label.lower(): ...; break] *)
Fixpoint scan (label : Str) (d : list (Str * Z)) : option Z :=
  match d with
  | [] => None
  | (key, val) :: r => if decide (lower key = lower label) then Some val else scan label r
  end.

(** The exporter: [int(label)] for a label that passes [isdigit], with
    [None] when [int] raises [ValueError] and the row is skipped by the
    handler; otherwise the lookup of the normalized label, then the scan. *)
Definition category_id_of (class_to_id : list (Str * Z)) (label : Str) : option Z :=
  if isdigit label then to_int label
  else
    match get (underscored (lower label)) class_to_id with
    | Some v => Some v
    | None => scan label class_to_id
    end.

(** The updater: the lookup of the label as written, then the scan. *)
Definition label_id_of (class_to_id : list (Str * Z)) (class_name : Str) : option Z :=
  match get class_name class_to_id with
  | Some v => Some v
  | None => scan class_name class_to_id
  end.

(** "First match wins": the value of the first key, in insertion order,
    that equals the label up to [lower], if there is one. *)
Inductive first_match (label : Str) : list (Str * Z) -> option Z -> Prop :=
| first_none d :
    Forall (fun kv => lower (fst kv) ≠ lower label) d ->
    first_match label d None
| first_some before key val after :
    Forall (fun kv => lower (fst kv) ≠ lower label) before ->
    lower key = lower label ->
    first_match label (before ++ (key, val) :: after)%list (Some val).
End Resolvers.
End Methods.

(** ** Rows with missing cells *)

(** A row as [csv.DictReader] yields it: the cell of a column is [None]
    when the line is shorter than the header.  [full_row] is a row of the
    model above, in which every cell is a string. *)
Definition raw_row := pydict (option string).
Definition full_row (row : csv_row) : raw_row :=
  map (fun kv => (fst kv, Some (snd kv))) row.

Module Raw.

(** The exceptions that the row loops of the scripts meet. *)
Inductive exn :=
| KeyError (key : string)       (* [row[key]] on a row without the column *)
| ValueError (cell : string)    (* [float(cell)] on a string that is no number *)
| AttributeError                (* [None.strip()] *)
| TypeError.                    (* [float(None)] *)

(** What one pass of a row loop comes to: a value, [continue], or an
    exception that leaves the loop. *)
Inductive result (A : Type) :=
| Done (a : A)
| Skipped
| Raised (e : exn).
Arguments Done {A} a.
Arguments Skipped {A}.
Arguments Raised {A} e.

#[global] Instance result_ret : MRet result := fun A => Done.
#[global] Instance result_bind : MBind result :=
  fun A B f m =>
    match m with
    | Done a => f a
    | Skipped => Skipped
    | Raised e => Raised e
    end.

Section Scripts.
(** [float(s)] on a string, [None] for [ValueError], and the [str]
    methods and the stem of a path, which the loops use as they come. *)
Variable float_of_str : string -> option float.
Variable strip : string -> string.
Variable isdigit : string -> bool.
Variable to_int : string -> option Z.
Variable lower : string -> string.
Variable underscored : string -> string.
Variable stem : string -> string.

(** [row[key]] *)
Definition item (key : string) (row : raw_row) : result (option string) :=
  match dict_get key row with
  | Some cell => Done cell
  | None => Raised (KeyError key)
  end.

(** [cell.strip()] *)
Definition stripped (cell : option string) : result string :=
  match cell with
  | Some s => Done (strip s)
  | None => Raised AttributeError
  end.

(** [float(cell)] outside a handler *)
Definition to_float (cell : option string) : result float :=
  match cell with
  | Some s =>
      match float_of_str s with
      | Some v => Done v
      | None => Raised (ValueError s)
      end
  | None => Raised TypeError
  end.

(** *** The exporter *)

(** [float(row.get(key, 0))] under the handler of the row loop, which
    catches [ValueError] and goes on to the next row, and lets
    [TypeError] through. *)
Definition cell_float (key : string) (row : raw_row) : result float :=
  match dict_get key row with
  | None => Done 0%float
  | Some None => Raised TypeError
  | Some (Some cell) =>
      match float_of_str cell with
      | Some v => Done v
      | None => Skipped
      end
  end.

(** [row.get('label', '').strip()] *)
Definition label_of (row : raw_row) : result string :=
  match dict_get "label" row with
  | None => Done (strip "")
  | Some cell => stripped cell
  end.

(** The body of the row loop of [parse_csv_boxes]. *)
Definition parse_row (class_to_id : pydict Z) (row : raw_row)
  : result CocoExport.Box :=
  x ← cell_float "x" row;
  y ← cell_float "y" row;
  width ← cell_float "width" row;
  height ← cell_float "height" row;
  label ← label_of row;
  match Methods.category_id_of isdigit to_int lower underscored class_to_id label with
  | Some category_id =>
      Done {| CocoExport.box_x := x; CocoExport.box_y := y;
              CocoExport.box_width := width; CocoExport.box_height := height;
              CocoExport.box_category_id := category_id;
              CocoExport.box_area := (width * height)%float |}
  | None => Skipped
  end.

(** The row loop of [parse_csv_boxes]. *)
Fixpoint parse_rows (class_to_id : pydict Z) (rows : list raw_row)
    (annotations : list CocoExport.Box) : result (list CocoExport.Box) :=
  match rows with
  | [] => Done annotations
  | row :: rest =>
      match parse_row class_to_id row with
      | Done box => parse_rows class_to_id rest (annotations ++ [box])%list
      | Skipped => parse_rows class_to_id rest annotations
      | Raised e => Raised e
      end
  end.

(** [parse_csv_boxes]; the file is [None] when it does not exist. *)
Definition parse_csv_boxes (csv : option (list raw_row)) (class_to_id : pydict Z)
  : result (list CocoExport.Box) :=
  match csv with
  | None => Done []
  | Some rows => parse_rows class_to_id rows []
  end.

(** *** The reorganizer *)

(** [get_image_stems] *)
Fixpoint get_image_stems (images_dir : directory) (rows : list raw_row)
    (stems : gset string) : result (gset string) :=
  match rows with
  | [] => Done stems
  | row :: rest =>
      match item "filename" row with
      | Done cell =>
          match stripped cell with
          | Done filename =>
              if String.eqb filename "" then get_image_stems images_dir rest stems
              else
                match find_image images_dir (stem filename) with
                | Some _ =>
                    get_image_stems images_dir rest ({[ stem filename ]} ∪ stems)
                | None => get_image_stems images_dir rest stems
                end
          | Skipped => Skipped
          | Raised e => Raised e
          end
      | Skipped => Skipped
      | Raised e => Raised e
      end
  end.

(** The body of the first loop of [create_per_image_csvs] up to the
    [append]: the key and the element appended, [Skipped] for
    [continue]. *)
Definition flat_row (row : raw_row) : result (string * FlatAnnotation) :=
  filename_cell ← item "filename" row;
  filename ← stripped filename_cell;
  class_cell ← item "class" row;
  class_name ← stripped class_cell;
  if String.eqb filename "" || String.eqb class_name "" || isdigit class_name
  then Skipped
  else
    xmin ← item "xmin" row;
    ymin ← item "ymin" row;
    xmax ← item "xmax" row;
    ymax ← item "ymax" row;
    fxmin ← to_float xmin;
    fymin ← to_float ymin;
    fxmax ← to_float xmax;
    fymax ← to_float ymax;
    let '(x, y, width, height) :=
      Reorganizer.convert_bbox_format fxmin fymin fxmax fymax in
    Done (filename,
          {| flat_x := x; flat_y := y; flat_width := width;
             flat_height := height; flat_label := class_name |}).

(** The first loop of [create_per_image_csvs]. *)
Fixpoint read_rows (rows : list raw_row)
    (annotations_by_image : pydict (list FlatAnnotation))
  : result (pydict (list FlatAnnotation)) :=
  match rows with
  | [] => Done annotations_by_image
  | row :: rest =>
      match flat_row row with
      | Done (filename, ann) =>
          read_rows rest (group_append filename ann annotations_by_image)
      | Skipped => read_rows rest annotations_by_image
      | Raised e => Raised e
      end
  end.

(** The annotations that the rows give for one file name, in the order
    of the rows. *)
Definition row_annotation (filename : string) (row : raw_row) : option FlatAnnotation :=
  match flat_row row with
  | Done (f, ann) => if String.eqb f filename then Some ann else None
  | _ => None
  end.
Definition annotations_of (filename : string) (rows : list raw_row)
  : list FlatAnnotation :=
  omap (row_annotation filename) rows.
End Scripts.

End Raw.

(** The lift of a result of the model without missing cells. *)
Definition of_option {A : Type} (r : option A) : Raw.result A :=
  match r with
  | Some a => Raw.Done a
  | None => Raw.Skipped
  end.


(** Rows of a flat CSV file for the examples: a full row, a row of a
    line without its last cell, and a row of a line that ends after the
    second cell. *)
Definition raw_flat (filename class : string) (ymax : option string) : raw_row :=
  [("filename", Some filename); ("width", Some "640"); ("height", Some "480");
   ("class", Some class); ("xmin", Some "1"); ("ymin", Some "2"); ("xmax", Some "3");
   ("ymax", ymax)].
Definition raw_flat_short (filename : string) : raw_row :=
  [("filename", Some filename); ("width", Some "640"); ("height", None);
   ("class", None); ("xmin", None); ("ymin", None); ("xmax", None); ("ymax", None)].

(** * Properties *)

(** ** The string methods on examples *)

Example title_ex : str_title "bell_pepper_leaf" = "Bell_Pepper_Leaf".
Proof. reflexivity. Qed.
Example title_ex2 : str_title (str_replace "_" " " "bell_pepper_leaf") = "Bell Pepper Leaf".
Proof. reflexivity. Qed.
Example title_ex3 : str_title "aBC dEF 3g" = "Abc Def 3G".
Proof. reflexivity. Qed.
Example cap_ex : str_capitalize "bell pepper Leaf" = "Bell pepper leaf".
Proof. reflexivity. Qed.
Example strip_ex : str_strip "  a b  " = "a b".
Proof. reflexivity. Qed.
Example int_ex : int_of_digits "0042" = 42.
Proof. reflexivity. Qed.
Example str_ex : str_of_int 17 = "17" /\ str_of_int (-3) = "-3" /\ str_of_int 0 = "0".
Proof. vm_compute. auto. Qed.
Example ends_ex : str_endswith "_leaf" "rust_leaf" = true /\ str_drop_last 5 "rust_leaf" = "rust".
Proof. vm_compute. auto. Qed.

Example splitlines_ex :
  str_splitlines ("a" +:+ String "013" (String "010" "b") +:+ String "010" (String "010" " c "))
  = ["a"; "b"; ""; " c "].
Proof. reflexivity. Qed.
Example path_stem_ex :
  path_stem "dir/a.b.jpg" = "a.b" /\ path_stem ".jpg" = ".jpg" /\ path_stem "a." = "a."
  /\ path_stem "abc" = "abc".
Proof. vm_compute. auto. Qed.
Example path_stem_ex2 :
  path_stem "a/" = "a" /\ path_stem "." = "" /\ path_stem "./a//b.png" = "b"
  /\ path_stem "a/.." = ".." /\ path_stem "/" = "".
Proof. vm_compute. auto. Qed.
Example sorted_ex : sorted ["b"; "a"; "B"; "ab"] = ["B"; "a"; "ab"; "b"].
Proof. vm_compute. reflexivity. Qed.

(** ** Characters and strings *)

Ltac ascii_cases c :=
  destruct c as [[] [] [] [] [] [] [] []]; vm_compute; try reflexivity; try discriminate.

Lemma chr_lower_idem c : chr_lower (chr_lower c) = chr_lower c.
Proof. ascii_cases c. Qed.

Lemma chr_lower_upper c : chr_lower (chr_upper c) = chr_lower c.
Proof. ascii_cases c. Qed.

Lemma is_digit_chr_lower c : is_digit (chr_lower c) = is_digit c.
Proof. ascii_cases c. Qed.

Lemma is_digit_chr_upper c : is_digit (chr_upper c) = is_digit c.
Proof. ascii_cases c. Qed.

Lemma is_digit_not_cased c : is_digit c = true -> is_lower c = false /\ is_upper c = false.
Proof. ascii_cases c; auto. Qed.

Lemma chr_norm_unspace c :
  chr_replace " " "_" (chr_lower (chr_replace "_" " " c))
  = chr_replace " " "_" (chr_lower c).
Proof. ascii_cases c. Qed.

Lemma chr_norm_idem c :
  chr_replace " " "_" (chr_lower (chr_replace " " "_" (chr_lower c)))
  = chr_replace " " "_" (chr_lower c).
Proof. ascii_cases c. Qed.

Lemma is_digit_unspace c : is_digit (chr_replace "_" " " c) = is_digit c.
Proof. ascii_cases c. Qed.

Lemma str_map_map f g s : str_map f (str_map g s) = str_map (fun c => f (g c)) s.
Proof. induction s as [|c r IH]; simpl; [done|]. by rewrite IH. Qed.

Lemma str_map_ext f g s : (forall c, f c = g c) -> str_map f s = str_map g s.
Proof. intros E. induction s as [|c r IH]; simpl; [done|]. by rewrite E, IH. Qed.

Lemma str_map_app f s t : str_map f (s +:+ t) = str_map f s +:+ str_map f t.
Proof. induction s as [|c r IH]; simpl; [done|]. by rewrite IH. Qed.

Lemma str_lower_idem s : str_lower (str_lower s) = str_lower s.
Proof.
  unfold str_lower. rewrite str_map_map. apply str_map_ext, chr_lower_idem.
Qed.

Lemma str_lower_title_from b s : str_lower (title_from b s) = str_lower s.
Proof.
  unfold str_lower. revert b. induction s as [|c r IH]; intros b; simpl; [done|].
  destruct (is_lower c) eqn:El.
  - simpl. rewrite IH. destruct b; [done|]. by rewrite chr_lower_upper.
  - destruct (is_upper c) eqn:Eu; simpl; rewrite IH; [|done].
    destruct b; [|done]. by rewrite chr_lower_idem.
Qed.

Lemma str_lower_title s : str_lower (str_title s) = str_lower s.
Proof. apply str_lower_title_from. Qed.

Lemma str_lower_capitalize s : str_lower (str_capitalize s) = str_lower s.
Proof.
  destruct s as [|c r]; [done|].
  change (String (chr_lower (chr_upper c)) (str_lower (str_lower r))
          = String (chr_lower c) (str_lower r)).
  by rewrite chr_lower_upper, str_lower_idem.
Qed.

(** [normalized] only looks at the lower-cased label. *)
Lemma normalized_lower_eq s t : str_lower s = str_lower t -> normalized s = normalized t.
Proof. unfold normalized. by intros ->. Qed.

Lemma normalized_idem s : normalized (normalized s) = normalized s.
Proof.
  unfold normalized, str_replace, str_lower. rewrite !str_map_map.
  apply str_map_ext, chr_norm_idem.
Qed.

Lemma normalized_unspace s : normalized (str_replace "_" " " s) = normalized s.
Proof.
  unfold normalized, str_replace, str_lower. rewrite !str_map_map.
  apply str_map_ext, chr_norm_unspace.
Qed.

Lemma normalized_title s : normalized (str_title s) = normalized s.
Proof. apply normalized_lower_eq, str_lower_title. Qed.

Lemma normalized_capitalize s : normalized (str_capitalize s) = normalized s.
Proof. apply normalized_lower_eq, str_lower_capitalize. Qed.

Lemma normalized_app s t : normalized (s +:+ t) = normalized s +:+ normalized t.
Proof. unfold normalized, str_replace, str_lower. by rewrite !str_map_app. Qed.

(** ** Dictionaries *)

Section PyDictFacts.
Context {V : Type}.
Implicit Types (d : pydict V) (k : string) (v : V).

Lemma dict_get_elem k v d : dict_get k d = Some v -> (k, v) ∈ d.
Proof.
  induction d as [|[k' v'] r IH]; simpl; [done|].
  destruct (String.eqb k k') eqn:E.
  - apply String.eqb_eq in E as ->. intros [= ->]. left.
  - intros H. right. auto.
Qed.

Lemma dict_get_set k k' v d :
  dict_get k (dict_set k' v d) = if String.eqb k k' then Some v else dict_get k d.
Proof.
  induction d as [|[k0 v0] r IH]; simpl.
  - by destruct (String.eqb k k').
  - destruct (String.eqb k' k0) eqn:E0; simpl.
    + apply String.eqb_eq in E0 as ->. by destruct (String.eqb k k0).
    + rewrite IH. destruct (String.eqb k k0) eqn:E1; [|done].
      apply String.eqb_eq in E1 as ->.
      rewrite String.eqb_sym in E0. by rewrite E0.
Qed.

Lemma dict_set_elem k v k' v' d :
  (k', v') ∈ dict_set k v d -> (k', v') = (k, v) \/ (k', v') ∈ d.
Proof.
  induction d as [|[k0 v0] r IH]; simpl.
  - intros H. apply list_elem_of_singleton in H. auto.
  - destruct (String.eqb k k0) eqn:E.
    + apply String.eqb_eq in E as ->.
      intros [->|H]%elem_of_cons; [by left|]. right. by right.
    + intros [->|H]%elem_of_cons; [right; left|].
      destruct (IH H) as [?|?]; [by left|]. right. by right.
Qed.

(** Assignments never remove a key. *)
Lemma dict_mem_set k k' v d :
  dict_mem k d = true -> dict_mem k (dict_set k' v d) = true.
Proof.
  unfold dict_mem. rewrite dict_get_set. by destruct (String.eqb k k').
Qed.

Lemma dict_mem_set_same k v d : dict_mem k (dict_set k v d) = true.
Proof. unfold dict_mem. by rewrite dict_get_set, String.eqb_refl. Qed.

Lemma dict_mem_set_all k keys v d :
  dict_mem k d = true -> dict_mem k (dict_set_all keys v d) = true.
Proof.
  unfold dict_set_all. revert d.
  induction keys as [|k0 ks IH]; intros d H; simpl; [done|].
  by apply IH, dict_mem_set.
Qed.

Lemma dict_mem_set_all_key k keys v d :
  k ∈ keys -> dict_mem k (dict_set_all keys v d) = true.
Proof.
  unfold dict_set_all. revert d.
  induction keys as [|k0 ks IH]; intros d H; simpl.
  - by apply elem_of_nil in H.
  - apply elem_of_cons in H as [->|H]; [|by apply IH].
    apply dict_mem_set_all, dict_mem_set_same.
Qed.

Lemma dict_set_all_elem keys v k' v' d :
  (k', v') ∈ dict_set_all keys v d -> (k' ∈ keys /\ v' = v) \/ (k', v') ∈ d.
Proof.
  unfold dict_set_all. revert d.
  induction keys as [|k0 ks IH]; intros d H; simpl in *; [by right|].
  destruct (IH _ H) as [[? ->]|H']; [left; split; [by right|done]|].
  destruct (dict_set_elem _ _ _ _ _ H') as [[= -> ->]|?]; [|by right].
  left. split; [left|done].
Qed.

(** The scan finds a key of the dictionary that equals the label up to
    case, and it finds one whenever the label itself is a key. *)
Lemma ci_scan_elem label v d :
  ci_scan label d = Some v ->
  exists k, (k, v) ∈ d /\ str_lower k = str_lower label.
Proof.
  induction d as [|[k0 v0] r IH]; simpl; [done|].
  unfold ci_eqb. destruct (String.eqb (str_lower k0) (str_lower label)) eqn:E.
  - apply String.eqb_eq in E. intros [= ->]. exists k0. split; [left|done].
  - intros H. destruct (IH H) as (k & Hk & El). exists k. split; [by right|done].
Qed.

Lemma ci_scan_none label d :
  ci_scan label d = None <-> Forall (fun kv => ci_eqb label (fst kv) = false) d.
Proof.
  induction d as [|[k0 v0] r IH]; simpl.
  - split; [constructor|done].
  - destruct (ci_eqb label k0) eqn:E.
    + split; [done|]. intros H. apply Forall_cons in H as [H _]. simpl in H. congruence.
    + rewrite IH. split; [by constructor|]. by intros [_ ?]%Forall_cons.
Qed.

Lemma ci_scan_first label d : FirstMatch label d (ci_scan label d).
Proof.
  induction d as [|[k0 v0] r IH]; simpl.
  - constructor. constructor.
  - destruct (ci_eqb label k0) eqn:E.
    + apply (first_match_some label [] k0 v0 r); [constructor|done].
    + inversion IH as [d' Hall Hd Hr | before key val after Hall Hkey Hd Hr].
      * constructor. by constructor.
      * apply (first_match_some label ((k0, v0) :: before) key val after); [|done].
        by constructor.
Qed.

Lemma ci_scan_mem label d :
  dict_mem label d = true -> exists v, ci_scan label d = Some v.
Proof.
  unfold dict_mem. destruct (dict_get label d) as [v|] eqn:E; [intros _|done].
  apply dict_get_elem in E.
  destruct (ci_scan label d) as [w|] eqn:Es; [by exists w|].
  apply ci_scan_none in Es. rewrite Forall_forall in Es.
  specialize (Es _ E). unfold ci_eqb in Es. simpl in Es.
  by rewrite String.eqb_refl in Es.
Qed.
End PyDictFacts.

(** ** Resolution order (C1) *)

Section MethodsFacts.
Context {Str : Type} `{EqDecision Str}.
Variable lower : Str -> Str.

Lemma scan_first (label : Str) (d : list (Str * Z)) :
  Methods.first_match lower label d (Methods.scan lower label d).
Proof.
  induction d as [|[k0 v0] r IH]; simpl.
  - constructor. constructor.
  - destruct (decide (lower k0 = lower label)) as [E|E].
    + apply (Methods.first_some lower label [] k0 v0 r); [constructor|done].
    + inversion IH as [d' Hall Hd Hr | before key val after Hall Hkey Hd Hr].
      * constructor. by constructor.
      * apply (Methods.first_some lower label ((k0, v0) :: before) key val after); [|done].
        by constructor.
Qed.
End MethodsFacts.

(** With the methods of this file, the resolvers over the string
    methods are the resolvers of the two scripts. *)
Lemma methods_get (k : string) (d : pydict Z) : Methods.get k d = dict_get k d.
Proof.
  induction d as [|[k' v] r IH]; [done|]. simpl. rewrite IH.
  destruct (decide (k = k')) as [->|Hne].
  - by rewrite String.eqb_refl.
  - apply String.eqb_neq in Hne. by rewrite Hne.
Qed.

Lemma methods_scan (label : string) (d : pydict Z) :
  Methods.scan str_lower label d = ci_scan label d.
Proof.
  induction d as [|[k' v] r IH]; [done|]. simpl. rewrite IH. unfold ci_eqb.
  destruct (decide (str_lower k' = str_lower label)) as [E|E].
  - by rewrite E, String.eqb_refl.
  - apply String.eqb_neq in E. by rewrite E.
Qed.

Lemma methods_category_id_of (table : pydict Z) (label : string) :
  Methods.category_id_of str_isdigit ascii_int str_lower (str_replace " " "_") table label
  = Coco.category_id_of table label.
Proof.
  unfold Methods.category_id_of, Coco.category_id_of, ascii_int.
  destruct (str_isdigit label); [done|].
  fold (normalized label). by rewrite methods_get, methods_scan.
Qed.

Lemma methods_label_id_of (table : pydict Z) (label : string) :
  Methods.label_id_of str_lower table label = Updater.label_id_of table label.
Proof.
  unfold Methods.label_id_of, Updater.label_id_of. by rewrite methods_get, methods_scan.
Qed.

(** C1, as the code has it, whatever the string methods do.  The
    exporter's resolver takes a label that passes [isdigit] to [int],
    whose value is the id and whose [ValueError] skips the row; otherwise
    it looks up the lower-cased label with spaces turned into
    underscores, otherwise it scans the table for the first key equal up
    to case; it never looks up the label as written.  The updater's
    resolver looks up the label as written, otherwise scans the table for
    the first key equal up to case; it has no step for digit strings and
    none for the normalized spelling.  In both, a label settled by a step
    is not handed to a later one. *)
Theorem resolution_order {Str : Type} `{EqDecision Str}
    (isdigit : Str -> bool) (to_int : Str -> option Z) (lower underscored : Str -> Str)
    (table : list (Str * Z)) (label : Str) :
  let exporter := Methods.category_id_of isdigit to_int lower underscored table in
  let updater := Methods.label_id_of lower table in
  (isdigit label = true -> exporter label = to_int label)
  /\ (forall v, isdigit label = false ->
        Methods.get (underscored (lower label)) table = Some v ->
        exporter label = Some v)
  /\ (isdigit label = false ->
        Methods.get (underscored (lower label)) table = None ->
        Methods.first_match lower label table (exporter label))
  /\ (forall v, Methods.get label table = Some v -> updater label = Some v)
  /\ (Methods.get label table = None ->
        Methods.first_match lower label table (updater label)).
Proof.
  intros exporter updater.
  unfold exporter, updater, Methods.category_id_of, Methods.label_id_of.
  repeat split.
  - by intros ->.
  - by intros v -> ->.
  - intros -> ->. apply scan_first.
  - by intros v ->.
  - intros ->. apply scan_first.
Qed.

(** The five clauses of [resolution_order] with the methods of this file
    on a concrete table, and the first clause for a label that passes
    [isdigit] and that [int] rejects. *)
Lemma resolution_order_witness :
  let table := Coco.load_labelmap lm_rust in
  let exporter := Methods.category_id_of str_isdigit ascii_int str_lower (str_replace " " "_") in
  let updater := Methods.label_id_of str_lower in
  exporter table "2" = Some 2
  /\ exporter table "Rust leaf" = Some 2
  /\ Methods.first_match str_lower "rust" (Coco.load_labelmap [entry 1 1 "Rust"])
       (exporter (Coco.load_labelmap [entry 1 1 "Rust"]) "rust")
  /\ updater table "Rust Leaf" = Some 2
  /\ Methods.first_match str_lower "rust LEAF" table (updater table "rust LEAF")
  /\ Methods.category_id_of (fun _ => true) (fun _ => None) str_lower
       (str_replace " " "_") table "rust_leaf" = None.
Proof.
  intros table exporter updater.
  destruct (resolution_order str_isdigit ascii_int str_lower (str_replace " " "_")
              table "2") as (H1 & _).
  destruct (resolution_order str_isdigit ascii_int str_lower (str_replace " " "_")
              table "Rust leaf") as (_ & H2 & _).
  destruct (resolution_order str_isdigit ascii_int str_lower (str_replace " " "_")
              (Coco.load_labelmap [entry 1 1 "Rust"]) "rust") as (_ & _ & H3 & _).
  destruct (resolution_order str_isdigit ascii_int str_lower (str_replace " " "_")
              table "Rust Leaf") as (_ & _ & _ & H4 & _).
  destruct (resolution_order str_isdigit ascii_int str_lower (str_replace " " "_")
              table "rust LEAF") as (_ & _ & _ & _ & H5).
  destruct (resolution_order (fun _ : string => true) (fun _ : string => None) str_lower
              (str_replace " " "_") table "rust_leaf") as (H6 & _).
  split; [exact (H1 eq_refl)|].
  split; [exact (H2 2 eq_refl eq_refl)|].
  split; [exact (H3 eq_refl eq_refl)|].
  split; [exact (H4 2 eq_refl)|].
  split; [exact (H5 eq_refl)|].
  exact (H6 eq_refl).
Defined.

(** C1 as worded fails on both resolvers.  In the exporter the label
    "Bell Pepper Leaf" is a key of the table with value 2, yet the
    exporter answers 1, the value of the normalized spelling.  In the
    updater the digit string "3" is not resolved at all, and "a b_c",
    whose normalized spelling "a_b_c" is a key, is not resolved either. *)
Lemma resolution_order_differs :
  (dict_get "Bell Pepper Leaf" (Coco.load_labelmap lm_mixed) = Some 2
   /\ spec_resolve (Coco.load_labelmap lm_mixed) "Bell Pepper Leaf" = Some 2
   /\ Coco.category_id_of (Coco.load_labelmap lm_mixed) "Bell Pepper Leaf" = Some 1)
  /\ (spec_resolve (Updater.build_table lm_rust []) "3" = Some 3
      /\ Updater.label_id_of (Updater.build_table lm_rust []) "3" = None)
  /\ (spec_resolve (Updater.build_table [background; entry 1 1 "a_b_c"] []) "a b_c" = Some 1
      /\ Updater.label_id_of (Updater.build_table [background; entry 1 1 "a_b_c"] []) "a b_c"
         = None).
Proof. vm_compute. repeat split. Qed.

(** ** Variant tables (C5) *)

Lemma substring_all s : String.substring 0 (String.length s) s = s.
Proof. induction s as [|c r IH]; simpl; [done|]. by rewrite IH. Qed.

Lemma substring_split (k : nat) s :
  (k <= String.length s)%nat ->
  s = String.substring 0 k s +:+ String.substring k (String.length s - k) s.
Proof.
  revert k. induction s as [|c r IH]; intros k Hk; simpl in *.
  - by destruct k.
  - destruct k as [|k]; simpl.
    + by rewrite substring_all.
    + change (String c r
              = String c (String.substring 0 k r
                          +:+ String.substring k (String.length r - k) r)).
      f_equal. apply IH. lia.
Qed.

Lemma str_endswith_split suffix s :
  str_endswith suffix s = true ->
  s = str_drop_last (String.length suffix) s +:+ suffix.
Proof.
  unfold str_endswith, str_drop_last. intros H.
  apply andb_true_iff in H as [Hle Heq].
  apply Nat.leb_le in Hle. apply String.eqb_eq in Heq.
  rewrite (substring_split (String.length s - String.length suffix) s) at 1 by lia.
  f_equal. rewrite <- Heq at 3. f_equal. lia.
Qed.

Lemma coco_variants_normalized n k :
  k ∈ Coco.variants n -> normalized k = normalized n.
Proof.
  unfold Coco.variants. rewrite !elem_of_cons, elem_of_nil.
  intros [->|[->|[->|[->|[]]]]];
    rewrite ?normalized_title, ?normalized_unspace; done.
Qed.

Lemma updater_variations_normalized n k :
  k ∈ Updater.variations n -> normalized k = normalized n.
Proof.
  unfold Updater.variations. rewrite elem_of_app, !elem_of_cons, elem_of_nil.
  intros [[->|[->|[->|[->|[->|[]]]]]]|H];
    rewrite ?normalized_title, ?normalized_capitalize, ?normalized_unspace; try done.
  destruct (str_endswith "_leaf" n) eqn:E; [|by apply elem_of_nil in H].
  apply str_endswith_split in E. simpl String.length in E.
  assert (En : normalized n = normalized (str_drop_last 5 n) +:+ normalized " leaf").
  { rewrite E at 1. by rewrite normalized_app. }
  rewrite En. rewrite !elem_of_cons, elem_of_nil in H.
  destruct H as [->|[->|[->|[]]]];
    rewrite normalized_app, ?normalized_title, ?normalized_unspace; done.
Qed.

Lemma spellings_coco n s : s ∈ spellings n -> s ∈ Coco.variants n.
Proof.
  unfold spellings, Coco.variants. rewrite !elem_of_cons, !elem_of_nil. tauto.
Qed.

Lemma spellings_updater n s : s ∈ spellings n -> s ∈ Updater.variations n.
Proof.
  unfold spellings, Updater.variations.
  rewrite elem_of_app, !elem_of_cons, !elem_of_nil. tauto.
Qed.

Section Tables.
Variable labelmap : list LabelMapEntry.

Lemma sound_set k v d item :
  item ∈ labelmap -> 0 < object_id item ->
  normalized k = normalized (object_name item) -> v = label_id item ->
  sound labelmap d -> sound labelmap (dict_set k v d).
Proof.
  intros Hin Hpos Hk Hv Hd k' v' H.
  destruct (dict_set_elem _ _ _ _ _ H) as [[= -> ->]|H']; [|by apply Hd].
  by exists item.
Qed.

Section Variations.
Variable vars : string -> list string.
Hypothesis vars_normalized : forall n k, k ∈ vars n -> normalized k = normalized n.

Lemma add_entry_sound d item :
  item ∈ labelmap -> sound labelmap d -> sound labelmap (add_entry vars d item).
Proof.
  intros Hin Hd. unfold add_entry.
  destruct (0 <? object_id item) eqn:E; [|done].
  apply Z.ltb_lt in E. intros k v H.
  destruct (dict_set_all_elem _ _ _ _ _ H) as [[Hk ->]|H']; [|by apply Hd].
  exists item. repeat split; try done. by apply vars_normalized.
Qed.

Lemma add_entries_sound items d :
  (forall item, item ∈ items -> item ∈ labelmap) ->
  sound labelmap d -> sound labelmap (fold_left (add_entry vars) items d).
Proof.
  revert d. induction items as [|item r IH]; intros d Hsub Hd; simpl; [done|].
  apply IH.
  - intros x Hx. apply Hsub. by right.
  - apply add_entry_sound; [apply Hsub; left|done].
Qed.

Lemma add_entries_mem_keep k items d :
  dict_mem k d = true -> dict_mem k (fold_left (add_entry vars) items d) = true.
Proof.
  revert d. induction items as [|item r IH]; intros d H; simpl; [done|].
  apply IH. unfold add_entry. destruct (0 <? object_id item); [|done].
  by apply dict_mem_set_all.
Qed.

Lemma add_entries_mem k item items d :
  item ∈ items -> 0 < object_id item -> k ∈ vars (object_name item) ->
  dict_mem k (fold_left (add_entry vars) items d) = true.
Proof.
  revert d. induction items as [|x r IH]; intros d Hin Hpos Hk; simpl.
  - by apply elem_of_nil in Hin.
  - apply elem_of_cons in Hin as [<-|Hin]; [|by apply IH].
    apply add_entries_mem_keep. unfold add_entry.
    apply Z.ltb_lt in Hpos. rewrite Hpos.
    by apply dict_mem_set_all_key.
Qed.
End Variations.

Lemma load_labelmap_sound : sound labelmap (Coco.load_labelmap labelmap).
Proof.
  apply (add_entries_sound Coco.variants coco_variants_normalized); [done|].
  intros k v H. by apply elem_of_nil in H.
Qed.

Lemma variation_table_sound : sound labelmap (Updater.variation_table labelmap).
Proof.
  apply (add_entries_sound Updater.variations updater_variations_normalized); [done|].
  intros k v H. by apply elem_of_nil in H.
Qed.

Lemma entry_named_spec name item :
  Updater.entry_named name labelmap = Some item ->
  item ∈ labelmap /\ 0 < object_id item /\ object_name item = name.
Proof.
  unfold Updater.entry_named. intros H.
  apply find_some in H as [Hin Hb]. apply list_elem_of_In in Hin.
  apply andb_true_iff in Hb as [Hpos Hname].
  apply Z.ltb_lt in Hpos. apply String.eqb_eq in Hname. done.
Qed.

Lemma add_original_sound d orig :
  sound labelmap d -> sound labelmap (Updater.add_original labelmap d orig).
Proof.
  intros Hd. unfold Updater.add_original.
  set (d1 := match Updater.entry_named (normalized orig) labelmap with
             | Some item => dict_set orig (label_id item) d
             | None => d end).
  assert (Hd1 : sound labelmap d1).
  { subst d1. destruct (Updater.entry_named _ _) as [item|] eqn:E; [|done].
    apply entry_named_spec in E as (Hin & Hpos & Hname).
    apply (sound_set _ _ _ item); try done.
    by rewrite Hname, normalized_idem. }
  destruct (dict_mem orig d1); [done|].
  destruct (ci_scan orig d1) as [val|] eqn:E; [|done].
  apply ci_scan_elem in E as (k & Hk & Hl).
  destruct (Hd1 _ _ Hk) as (item & Hin & Hpos & Hn & Hv).
  apply (sound_set _ _ _ item); try done.
  rewrite <- Hn. symmetry. by apply normalized_lower_eq.
Qed.

Lemma add_original_mem k d orig :
  dict_mem k d = true -> dict_mem k (Updater.add_original labelmap d orig) = true.
Proof.
  intros H. unfold Updater.add_original.
  set (d1 := match Updater.entry_named (normalized orig) labelmap with
             | Some item => dict_set orig (label_id item) d
             | None => d end).
  assert (Hd1 : dict_mem k d1 = true).
  { subst d1. destruct (Updater.entry_named _ _); [by apply dict_mem_set|done]. }
  destruct (dict_mem orig d1); [done|].
  destruct (ci_scan orig d1); [by apply dict_mem_set|done].
Qed.

Lemma build_table_sound original : sound labelmap (Updater.build_table labelmap original).
Proof.
  unfold Updater.build_table.
  generalize variation_table_sound. generalize (Updater.variation_table labelmap).
  induction original as [|o r IH]; intros d Hd; simpl; [done|].
  by apply IH, add_original_sound.
Qed.

Lemma build_table_mem k original :
  dict_mem k (Updater.variation_table labelmap) = true ->
  dict_mem k (Updater.build_table labelmap original) = true.
Proof.
  unfold Updater.build_table. generalize (Updater.variation_table labelmap).
  induction original as [|o r IH]; intros d Hd; simpl; [done|].
  by apply IH, add_original_mem.
Qed.

Lemma unambiguous_spec a b :
  unambiguous labelmap = true ->
  a ∈ labelmap -> b ∈ labelmap -> 0 < object_id a -> 0 < object_id b ->
  normalized (object_name a) = normalized (object_name b) ->
  label_id a = label_id b.
Proof.
  unfold unambiguous. intros H Ha Hb Hpa Hpb Hn.
  rewrite forallb_forall in H. apply list_elem_of_In in Ha, Hb.
  specialize (H a Ha). rewrite forallb_forall in H. specialize (H b Hb).
  apply Z.ltb_lt in Hpa, Hpb. rewrite Hpa, Hpb, Hn, String.eqb_refl in H.
  simpl in H. by apply Z.eqb_eq.
Qed.
End Tables.

(** ** ASCII strings *)

Lemma is_ascii_map (f : ascii -> ascii) (s : string) :
  (forall c, (ord c <? 128)%N = true -> (ord (f c) <? 128)%N = true) ->
  is_ascii s = true -> is_ascii (str_map f s) = true.
Proof.
  intros Hf. unfold is_ascii. induction s as [|c r IH]; [done|]. simpl.
  intros [Hc Hr]%andb_true_iff. by rewrite (Hf c Hc), IH.
Qed.

Lemma chr_upper_ascii (c : ascii) :
  (ord c <? 128)%N = true -> (ord (chr_upper c) <? 128)%N = true.
Proof.
  unfold chr_upper, is_lower. intros Hc.
  destruct ((97 <=? ord c) && (ord c <=? 122))%N eqn:E; [|done].
  apply andb_true_iff in E as [E1 E2]. apply N.leb_le in E1, E2.
  unfold ord. rewrite N_ascii_embedding by (unfold ord in *; lia).
  apply N.ltb_lt. unfold ord in *. lia.
Qed.

Lemma chr_lower_ascii (c : ascii) :
  (ord c <? 128)%N = true -> (ord (chr_lower c) <? 128)%N = true.
Proof.
  unfold chr_lower, is_upper. intros Hc.
  destruct ((65 <=? ord c) && (ord c <=? 90))%N eqn:E; [|done].
  apply andb_true_iff in E as [E1 E2]. apply N.leb_le in E1, E2.
  unfold ord. rewrite N_ascii_embedding by (unfold ord in *; lia).
  apply N.ltb_lt. unfold ord in *. lia.
Qed.

Lemma is_ascii_replace (old new : ascii) (s : string) :
  (ord new <? 128)%N = true -> is_ascii s = true ->
  is_ascii (str_replace old new s) = true.
Proof.
  intros Hn. apply is_ascii_map. intros c Hc. unfold chr_replace.
  by destruct (Ascii.eqb c old).
Qed.

Lemma is_ascii_lower (s : string) : is_ascii s = true -> is_ascii (str_lower s) = true.
Proof. apply is_ascii_map, chr_lower_ascii. Qed.

Lemma is_ascii_title_from (b : bool) (s : string) :
  is_ascii s = true -> is_ascii (title_from b s) = true.
Proof.
  unfold is_ascii. revert b. induction s as [|c r IH]; intros b; [done|]. simpl.
  intros [Hc Hr]%andb_true_iff.
  destruct (is_lower c); [|destruct (is_upper c)]; simpl; rewrite IH by done;
    destruct b; rewrite ?Hc, ?chr_upper_ascii, ?chr_lower_ascii; done.
Qed.

Lemma is_ascii_title (s : string) : is_ascii s = true -> is_ascii (str_title s) = true.
Proof. apply is_ascii_title_from. Qed.

(** C5, as the code has it, for names of ASCII characters, on which
    the [str] methods of this file are those of Python: for a
    non-background entry of a labelmap in which entries with the same
    normalized name carry the same label id, each of the three spellings
    of the entry's name that [strip] leaves unchanged resolves to the
    entry's label id in the updater, and in the exporter too unless the
    spelling is a digit string.  The spellings are ASCII strings
    themselves. *)
Theorem spellings_resolve (labelmap : list LabelMapEntry) (original : list string)
    (item : LabelMapEntry) (s : string) :
  ascii_labelmap labelmap = true ->
  forallb is_ascii original = true ->
  item ∈ labelmap ->
  0 < object_id item ->
  unambiguous labelmap = true ->
  s ∈ spellings (object_name item) ->
  str_strip s = s ->
  is_ascii s = true
  /\ (str_isdigit s = false ->
      Coco.category_id_of (Coco.load_labelmap labelmap) (str_strip s) = Some (label_id item))
  /\ Updater.label_id_of (Updater.build_table labelmap original) (str_strip s)
     = Some (label_id item).
Proof.
  intros Hascii _ Hin Hpos Hun Hs Hstrip.
  split.
  { assert (Hname : is_ascii (object_name item) = true).
    { unfold ascii_labelmap in Hascii. rewrite forallb_forall in Hascii.
      by apply Hascii, list_elem_of_In. }
    unfold spellings in Hs. rewrite !elem_of_cons, elem_of_nil in Hs.
    destruct Hs as [->|[->|[->|[]]]]; [done|..].
    - by apply is_ascii_title, is_ascii_replace.
    - by apply is_ascii_title. }
  revert Hstrip. intros ->.
  assert (Hsame : forall k v other,
            other ∈ labelmap -> 0 < object_id other ->
            normalized k = normalized (object_name other) -> v = label_id other ->
            normalized k = normalized s -> v = label_id item).
  { intros k v other Ho Hpo Hk -> Hks.
    apply (unambiguous_spec labelmap); try done.
    rewrite <- Hk, Hks. by apply coco_variants_normalized, spellings_coco. }
  split.
  - intros Hdig. unfold Coco.category_id_of. rewrite Hdig.
    pose proof (load_labelmap_sound labelmap) as Hsound.
    destruct (dict_get (normalized s) (Coco.load_labelmap labelmap)) as [v|] eqn:E.
    + apply dict_get_elem in E.
      destruct (Hsound _ _ E) as (other & Ho & Hpo & Hk & Hv).
      f_equal. apply (Hsame _ _ other Ho Hpo Hk Hv), normalized_idem.
    + assert (Hmem : dict_mem s (Coco.load_labelmap labelmap) = true).
      { apply (add_entries_mem Coco.variants s item); try done.
        by apply spellings_coco. }
      destruct (ci_scan_mem _ _ Hmem) as [v Hv]. rewrite Hv. f_equal.
      apply ci_scan_elem in Hv as (k & Hk & Hl).
      destruct (Hsound _ _ Hk) as (other & Ho & Hpo & Hn & Hval).
      apply (Hsame _ _ other Ho Hpo Hn Hval). by apply normalized_lower_eq.
  - unfold Updater.label_id_of.
    assert (Hmem : dict_mem s (Updater.build_table labelmap original) = true).
    { apply build_table_mem.
      apply (add_entries_mem Updater.variations s item); try done.
      by apply spellings_updater. }
    unfold dict_mem in Hmem.
    destruct (dict_get s (Updater.build_table labelmap original)) as [v|] eqn:E; [|done].
    apply dict_get_elem in E.
    destruct (build_table_sound labelmap original _ _ E) as (other & Ho & Hpo & Hk & Hv).
    f_equal. by apply (Hsame _ _ other Ho Hpo Hk Hv).
Qed.

(** The spelling "Bell Pepper Leaf" of the entry named "bell_pepper_leaf". *)
Lemma spellings_resolve_witness :
  Coco.category_id_of (Coco.load_labelmap lm_rust) (str_strip "Bell Pepper Leaf") = Some 1
  /\ Updater.label_id_of (Updater.build_table lm_rust ["Bell_pepper leaf"])
       (str_strip "Bell Pepper Leaf") = Some 1.
Proof.
  destruct (spellings_resolve lm_rust ["Bell_pepper leaf"]
              (entry 1 1 "bell_pepper_leaf") "Bell Pepper Leaf") as (_ & H1 & H2).
  - reflexivity.
  - reflexivity.
  - right. left.
  - reflexivity.
  - reflexivity.
  - right. left.
  - reflexivity.
  - split; [exact (H1 eq_refl)|exact H2].
Defined.

(** C5 as worded fails in four ways: the background entry is in no table;
    of two entries with one name the first resolves to the label id of
    the second; a name that is a digit string is read by the exporter as
    an id; and a name with a leading underscore has a space-form spelling
    that [strip] changes into a label no key matches. *)
Lemma spellings_resolve_fails :
  (background ∈ lm_rust
   /\ Coco.category_id_of (Coco.load_labelmap lm_rust) (str_strip "background") = None
   /\ Updater.label_id_of (Updater.build_table lm_rust []) (str_strip "background") = None)
  /\ (entry 1 1 "apple_leaf" ∈ lm_twice
      /\ Coco.category_id_of (Coco.load_labelmap lm_twice) (str_strip "apple_leaf") = Some 2
      /\ Updater.label_id_of (Updater.build_table lm_twice []) (str_strip "apple_leaf")
         = Some 2)
  /\ (entry 1 3 "7" ∈ lm_digit
      /\ Coco.category_id_of (Coco.load_labelmap lm_digit) (str_strip "7") = Some 7)
  /\ (str_title (str_replace "_" " " "_leaf") ∈ spellings "_leaf"
      /\ Coco.category_id_of (Coco.load_labelmap [background; entry 1 1 "_leaf"])
           (str_strip (str_title (str_replace "_" " " "_leaf"))) = None
      /\ Updater.label_id_of (Updater.build_table [background; entry 1 1 "_leaf"] [])
           (str_strip (str_title (str_replace "_" " " "_leaf"))) = None).
Proof.
  repeat split; try (vm_compute; reflexivity).
  - left.
  - right. left.
  - right. left.
  - right. left.
Qed.

(** ** Sorting *)

Lemma str_le_trans x y z : str_le x y -> str_le y z -> str_le x z.
Proof.
  unfold str_le, String.leb. revert y z.
  induction x as [|a x IH]; intros [|b y] [|c z]; simpl; try done.
  unfold Ascii.compare.
  destruct (N.compare_spec (N_of_ascii a) (N_of_ascii b)) as [Eab|Lab|Gab];
    destruct (N.compare_spec (N_of_ascii b) (N_of_ascii c)) as [Ebc|Lbc|Gbc];
    destruct (N.compare_spec (N_of_ascii a) (N_of_ascii c)) as [Eac|Lac|Gac];
    try done; try lia.
  apply IH.
Qed.

#[global] Instance str_le_transitive : Transitive str_le.
Proof. intros x y z. apply str_le_trans. Qed.

#[global] Instance str_le_antisymm : AntiSymm (=) str_le.
Proof. intros x y. apply String.leb_antisym. Qed.

#[global] Instance str_le_total : Total str_le.
Proof. intros x y. apply String.leb_total. Qed.

Lemma sorted_sorted xs : StronglySorted str_le (sorted xs).
Proof. apply StronglySorted_merge_sort; apply _. Qed.

Lemma sorted_perm xs : sorted xs ≡ₚ xs.
Proof. apply merge_sort_Permutation. Qed.

(** A sorted list is its own sorting, and sorting does not depend on the
    order in which the elements are handed over. *)
Lemma sorted_fixed xs : StronglySorted str_le xs -> sorted xs = xs.
Proof.
  intros H. apply (StronglySorted_unique str_le); [apply sorted_sorted|done|].
  apply sorted_perm.
Qed.


Lemma sorted_set_elem (s : gset string) x : x ∈ sorted_set s <-> x ∈ s.
Proof. unfold sorted_set. by rewrite sorted_perm, elem_of_elements. Qed.

Lemma sorted_set_NoDup (s : gset string) : NoDup (sorted_set s).
Proof. unfold sorted_set. rewrite sorted_perm. apply NoDup_elements. Qed.



(** ** Split files (C3) *)

(** [create_sets_files] writes the files of [write_sets_files] for the
    stems it collects, and it does so whenever every row has a
    [filename] cell. *)
Lemma get_image_stems_total (images_dir : directory) (rows : list csv_row)
    (stems : gset string) :
  Forall (fun row => dict_mem "filename" row = true) rows ->
  exists result, Reorganizer.get_image_stems images_dir rows stems = Some result.
Proof.
  revert stems. induction rows as [|row r IH]; intros stems H; simpl.
  { by exists stems. }
  apply Forall_cons in H as [Hrow Hr]. unfold dict_mem in Hrow.
  destruct (dict_get "filename" row) as [cell|]; [|done].
  destruct (String.eqb (str_strip cell) ""); [by apply IH|].
  destruct (find_image images_dir (path_stem (str_strip cell))); by apply IH.
Qed.

Lemma create_sets_files_written (train_csv test_csv : list csv_row)
    (images_dir : directory) :
  Forall (fun row => dict_mem "filename" row = true) train_csv ->
  Forall (fun row => dict_mem "filename" row = true) test_csv ->
  exists train_stems test_stems,
    Reorganizer.get_image_stems images_dir train_csv ∅ = Some train_stems
    /\ Reorganizer.get_image_stems images_dir test_csv ∅ = Some test_stems
    /\ Reorganizer.create_sets_files train_csv test_csv images_dir
       = Some (Reorganizer.write_sets_files train_stems test_stems).
Proof.
  intros Htrain Htest.
  destruct (get_image_stems_total images_dir train_csv ∅ Htrain) as [tr Etr].
  destruct (get_image_stems_total images_dir test_csv ∅ Htest) as [te Ete].
  exists tr, te. unfold Reorganizer.create_sets_files. by rewrite Etr, Ete.
Qed.



(** ** Labelmap and categories (C4) *)

Lemma add_classes_elem (rows : list csv_row) (classes : gset string) c :
  c ∈ Reorganizer.add_classes classes rows <->
  c ∈ classes
  \/ exists row, row ∈ rows /\ c = str_strip (row_get "class" "" row)
       /\ Reorganizer.is_class_name c = true.
Proof.
  unfold Reorganizer.add_classes. revert classes.
  induction rows as [|row r IH]; intros classes; simpl.
  - split; [by left|]. intros [?|(row & H & _)]; [done|]. by apply elem_of_nil in H.
  - rewrite IH. clear IH.
    destruct (Reorganizer.is_class_name (str_strip (row_get "class" "" row))) eqn:E.
    + rewrite elem_of_union, elem_of_singleton. split.
      * intros [[->|?]|(row' & H & ? & ?)]; [right|by left|right].
        -- exists row. split; [left|done].
        -- exists row'. split; [by right|done].
      * intros [?|(row' & [->|H]%elem_of_cons & -> & ?)]; [by left; right|by left; left|].
        right. by exists row'.
    + split.
      * intros [?|(row' & H & ? & ?)]; [by left|right].
        exists row'. split; [by right|done].
      * intros [?|(row' & [->|H]%elem_of_cons & -> & ?)]; [by left|congruence|].
        right. by exists row'.
Qed.

Lemma is_class_name_spec c :
  Reorganizer.is_class_name c = true <-> c ≠ "" /\ str_isdigit c = false.
Proof.
  unfold Reorganizer.is_class_name.
  rewrite andb_true_iff, !negb_true_iff, String.eqb_neq. done.
Qed.

Lemma enumerate_lookup {A : Type} (start : Z) (xs : list A) (i : nat) :
  enumerate start xs !! i = (fun x => (start + Z.of_nat i, x)) <$> xs !! i.
Proof.
  revert start i. induction xs as [|x r IH]; intros start [|i]; simpl; try done.
  - by rewrite Z.add_0_r.
  - rewrite IH. destruct (r !! i); simpl; [|done]. do 2 f_equal. lia.
Qed.

Lemma enumerate_length {A : Type} (start : Z) (xs : list A) :
  length (enumerate start xs) = length xs.
Proof. revert start. induction xs as [|x r IH]; intros start; simpl; [done|]. by rewrite IH. Qed.

Lemma categories_of_elem (labelmap : list LabelMapEntry) (c : CocoExport.Category) :
  c ∈ CocoExport.categories_of labelmap <->
  exists item, item ∈ labelmap /\ 0 < object_id item
    /\ c = {| CocoExport.cat_ident := label_id item;
              CocoExport.cat_name := object_name item;
              CocoExport.supercategory := "plant_disease" |}.
Proof.
  unfold CocoExport.categories_of. rewrite list_elem_of_fmap. split.
  - intros (item & -> & H). apply list_elem_of_filter in H as [? ?]. by exists item.
  - intros (item & ? & ? & ->). exists item. split; [done|].
    by apply list_elem_of_filter.
Qed.

(** C4: the labelmap written by the reorganizer is the background entry
    with both ids 0 followed, for the sorted list of the distinct class
    names of the two CSV files (stripped cells that are neither empty nor
    digit strings), by one entry per name, the [i]-th name (from 0) with
    both ids [i + 1] and the name lower-cased with underscores for spaces;
    and the exporter's categories are exactly the entries of a labelmap
    with a positive [object_id], in labelmap order, so for this labelmap
    every entry but the background. *)
Theorem labelmap_layout (train_csv test_csv : list csv_row) :
  let classes := Reorganizer.get_all_classes [train_csv; test_csv] in
  let labelmap := Reorganizer.main_labelmap train_csv test_csv in
  ((forall c, c ∈ classes <->
       exists row, (row ∈ train_csv \/ row ∈ test_csv)
         /\ c = str_strip (row_get "class" "" row)
         /\ c ≠ "" /\ str_isdigit c = false)
   /\ NoDup classes /\ StronglySorted str_le classes)
  /\ (labelmap !! O = Some background
      /\ object_id background = 0 /\ label_id background = 0
      /\ length labelmap = S (length classes)
      /\ forall (i : nat) c, classes !! i = Some c ->
           labelmap !! S i
           = Some {| object_id := Z.of_nat i + 1;
                     label_id := Z.of_nat i + 1;
                     keyboard_shortcut := str_of_int (Z.of_nat i + 1);
                     object_name := str_replace " " "_" (str_lower c) |})
  /\ ((forall lm c, c ∈ CocoExport.categories_of lm <->
         exists item, item ∈ lm /\ 0 < object_id item
           /\ c = {| CocoExport.cat_ident := label_id item;
                     CocoExport.cat_name := object_name item;
                     CocoExport.supercategory := "plant_disease" |})
      /\ (forall lm, CocoExport.categories_of (background :: lm)
                     = CocoExport.categories_of lm)
      /\ length (CocoExport.categories_of labelmap) = length classes
      /\ forall (i : nat) c, classes !! i = Some c ->
           CocoExport.categories_of labelmap !! i
           = Some {| CocoExport.cat_ident := Z.of_nat i + 1;
                     CocoExport.cat_name := str_replace " " "_" (str_lower c);
                     CocoExport.supercategory := "plant_disease" |}).
Proof.
  intros classes labelmap.
  assert (Hsorted : StronglySorted str_le classes) by apply sorted_sorted.
  assert (Hlm : labelmap
                = background :: map Reorganizer.labelmap_entry (enumerate 1 classes)).
  { unfold labelmap, Reorganizer.main_labelmap, Reorganizer.create_labelmap. simpl.
    fold classes. by rewrite (sorted_fixed classes). }
  assert (Hpos : forall xs : list (Z * string),
            (forall p, p ∈ xs -> 0 < fst p) ->
            filter (fun item => 0 < object_id item) (map Reorganizer.labelmap_entry xs)
            = map Reorganizer.labelmap_entry xs).
  { induction xs as [|p r IH]; intros Hp; simpl; [done|].
    rewrite filter_cons_True by (simpl; apply Hp; left).
    f_equal. apply IH. intros q Hq. apply Hp. by right. }
  assert (Hcats : CocoExport.categories_of labelmap
                  = map (fun item => {| CocoExport.cat_ident := label_id item;
                                        CocoExport.cat_name := object_name item;
                                        CocoExport.supercategory := "plant_disease" |})
                        (map Reorganizer.labelmap_entry (enumerate 1 classes))).
  { rewrite Hlm. unfold CocoExport.categories_of.
    rewrite filter_cons_False by (simpl; lia). f_equal. apply Hpos.
    intros p Hp. apply list_elem_of_lookup in Hp as [i Hi].
    rewrite enumerate_lookup in Hi. destruct (classes !! i); simplify_eq/=. lia. }
  split; [|split].
  - split; [|split; [apply sorted_set_NoDup|done]].
    intros c. unfold classes, Reorganizer.get_all_classes. rewrite sorted_set_elem.
    simpl. rewrite !add_classes_elem. setoid_rewrite is_class_name_spec. split.
    + intros [[H|(row & ? & ? & ?)]|(row & ? & ? & ?)]; [set_solver|..];
        exists row; auto.
    + intros (row & [?|?] & ? & ?); [left; right|right]; by exists row.
  - rewrite Hlm. repeat split; try done.
    + simpl. by rewrite length_map, enumerate_length.
    + intros i c Hc. simpl. rewrite list_lookup_fmap, enumerate_lookup, Hc. simpl.
      unfold Reorganizer.labelmap_entry, normalized. simpl.
      by replace (1 + Z.of_nat i) with (Z.of_nat i + 1) by lia.
  - split; [apply categories_of_elem|split; [|split]].
    + intros lm. unfold CocoExport.categories_of.
      by rewrite filter_cons_False by (simpl; lia).
    + by rewrite Hcats, !length_map, enumerate_length.
    + intros i c Hc. rewrite Hcats, !list_lookup_fmap, enumerate_lookup, Hc. simpl.
      unfold normalized. by replace (1 + Z.of_nat i) with (Z.of_nat i + 1) by lia.
Qed.

(** Three class names over the two files: "Apple leaf" sorts first and
    gets the id 1. *)
Lemma labelmap_layout_witness :
  Reorganizer.get_all_classes [flat_train; flat_test]
  = ["Apple leaf"; "Rust leaf"; "apple Scab"]
  /\ Reorganizer.main_labelmap flat_train flat_test !! 1%nat
     = Some (entry 1 1 "apple_leaf")
  /\ CocoExport.categories_of (Reorganizer.main_labelmap flat_train flat_test) !! 2%nat
     = Some {| CocoExport.cat_ident := 3;
               CocoExport.cat_name := "apple_scab";
               CocoExport.supercategory := "plant_disease" |}.
Proof.
  assert (Hc : Reorganizer.get_all_classes [flat_train; flat_test]
               = ["Apple leaf"; "Rust leaf"; "apple Scab"]) by (vm_compute; reflexivity).
  destruct (labelmap_layout flat_train flat_test) as (_ & (_ & _ & _ & _ & Hlm) & (_ & _ & _ & Hcat)).
  split; [exact Hc|]. split.
  - rewrite (Hlm O "Apple leaf") by (rewrite Hc; reflexivity). reflexivity.
  - rewrite (Hcat 2%nat "apple Scab") by (rewrite Hc; reflexivity). reflexivity.
Defined.

(** ** Digit strings *)

Lemma str_isdigit_forall s :
  str_isdigit s = true <-> s ≠ "" /\ str_forall is_digit s = true.
Proof.
  destruct s as [|c r]; simpl.
  - split; [done|]. by intros [].
  - split; [by intros ->|]. by intros [_ ->].
Qed.

Lemma str_forall_map p f s :
  (forall c, p (f c) = p c) -> str_forall p (str_map f s) = str_forall p s.
Proof. intros H. induction s as [|c r IH]; simpl; [done|]. by rewrite H, IH. Qed.

Lemma str_forall_app p s t :
  str_forall p (s +:+ t) = str_forall p s && str_forall p t.
Proof.
  induction s as [|c r IH]; [done|].
  change (p c && str_forall p (r +:+ t) = p c && str_forall p r && str_forall p t).
  by rewrite IH, andb_assoc.
Qed.

Lemma str_isdigit_map f s :
  (forall c, is_digit (f c) = is_digit c) -> str_isdigit (str_map f s) = str_isdigit s.
Proof.
  intros H. destruct s as [|c r]; [done|].
  change (str_forall is_digit (str_map f (String c r)) = str_forall is_digit (String c r)).
  by apply str_forall_map.
Qed.

Lemma str_isdigit_lower s : str_isdigit (str_lower s) = str_isdigit s.
Proof. apply str_isdigit_map, is_digit_chr_lower. Qed.

Lemma str_isdigit_unspace s : str_isdigit (str_replace "_" " " s) = str_isdigit s.
Proof. apply str_isdigit_map, is_digit_unspace. Qed.

Lemma str_forall_title b s :
  str_forall is_digit (title_from b s) = str_forall is_digit s.
Proof.
  revert b. induction s as [|c r IH]; intros b; simpl; [done|].
  destruct (is_lower c), (is_upper c), b; simpl;
    rewrite ?is_digit_chr_upper, ?is_digit_chr_lower, IH; done.
Qed.

Lemma str_isdigit_title s : str_isdigit (str_title s) = str_isdigit s.
Proof.
  destruct s as [|c r]; [done|].
  transitivity (str_forall is_digit (str_title (String c r))).
  - unfold str_title. simpl. by destruct (is_lower c), (is_upper c).
  - apply str_forall_title.
Qed.

Lemma str_isdigit_capitalize s : str_isdigit (str_capitalize s) = str_isdigit s.
Proof.
  destruct s as [|c r]; [done|].
  change (is_digit (chr_upper c) && str_forall is_digit (str_lower r)
          = is_digit c && str_forall is_digit r).
  rewrite is_digit_chr_upper. f_equal. apply str_forall_map, is_digit_chr_lower.
Qed.

Lemma str_isdigit_leaf s : str_isdigit (s +:+ " leaf") = false.
Proof.
  destruct (str_isdigit (s +:+ " leaf")) eqn:E; [|done].
  apply str_isdigit_forall in E as [_ E].
  rewrite str_forall_app in E. apply andb_true_iff in E as [_ E]. done.
Qed.

Lemma updater_variations_nodigit n k :
  str_isdigit n = false -> k ∈ Updater.variations n -> str_isdigit k = false.
Proof.
  intros Hn. unfold Updater.variations. rewrite elem_of_app, !elem_of_cons, elem_of_nil.
  intros [[->|[->|[->|[->|[->|[]]]]]]|H];
    rewrite ?str_isdigit_title, ?str_isdigit_capitalize, ?str_isdigit_unspace; try done.
  destruct (str_endswith "_leaf" n); [|by apply elem_of_nil in H].
  rewrite !elem_of_cons, elem_of_nil in H.
  destruct H as [->|[->|[->|[]]]]; apply str_isdigit_leaf.
Qed.

(** A digit string has no space to strip. *)
Lemma is_digit_not_space c : is_digit c = true -> is_space c = false.
Proof. ascii_cases c. Qed.

Lemma str_lstrip_digits s : str_forall is_digit s = true -> str_lstrip s = s.
Proof.
  destruct s as [|c r]; simpl; [done|]. intros [Hc _]%andb_true_iff.
  by rewrite (is_digit_not_space c Hc).
Qed.

Lemma str_rstrip_digits s : str_forall is_digit s = true -> str_rstrip s = s.
Proof.
  induction s as [|c r IH]; simpl; [done|]. intros [Hc Hr]%andb_true_iff.
  rewrite (IH Hr), (is_digit_not_space c Hc). by destruct r.
Qed.

Lemma str_strip_digits s : str_isdigit s = true -> str_strip s = s.
Proof.
  intros [_ H]%str_isdigit_forall. unfold str_strip.
  by rewrite str_lstrip_digits, str_rstrip_digits.
Qed.

Lemma is_digit_pretty_char x : is_digit (pretty_N_char x) = true.
Proof. unfold pretty_N_char. by repeat case_match. Qed.

Lemma pretty_N_go_digits x s :
  s ≠ "" -> str_forall is_digit s = true ->
  pretty_N_go x s ≠ "" /\ str_forall is_digit (pretty_N_go x s) = true.
Proof.
  revert s. induction (N.lt_wf_0 x) as [x _ IH]; intros s Hne Hs.
  destruct (decide (x = 0)%N) as [->|Hx].
  - by rewrite pretty_N_go_0.
  - rewrite pretty_N_go_step by lia. apply IH.
    + apply N.div_lt; lia.
    + done.
    + simpl. by rewrite is_digit_pretty_char, Hs.
Qed.

(** [str(n)] of a non-negative integer is a digit string. *)
Lemma str_of_int_isdigit n : 0 <= n -> str_isdigit (str_of_int n) = true.
Proof.
  intros Hn. unfold str_of_int, pretty, pretty_Z.
  destruct n as [|p|p]; [done| |lia].
  unfold pretty, pretty_positive, pretty, pretty_N.
  destruct (decide (N.pos p = 0%N)); [done|].
  rewrite pretty_N_go_step by lia.
  apply str_isdigit_forall, pretty_N_go_digits; [done|].
  simpl. by rewrite is_digit_pretty_char.
Qed.

(** ** Running the updater (C6) *)

Section UpdaterFacts.
Import Updater UpdaterRun.
Variable labelmap : list LabelMapEntry.
Hypothesis plain : plain_labelmap labelmap = true.

Lemma plain_spec item :
  item ∈ labelmap -> 0 < object_id item ->
  str_isdigit (object_name item) = false /\ 0 <= label_id item.
Proof.
  intros Hin Hpos. unfold plain_labelmap in plain.
  rewrite forallb_forall in plain. apply list_elem_of_In in Hin.
  specialize (plain item Hin). unfold plain_entry in plain.
  apply Z.ltb_lt in Hpos. rewrite Hpos in plain. simpl in plain.
  apply andb_true_iff in plain as [H1 H2].
  apply negb_true_iff in H1. apply Z.leb_le in H2. done.
Qed.

Lemma add_variations_nodigit (items : list LabelMapEntry) d :
  (forall item, item ∈ items -> item ∈ labelmap) ->
  nodigit d ->
  nodigit
    (fold_left
       (fun class_to_id item =>
          if 0 <? object_id item
          then dict_set_all (variations (object_name item)) (label_id item) class_to_id
          else class_to_id)
       items d).
Proof.
  revert d. induction items as [|item r IH]; intros d Hsub Hd; cbn [fold_left]; [done|].
  apply IH; [intros x Hx; apply Hsub; by right|].
  destruct (0 <? object_id item) eqn:E; [|done].
  apply Z.ltb_lt in E. intros k v H.
  destruct (dict_set_all_elem _ _ _ _ _ H) as [[Hk _]|H']; [|by apply (Hd k v)].
  apply (updater_variations_nodigit (object_name item)); [|done].
  apply plain_spec; [apply Hsub; left|done].
Qed.

Lemma variation_table_nodigit : nodigit (variation_table labelmap).
Proof.
  apply add_variations_nodigit; [done|].
  intros k v H. by apply elem_of_nil in H.
Qed.

Lemma add_original_nodigit d orig :
  str_isdigit orig = false -> nodigit d -> nodigit (add_original labelmap d orig).
Proof.
  intros Ho Hd. unfold add_original.
  assert (Hset : forall v d', nodigit d' -> nodigit (dict_set orig v d')).
  { intros v d' Hd' k' v' H.
    destruct (dict_set_elem _ _ _ _ _ H) as [[= -> ->]|?]; [done|by apply (Hd' k' v')]. }
  set (d1 := match entry_named (normalized orig) labelmap with
             | Some item => dict_set orig (label_id item) d
             | None => d end).
  assert (Hd1 : nodigit d1).
  { subst d1. destruct (entry_named _ _); [by apply Hset|done]. }
  destruct (dict_mem orig d1); [done|].
  destruct (ci_scan orig d1); [by apply Hset|done].
Qed.

Lemma build_table_nodigit original :
  Forall (fun c => str_isdigit c = false) original ->
  nodigit (build_table labelmap original).
Proof.
  unfold build_table. generalize variation_table_nodigit.
  generalize (variation_table labelmap).
  induction original as [|o r IH]; intros d Hd Hall; simpl; [done|].
  apply Forall_cons in Hall as [Ho Hr].
  apply IH; [|done]. by apply add_original_nodigit.
Qed.

(** A digit string finds no key, neither as written nor up to case. *)
Lemma digit_label_unresolved d label :
  nodigit d -> str_isdigit label = true -> label_id_of d label = None.
Proof.
  intros Hd Hl. unfold label_id_of.
  destruct (dict_get label d) as [v|] eqn:E.
  { apply dict_get_elem in E. apply Hd in E. congruence. }
  destruct (ci_scan label d) as [v|] eqn:Es; [|done].
  apply ci_scan_elem in Es as (k & Hk & Hlow). apply Hd in Hk.
  rewrite <- str_isdigit_lower, Hlow, str_isdigit_lower in Hk. congruence.
Qed.

(** The ids written by the updater are not negative. *)
Lemma resolved_nonneg original label v :
  label_id_of (build_table labelmap original) label = Some v -> 0 <= v.
Proof.
  unfold label_id_of. intros H.
  assert (exists k, (k, v) ∈ build_table labelmap original) as [k Hk].
  { destruct (dict_get label _) as [w|] eqn:E.
    - injection H as ->. exists label. by apply dict_get_elem.
    - apply ci_scan_elem in H as (k & Hk & _). by exists k. }
  destruct (build_table_sound labelmap original _ _ Hk) as (item & Hin & Hpos & _ & ->).
  by apply plain_spec.
Qed.

Section OneTable.
Variable original : list string.
Hypothesis original_nodigit : Forall (fun c => str_isdigit c = false) original.
Let table := build_table labelmap original.

Lemma update_row_numeric row :
  ((length row <? 6)%nat || str_isdigit (str_strip (nth 5 row ""))) = true ->
  update_row table row = (row, false).
Proof.
  unfold update_row. intros H.
  destruct (6 <=? length row)%nat eqn:E; [|done].
  apply Nat.leb_le in E.
  apply orb_true_iff in H as [H|H]; [apply Nat.ltb_lt in H; lia|].
  rewrite digit_label_unresolved; [done| |done].
  by apply build_table_nodigit.
Qed.

(** A row that went through the loop once goes through it unchanged. *)
Lemma update_row_again row :
  update_row table (fst (update_row table row)) = (fst (update_row table row), false).
Proof.
  unfold update_row at 2 3.
  destruct (6 <=? length row)%nat eqn:E.
  - destruct (label_id_of table (str_strip (nth 5 row ""))) as [v|] eqn:Ev; simpl.
    + apply update_row_numeric. apply orb_true_iff. right.
      apply Nat.leb_le in E.
      assert (Hnth : nth 5 (<[5%nat := str_of_int v]> row) "" = str_of_int v).
      { apply nth_lookup_Some. apply list_lookup_insert_eq. lia. }
      assert (Hd : str_isdigit (str_of_int v) = true).
      { apply str_of_int_isdigit. by apply (resolved_nonneg original _ v Ev). }
      by rewrite Hnth, str_strip_digits.
    + unfold update_row. by rewrite E, Ev.
  - simpl. unfold update_row. by rewrite E.
Qed.

Lemma update_rows_again body :
  map (update_row table) (map fst (map (update_row table) body))
  = map (fun row => (row, false)) (map fst (map (update_row table) body)).
Proof.
  induction body as [|row r IH]; simpl; [done|].
  by rewrite update_row_again, IH.
Qed.

Lemma existsb_unresolved (rows : list (list string)) :
  existsb snd (map (fun row => (row, false)) rows) = false.
Proof. induction rows as [|row r IH]; simpl; [done|]. done. Qed.

Lemma update_file_numeric file :
  file ≠ [] -> numeric_labels file = true -> update_file table file = Unwritten.
Proof.
  destruct file as [|header body]; [done|]. intros _ H. simpl in H.
  unfold update_file.
  replace (map (update_row table) body) with (map (fun row => (row, false)) body).
  { by rewrite existsb_unresolved. }
  rewrite forallb_forall in H. apply map_ext_in. intros row Hrow.
  symmetry. by apply update_row_numeric, H.
Qed.

Lemma update_file_unwritten file :
  update_file table file = Unwritten <->
  file ≠ [] /\ Forall (fun row => snd (update_row table row) = false) (tail file).
Proof.
  destruct file as [|header body]; simpl.
  { split; [done|]. by intros []. }
  destruct (existsb snd (map (update_row table) body)) eqn:E.
  - split; [done|]. intros [_ H]. exfalso.
    apply existsb_exists in E as (p & Hp & Hs).
    apply in_map_iff in Hp as (row & <- & Hrow).
    rewrite Forall_forall in H. apply list_elem_of_In in Hrow.
    specialize (H row Hrow). congruence.
  - split; [|done]. intros _. split; [done|].
    apply Forall_forall. intros row Hrow. apply list_elem_of_In in Hrow.
    destruct (snd (update_row table row)) eqn:Es; [|done].
    assert (existsb snd (map (update_row table) body) = true); [|congruence].
    apply existsb_exists. exists (update_row table row). split; [|done].
    by apply in_map.
Qed.

(** After the updater has gone over a file, going over the result
    writes nothing. *)
Lemma update_file_again file :
  match update_file table file with
  | StopIteration => True
  | Unwritten => update_file table file = Unwritten
  | Written rows => update_file table rows = Unwritten
  end.
Proof.
  destruct (update_file table file) as [| |rows] eqn:E; try done.
  destruct file as [|header body]; [done|]. simpl in E.
  destruct (existsb snd (map (update_row table) body)); [|done].
  injection E as <-. simpl.
  by rewrite update_rows_again, existsb_unresolved.
Qed.

Lemma update_files_again dir dir' n :
  update_files table dir = (dir', Some n) ->
  update_files table dir' = (dir', Some O).
Proof.
  revert dir' n. induction dir as [|[name file] rest IH]; intros dir' n; simpl.
  { by intros [= <- _]. }
  pose proof (update_file_again file) as Hagain.
  destruct (update_file table file) as [| |rows] eqn:E; [done| |].
  - destruct (update_files table rest) as [rest' count] eqn:Er.
    intros [= <- ->]. simpl. rewrite E.
    by rewrite (IH rest' n eq_refl).
  - destruct (update_files table rest) as [rest' count] eqn:Er.
    intros [= <- Hc]. destruct count as [m|]; [|done].
    simpl. rewrite Hagain. by rewrite (IH rest' m eq_refl).
Qed.

(** The run completes when every file has at least its header row. *)
Lemma update_files_completes dir :
  Forall (fun f => snd f ≠ []) dir ->
  exists dir' n, update_files table dir = (dir', Some n).
Proof.
  induction dir as [|[name file] rest IH]; intros H; simpl.
  { by exists [], O. }
  apply Forall_cons in H as [Hne Hrest]. simpl in Hne.
  destruct (IH Hrest) as (rest' & n & E).
  destruct file as [|header body]; [done|].
  unfold update_file. destruct (existsb snd (map (update_row table) body)).
  - rewrite E. by exists ((name, header :: map fst (map (update_row table) body)) :: rest'), (S n).
  - rewrite E. by exists ((name, header :: body) :: rest'), n.
Qed.

Lemma update_files_numeric dir :
  Forall (fun f => snd f ≠ [] /\ numeric_labels (snd f) = true) dir ->
  update_files table dir = (dir, Some O).
Proof.
  induction dir as [|[name file] rest IH]; intros H; simpl; [done|].
  apply Forall_cons in H as [[Hne Hnum] Hrest]. simpl in *.
  rewrite (update_file_numeric file Hne Hnum). by rewrite (IH Hrest).
Qed.
End OneTable.
End UpdaterFacts.

Lemma original_classes_nodigit (flat : list (list csv_row)) (original : list string) :
  original ≡ₚ elements (UpdaterRun.original_classes flat) ->
  Forall (fun c => str_isdigit c = false) original.
Proof.
  intros Hp. apply Forall_forall. intros c Hc.
  rewrite Hp in Hc. apply elem_of_elements in Hc.
  unfold UpdaterRun.original_classes in Hc.
  assert (Hgen : forall files (acc : gset string),
            (forall x, x ∈ acc -> str_isdigit x = false) ->
            forall x, x ∈ fold_left Reorganizer.add_classes files acc ->
                      str_isdigit x = false).
  { induction files as [|f r IH]; intros acc Hacc x Hx; simpl in Hx; [by apply Hacc|].
    apply (IH (Reorganizer.add_classes acc f)); [|done].
    intros y Hy. apply add_classes_elem in Hy as [?|(row & _ & _ & Hy)]; [by apply Hacc|].
    by apply is_class_name_spec in Hy as [_ ?]. }
  apply (Hgen flat ∅); [|done]. intros x Hx. by apply elem_of_empty in Hx.
Qed.

Lemma is_digit_underscore c : is_digit (chr_replace " " "_" c) = is_digit c.
Proof. ascii_cases c. Qed.

Lemma str_isdigit_normalized s : str_isdigit (normalized s) = str_isdigit s.
Proof.
  unfold normalized, str_replace.
  rewrite str_isdigit_map by apply is_digit_underscore. apply str_isdigit_lower.
Qed.

(** Every labelmap the reorganizer writes is plain. *)
Lemma main_labelmap_plain (train_csv test_csv : list csv_row) :
  plain_labelmap (Reorganizer.main_labelmap train_csv test_csv) = true.
Proof.
  unfold Reorganizer.main_labelmap, Reorganizer.create_labelmap, plain_labelmap.
  cbn [fst forallb]. apply andb_true_iff. split; [done|].
  set (classes := Reorganizer.get_all_classes [train_csv; test_csv]).
  apply forallb_forall. intros item Hitem.
  apply in_map_iff in Hitem as ([i c] & <- & Hp).
  apply list_elem_of_In, list_elem_of_lookup in Hp as [j Hj].
  rewrite enumerate_lookup in Hj.
  destruct (sorted classes !! j) as [c'|] eqn:Ec; [|done].
  simpl in Hj. injection Hj as <- <-.
  assert (Hc : c' ∈ classes).
  { rewrite <- (sorted_perm classes). by apply list_elem_of_lookup_2 in Ec. }
  unfold classes, Reorganizer.get_all_classes in Hc. rewrite sorted_set_elem in Hc.
  simpl in Hc. rewrite !add_classes_elem in Hc.
  assert (Hd : str_isdigit c' = false).
  { destruct Hc as [[H|(row & _ & _ & H)]|(row & _ & _ & H)]; [set_solver|..];
      by apply is_class_name_spec in H as [_ ?]. }
  unfold plain_entry, Reorganizer.labelmap_entry. cbn [object_id label_id object_name fst snd].
  rewrite str_isdigit_normalized, Hd.
  replace (0 <? 1 + Z.of_nat j) with true by (symmetry; apply Z.ltb_lt; lia).
  replace (0 <=? 1 + Z.of_nat j) with true by (symmetry; apply Z.leb_le; lia).
  done.
Qed.

(** C6, as the code has it: when no non-background entry of the labelmap
    is named by a digit string or carries a negative label id (as in every
    labelmap the reorganizer writes), a file whose label cells are all
    digit strings is left unwritten; a file is left unwritten exactly when
    no row of it was resolved; a directory of such files is left as it is;
    a run completes when no file lacks its header row; and a run over the
    result of a completed run writes no file. *)
Theorem updater_numeric_idempotent (labelmap : list LabelMapEntry)
    (flat : list (list csv_row)) (original : list string)
    (csv_dir : list (string * UpdaterRun.csv_file)) :
  plain_labelmap labelmap = true ->
  original ≡ₚ elements (UpdaterRun.original_classes flat) ->
  let table := Updater.build_table labelmap original in
  (forall file, file ≠ [] -> UpdaterRun.numeric_labels file = true ->
     UpdaterRun.update_file table file = UpdaterRun.Unwritten)
  /\ (forall file, UpdaterRun.update_file table file = UpdaterRun.Unwritten <->
        file ≠ []
        /\ Forall (fun row => snd (UpdaterRun.update_row table row) = false) (tail file))
  /\ (Forall (fun f => snd f ≠ [] /\ UpdaterRun.numeric_labels (snd f) = true) csv_dir ->
        UpdaterRun.update_csv_labels labelmap original csv_dir = (csv_dir, Some O))
  /\ (Forall (fun f => snd f ≠ []) csv_dir ->
        exists dir' n,
          UpdaterRun.update_csv_labels labelmap original csv_dir = (dir', Some n))
  /\ (forall dir' n,
        UpdaterRun.update_csv_labels labelmap original csv_dir = (dir', Some n) ->
        UpdaterRun.update_csv_labels labelmap original dir' = (dir', Some O)).
Proof.
  intros Hplain Horig table.
  pose proof (original_classes_nodigit flat original Horig) as Hnd.
  split; [|split; [|split; [|split]]].
  - intros file. by apply update_file_numeric.
  - intros file. apply update_file_unwritten.
  - by apply update_files_numeric.
  - apply update_files_completes.
  - intros dir' n. by apply update_files_again.
Qed.

(** A first run resolves "Rust Leaf" and leaves the digit label alone;
    the second run writes nothing. *)
Lemma updater_numeric_idempotent_witness :
  let flat := [[[("filename", "a.jpg"); ("class", "Rust Leaf")]]] in
  let original := elements (UpdaterRun.original_classes flat) in
  let dir := [("a.csv", [csv_header; ["0"; "5"; "5"; "10"; "10"; "Rust Leaf"];
                         ["1"; "5"; "5"; "10"; "10"; "3"]])] in
  let dir' := [("a.csv", [csv_header; ["0"; "5"; "5"; "10"; "10"; "2"];
                          ["1"; "5"; "5"; "10"; "10"; "3"]])] in
  UpdaterRun.update_csv_labels lm_rust original dir = (dir', Some 1%nat)
  /\ UpdaterRun.update_csv_labels lm_rust original dir' = (dir', Some O).
Proof.
  intros flat original dir dir'.
  assert (H1 : UpdaterRun.update_csv_labels lm_rust original dir = (dir', Some 1%nat))
    by (vm_compute; reflexivity).
  split; [exact H1|].
  destruct (updater_numeric_idempotent lm_rust flat original dir) as (_ & _ & _ & _ & H).
  - reflexivity.
  - reflexivity.
  - exact (H dir' 1%nat H1).
Defined.

(** C6 as worded fails for a labelmap with a digit string among its
    names: the label "7" is rewritten to "3", and with a second entry
    named "3" a second run rewrites it again. *)
Lemma updater_rewrites_numeric :
  let file := [csv_header; ["0"; "5"; "5"; "10"; "10"; "7"]] in
  let lm := [background; entry 1 3 "7"; entry 2 5 "3"] in
  UpdaterRun.numeric_labels file = true
  /\ UpdaterRun.update_file (Updater.build_table lm_digit []) file
     = UpdaterRun.Written [csv_header; ["0"; "5"; "5"; "10"; "10"; "3"]]
  /\ UpdaterRun.update_csv_labels lm [] [("a.csv", file)]
     = ([("a.csv", [csv_header; ["0"; "5"; "5"; "10"; "10"; "3"]])], Some 1%nat)
  /\ UpdaterRun.update_csv_labels lm []
       [("a.csv", [csv_header; ["0"; "5"; "5"; "10"; "10"; "3"]])]
     = ([("a.csv", [csv_header; ["0"; "5"; "5"; "10"; "10"; "5"]])], Some 1%nat).
Proof. vm_compute. repeat split. Qed.

(** ** Exporter: numbering of images and annotations (C7) *)

Lemma enumerate_fst {A : Type} (start : Z) (xs : list A) :
  fst <$> enumerate start xs = seqZ start (Z.of_nat (length xs)).
Proof.
  revert start. induction xs as [|x r IH]; intros start.
  - done.
  - cbn [enumerate fmap list_fmap length]. rewrite seqZ_cons by lia.
    f_equal. rewrite Nat2Z.inj_succ, Z.pred_succ. apply IH.
Qed.

Section ExporterFacts.
Import CocoExport.
Variable float_of_str : string -> option float.
Variable image_size : string -> Z * Z.

Lemma add_boxes_spec iid boxes anns counter :
  add_boxes iid boxes anns counter
  = ((anns ++ map (annotation_of iid) (enumerate counter boxes))%list,
     counter + Z.of_nat (length boxes)).
Proof.
  unfold add_boxes. revert anns counter.
  induction boxes as [|box r IH]; intros anns counter.
  - simpl. by rewrite app_nil_r, Z.add_0_r.
  - cbn [fold_left enumerate map length]. rewrite IH.
    rewrite <- app_assoc. f_equal. lia.
Qed.

Lemma parse_row_area class_to_id row box :
  parse_row float_of_str class_to_id row = Some box ->
  cell_float float_of_str "width" row = Some (box_width box)
  /\ cell_float float_of_str "height" row = Some (box_height box)
  /\ box_area box = (box_width box * box_height box)%float.
Proof.
  unfold parse_row.
  destruct (cell_float float_of_str "x" row) as [x|]; [|done].
  destruct (cell_float float_of_str "y" row) as [y|]; [|done].
  destruct (cell_float float_of_str "width" row) as [w|]; [|done].
  destruct (cell_float float_of_str "height" row) as [h|]; [|done].
  simpl. destruct (Coco.category_id_of _ _) as [c|]; [|done].
  simpl. by intros [= <-].
Qed.

Lemma parse_csv_boxes_area csv class_to_id :
  Forall (fun box => box_area box = (box_width box * box_height box)%float)
         (parse_csv_boxes float_of_str csv class_to_id).
Proof.
  destruct csv as [rows|]; [|constructor]. simpl.
  apply Forall_forall. intros box Hbox.
  apply list_elem_of_omap in Hbox as (row & _ & Hrow).
  by apply parse_row_area in Hrow as (_ & _ & ?).
Qed.

(** An "area" column of the input is never read. *)
Lemma parse_row_ignores_area class_to_id row (v : string) :
  parse_row float_of_str class_to_id (dict_set "area" v row)
  = parse_row float_of_str class_to_id row.
Proof.
  unfold parse_row, cell_float, row_get. by rewrite !dict_get_set.
Qed.

Variable category : string.
Variable layout : Layout.
Variable class_to_id : pydict Z.

Lemma export_stem_numbered st stem :
  numbered st -> numbered (export_stem float_of_str image_size category layout class_to_id st stem).
Proof.
  intros [Hi Hic Ha Hac Har]. unfold export_stem.
  destruct (find_image (images_dir layout) stem) as [img|]; [|done].
  destruct (image_size img) as [w h]. rewrite add_boxes_spec.
  set (boxes := parse_csv_boxes _ _ _).
  constructor; cbn [images annotations image_id_counter ann_id_counter].
  - rewrite fmap_app, Hi, length_app. cbn [fmap list_fmap image_ident length].
    rewrite Nat.add_1_r, seqZ_S. by rewrite Hic, Z.add_comm.
  - rewrite length_app. simpl. lia.
  - rewrite fmap_app, Ha, length_app, length_map, enumerate_length.
    rewrite <- list_fmap_compose.
    change (ann_ident ∘ annotation_of (image_id_counter st)) with (@fst Z Box).
    rewrite enumerate_fst, Hac, Nat2Z.inj_add.
    rewrite seqZ_app by lia. done.
  - rewrite length_app, length_map, enumerate_length. lia.
  - apply Forall_app. split; [done|]. apply Forall_forall. intros a Hin.
    apply list_elem_of_fmap in Hin as ([i box] & -> & Hp).
    exists (box_x box), (box_y box), (box_width box), (box_height box).
    split; [done|]. simpl.
    assert (Hb : box ∈ boxes).
    { apply list_elem_of_lookup in Hp as [j Hj]. rewrite enumerate_lookup in Hj.
      destruct (boxes !! j) as [b|] eqn:Eb; [|done]. simpl in Hj.
      injection Hj as _ <-. by apply list_elem_of_lookup_2 in Eb. }
    pose proof (parse_csv_boxes_area
                  (dict_get (stem +:+ ".csv") (csv_dir layout)) class_to_id) as Hall.
    rewrite Forall_forall in Hall. by apply Hall.
Qed.

Lemma export_loop_numbered stems st :
  numbered st ->
  numbered (fold_left (export_stem float_of_str image_size category layout class_to_id) stems st).
Proof.
  revert st. induction stems as [|stem r IH]; intros st H; simpl; [done|].
  by apply IH, export_stem_numbered.
Qed.

(** The images of the result are the stems that have an image file, in
    the order of the loop. *)
Lemma export_loop_files stems st :
  file_name <$> images (fold_left (export_stem float_of_str image_size category layout class_to_id)
                                  stems st)
  = ((file_name <$> images st)
     ++ ((fun name => category +:+ "/images/" +:+ name)
           <$> omap (find_image (images_dir layout)) stems))%list.
Proof.
  revert st. induction stems as [|stem r IH]; intros st; cbn [fold_left omap list_omap].
  - by rewrite app_nil_r.
  - rewrite IH. unfold export_stem.
    destruct (find_image (images_dir layout) stem) as [img|]; [|done].
    destruct (image_size img) as [w h]. rewrite add_boxes_spec.
    cbn [images]. rewrite fmap_app, <- app_assoc. done.
Qed.

Lemma export_loop_skip stems st :
  Forall (fun stem => find_image (images_dir layout) stem = None) stems ->
  fold_left (export_stem float_of_str image_size category layout class_to_id) stems st = st.
Proof.
  revert st. induction stems as [|stem r IH]; intros st H; simpl; [done|].
  apply Forall_cons in H as [Hs Hr]. unfold export_stem. rewrite Hs.
  by apply IH.
Qed.
End ExporterFacts.

(** C7: image ids are 1, 2, ... in the order of the sorted stems that
    have an image file, annotation ids are 1, 2, ... over the whole split,
    and the area of every annotation is the product of the width and the
    height of its box; an "area" cell of the input changes nothing. *)
Theorem export_numbering (float_of_str : string -> option float)
    (image_size : string -> Z * Z) (layout : CocoExport.Layout) (split category : string) :
  let result :=
    CocoExport.collect_annotations_for_split float_of_str image_size layout split category in
  let images := fst (fst result) in
  let annotations := snd (fst result) in
  let stems :=
    sorted_set (CocoExport.target_stems
                  (dict_get (split +:+ ".txt") (CocoExport.sets_dir layout))
                  (CocoExport.images_dir layout)) in
  StronglySorted str_le stems
  /\ CocoExport.file_name <$> images
     = (fun name => category +:+ "/images/" +:+ name)
         <$> omap (find_image (CocoExport.images_dir layout)) stems
  /\ CocoExport.image_ident <$> images = seqZ 1 (Z.of_nat (length images))
  /\ CocoExport.ann_ident <$> annotations = seqZ 1 (Z.of_nat (length annotations))
  /\ Forall area_computed annotations
  /\ (forall class_to_id row v,
        CocoExport.parse_row float_of_str class_to_id (dict_set "area" v row)
        = CocoExport.parse_row float_of_str class_to_id row).
Proof.
  intros result images annotations stems.
  set (start := {| CocoExport.images := []; CocoExport.annotations := [];
                   CocoExport.image_id_counter := 1; CocoExport.ann_id_counter := 1 |}).
  assert (Hstart : numbered start) by (by constructor).
  pose proof (export_loop_numbered float_of_str image_size category layout
                (Coco.load_labelmap (CocoExport.labelmap_json layout)) stems start Hstart)
    as [Hi _ Ha _ Har].
  pose proof (export_loop_files float_of_str image_size category layout
                (Coco.load_labelmap (CocoExport.labelmap_json layout)) stems start) as Hf.
  split; [apply sorted_sorted|].
  split; [exact Hf|].
  split; [exact Hi|].
  split; [exact Ha|].
  split; [exact Har|].
  intros. apply parse_row_ignores_area.
Qed.

(** A split of three stems, one without an image: two images, numbered 1
    and 2 in sorted order, and three annotations, numbered 1 to 3. *)
Lemma export_numbering_witness :
  let result :=
    CocoExport.collect_annotations_for_split float_of_digits (fun _ => (64, 48))
      layout_two "train" "plant_diseases" in
  CocoExport.file_name <$> fst (fst result)
  = ["plant_diseases/images/a.jpg"; "plant_diseases/images/b.png"]
  /\ CocoExport.image_ident <$> fst (fst result) = [1; 2]
  /\ CocoExport.ann_ident <$> snd (fst result) = [1; 2; 3]
  /\ CocoExport.image_id <$> snd (fst result) = [1; 1; 2]
  /\ Forall area_computed (snd (fst result)).
Proof.
  intros result.
  destruct (export_numbering float_of_digits (fun _ => (64, 48))
              layout_two "train" "plant_diseases") as (_ & Hf & Hi & Ha & Har & _).
  fold result in Hf, Hi, Ha, Har.
  split; [rewrite Hf; vm_compute; reflexivity|].
  split; [rewrite Hi; vm_compute; reflexivity|].
  split; [rewrite Ha; vm_compute; reflexivity|].
  split; [vm_compute; reflexivity|exact Har].
Defined.

(** The end-to-end example of the specification. *)
Example export_end_to_end :
  CocoExport.collect_annotations_for_split float_of_digits (fun _ => (100, 200))
    {| CocoExport.labelmap_json := [background; entry 1 1 "rust_leaf"];
       CocoExport.images_dir := ["a.jpg"];
       CocoExport.csv_dir :=
         [("a.csv", [[("#item", "0"); ("x", "5"); ("y", "5"); ("width", "10");
                      ("height", "10"); ("label", "rust_leaf")]])];
       CocoExport.sets_dir := [("train.txt", "a")] |}
    "train" "plant_diseases"
  = ([ {| CocoExport.image_ident := 1;
          CocoExport.file_name := "plant_diseases/images/a.jpg";
          CocoExport.image_width := 100;
          CocoExport.image_height := 200 |} ],
     [ {| CocoExport.ann_ident := 1;
          CocoExport.image_id := 1;
          CocoExport.category_id := 1;
          CocoExport.bbox := [5%float; 5%float; 10%float; 10%float];
          CocoExport.area := 100%float;
          CocoExport.iscrowd := 0 |} ],
     [ {| CocoExport.cat_ident := 1;
          CocoExport.cat_name := "rust_leaf";
          CocoExport.supercategory := "plant_disease" |} ]).
Proof. vm_compute. reflexivity. Qed.

(** ** Exporter: stems without an image (C8) *)

Lemma find_image_none (dir : directory) (stem : string) :
  (forall ext, ext ∈ image_extensions -> dir_exists dir (stem +:+ ext) = false) ->
  find_image dir stem = None.
Proof.
  intros H. unfold find_image.
  destruct (find _ _) as [name|] eqn:E; [|done].
  apply find_some in E as [Hin Hex].
  apply in_map_iff in Hin as (ext & <- & Hext). apply list_elem_of_In in Hext.
  rewrite (H ext Hext) in Hex. done.
Qed.

Lemma list_to_set_empty_nil (l : list string) :
  list_to_set l = (∅ : gset string) <-> l = [].
Proof.
  split; [|by intros ->]. destruct l as [|x r]; [done|]. intros H.
  assert (x ∈ (∅ : gset string)) by (rewrite <- H; set_solver). set_solver.
Qed.

(** C8, as the code has it: when the split file lists stems and none of
    them has an image file under [.jpg], [.jpeg] or [.png], the split has
    no image and no annotation, and the only line printed for the split is
    the summary line with both counts at 0: the stems are skipped without
    any message. *)
Theorem export_missing_images (float_of_str : string -> option float)
    (image_size : string -> Z * Z) (layout : CocoExport.Layout)
    (out_dir category split : string) :
  let listed :=
    CocoExport.read_split_list (dict_get (split +:+ ".txt") (CocoExport.sets_dir layout)) in
  let categories := CocoExport.categories_of (CocoExport.labelmap_json layout) in
  let out_path := out_dir +:+ "/" +:+ category +:+ "_instances_" +:+ split +:+ ".json" in
  listed ≠ [] ->
  (forall stem ext, stem ∈ listed -> ext ∈ image_extensions ->
     dir_exists (CocoExport.images_dir layout) (stem +:+ ext) = false) ->
  CocoExport.collect_annotations_for_split float_of_str image_size layout split category
  = ([], [], categories)
  /\ CocoExport.convert float_of_str image_size layout out_dir category [split]
     = ([(out_path,
          CocoExport.build_coco_dict [] [] categories
            ("PlantDoc " +:+ category +:+ " " +:+ split +:+ " split"))],
        ["Generated " +:+ out_path +:+ ": 0 images, 0 annotations, "
           +:+ str_of_int (Z.of_nat (length categories)) +:+ " categories"]).
Proof.
  intros listed categories out_path Hne Hmiss.
  assert (Hc : CocoExport.collect_annotations_for_split float_of_str image_size layout
                 split category = ([], [], categories)).
  { unfold CocoExport.collect_annotations_for_split, CocoExport.target_stems.
    fold listed. destruct (decide (list_to_set listed = (∅ : gset string))) as [He|_].
    { by apply list_to_set_empty_nil in He. }
    rewrite export_loop_skip; [done|].
    apply Forall_forall. intros stem Hs. apply sorted_set_elem in Hs.
    apply elem_of_list_to_set in Hs. apply find_image_none. intros ext. by apply Hmiss. }
  split; [exact Hc|].
  unfold CocoExport.convert, CocoExport.convert_split. cbn [map]. rewrite Hc. done.
Qed.

Lemma export_missing_images_witness :
  CocoExport.collect_annotations_for_split float_of_digits (fun _ => (1, 1))
    layout_missing "train" "plant_diseases"
  = ([], [], CocoExport.categories_of lm_rust).
Proof.
  refine (proj1 (export_missing_images float_of_digits (fun _ => (1, 1))
                   layout_missing "out" "plant_diseases" "train" _ _)).
  - vm_compute. discriminate.
  - intros stem ext Hs He.
    assert (Hl : stem ∈ ["a"; "b"]) by exact Hs.
    rewrite !elem_of_cons, elem_of_nil in Hl.
    unfold image_extensions in He. rewrite !elem_of_cons, elem_of_nil in He.
    destruct Hl as [->|[->|[]]]; destruct He as [->|[->|[->|[]]]]; reflexivity.
Defined.

(** C8 as worded fails on the warning: for a split file listing "a" and
    "b", neither of which has an image, the exporter prints the summary
    line and nothing else. *)
Lemma export_prints_no_warning :
  CocoExport.read_split_list (dict_get "train.txt" (CocoExport.sets_dir layout_missing))
  = ["a"; "b"]
  /\ find_image (CocoExport.images_dir layout_missing) "a" = None
  /\ find_image (CocoExport.images_dir layout_missing) "b" = None
  /\ snd (CocoExport.convert float_of_digits (fun _ => (1, 1)) layout_missing
            "out" "plant_diseases" ["train"])
     = ["Generated out/plant_diseases_instances_train.json: 0 images, 0 annotations, 2 categories"].
Proof. vm_compute. repeat split. Qed.

(** ** Exporter: the stem set (C9) *)

Lemma read_split_list_elem split_file s :
  s ∈ CocoExport.read_split_list split_file <->
  exists line, line ∈ file_lines split_file /\ s = str_strip line /\ s ≠ "".
Proof.
  destruct split_file as [text|]; simpl.
  - rewrite list_elem_of_filter, list_elem_of_fmap. split.
    + intros (Hne & line & -> & Hl). by exists line.
    + intros (line & Hl & -> & Hne). split; [done|]. by exists line.
  - split; [by intros ?%elem_of_nil|]. by intros (line & ?%elem_of_nil & _).
Qed.

Lemma read_split_list_nil split_file :
  CocoExport.read_split_list split_file = [] <->
  Forall (fun line => str_strip line = "") (file_lines split_file).
Proof.
  split.
  - intros H. apply Forall_forall. intros line Hl.
    destruct (decide (str_strip line = "")) as [|Hne]; [done|].
    assert (Hin : str_strip line ∈ CocoExport.read_split_list split_file).
    { apply read_split_list_elem. by exists line. }
    rewrite H in Hin. by apply elem_of_nil in Hin.
  - intros H. apply elem_of_nil_inv. intros s Hs.
    apply read_split_list_elem in Hs as (line & Hl & -> & Hne).
    rewrite Forall_forall in H. by apply Hne, H.
Qed.

Lemma glob_stems_elem (dir : directory) (ext s : string) :
  s ∈ CocoExport.glob_stems dir ext <->
  exists name, name ∈ dir /\ str_endswith ext name = true /\ s = path_stem name.
Proof.
  unfold CocoExport.glob_stems.
  rewrite elem_of_list_to_set, list_elem_of_fmap. split.
  - intros (name & -> & [? ?]%list_elem_of_filter). by exists name.
  - intros (name & ? & ? & ->). exists name. split; [done|].
    by apply list_elem_of_filter.
Qed.

(** C9: when the split file is absent or all its lines are blank, the
    stems are those of the files of [images/] whose names end in [.jpg],
    [.jpeg] or [.png]; otherwise they are the stripped non-blank lines of
    the split file. *)
Theorem target_stems_spec (split_file : option string) (images_dir : directory) :
  let stems := CocoExport.target_stems split_file images_dir in
  let blank := Forall (fun line => str_strip line = "") (file_lines split_file) in
  (split_file = None -> blank)
  /\ (blank ->
      forall s, s ∈ stems <->
        exists name, name ∈ images_dir
          /\ (str_endswith ".jpg" name = true \/ str_endswith ".jpeg" name = true
              \/ str_endswith ".png" name = true)
          /\ s = path_stem name)
  /\ (~ blank ->
      forall s, s ∈ stems <->
        exists line, line ∈ file_lines split_file /\ s = str_strip line /\ s ≠ "").
Proof.
  intros stems blank. unfold stems, CocoExport.target_stems.
  split; [by intros ->; constructor|].
  destruct (decide (list_to_set (CocoExport.read_split_list split_file)
                    = (∅ : gset string))) as [He|Hne].
  - apply list_to_set_empty_nil, read_split_list_nil in He. split; [|done].
    intros _ s. rewrite !elem_of_union, !glob_stems_elem. split.
    + intros [[(name & ? & ? & ?)|(name & ? & ? & ?)]|(name & ? & ? & ?)];
        exists name; auto.
    + intros (name & ? & [?|[?|?]] & ?); [left; left|left; right|right];
        by exists name.
  - split.
    + intros Hb. exfalso. apply Hne.
      by apply list_to_set_empty_nil, read_split_list_nil.
    + intros _ s. rewrite elem_of_list_to_set. apply read_split_list_elem.
Qed.

(** An absent split file, a blank one, and one that lists two stems. *)
Lemma target_stems_spec_witness :
  let dir := ["a.jpg"; "b.png"; "notes.txt"] in
  ("a" ∈ CocoExport.target_stems None dir
   /\ "b" ∈ CocoExport.target_stems (Some " ") dir)
  /\ "x" ∈ CocoExport.target_stems (Some (" x " +:+ String "010" "y")) dir.
Proof.
  intros dir.
  destruct (target_stems_spec None dir) as (Habsent & Hscan & _).
  destruct (target_stems_spec (Some " ") dir) as (_ & Hscan' & _).
  destruct (target_stems_spec (Some (" x " +:+ String "010" "y")) dir) as (_ & _ & Hlist).
  split; [split|].
  - apply (Hscan (Habsent eq_refl)). exists "a.jpg".
    split; [left|]. split; [by left|reflexivity].
  - apply Hscan'.
    + repeat constructor.
    + exists "b.png". split; [right; left|]. split; [by right; right|reflexivity].
  - apply Hlist.
    + intros Hb. apply Forall_cons in Hb as [Hb _]. vm_compute in Hb. discriminate.
    + exists " x ". split; [left|]. split; [reflexivity|discriminate].
Defined.

(** ** Exporter: digit labels (C10) *)

Lemma dict_get_full_row (key : string) (row : csv_row) :
  dict_get key (full_row row) = Some <$> dict_get key row.
Proof.
  induction row as [|[k v] r IH]; [done|]. simpl.
  destruct (String.eqb key k); [done|]. exact IH.
Qed.

Lemma raw_cell_float_full (float_of_str : string -> option float) (key : string)
    (row : csv_row) :
  Raw.cell_float float_of_str key (full_row row)
  = of_option (CocoExport.cell_float float_of_str key row).
Proof.
  unfold Raw.cell_float, CocoExport.cell_float. rewrite dict_get_full_row.
  destruct (dict_get key row) as [cell|]; [|done]. simpl.
  by destruct (float_of_str cell).
Qed.

Lemma raw_label_full (row : csv_row) :
  Raw.label_of str_strip (full_row row) = Raw.Done (str_strip (row_get "label" "" row)).
Proof.
  unfold Raw.label_of, row_get. rewrite dict_get_full_row.
  by destruct (dict_get "label" row).
Qed.

(** On rows without missing cells, and with the methods of this file,
    the row loop of the exporter with its exceptions is the one of the
    model without them. *)
Lemma raw_parse_row_full (float_of_str : string -> option float)
    (class_to_id : pydict Z) (row : csv_row) :
  Raw.parse_row float_of_str str_strip str_isdigit ascii_int str_lower
    (str_replace " " "_") class_to_id (full_row row)
  = of_option (CocoExport.parse_row float_of_str class_to_id row).
Proof.
  unfold Raw.parse_row, CocoExport.parse_row.
  rewrite !raw_cell_float_full, raw_label_full.
  destruct (CocoExport.cell_float float_of_str "x" row) as [x|]; [|done].
  destruct (CocoExport.cell_float float_of_str "y" row) as [y|]; [|done].
  destruct (CocoExport.cell_float float_of_str "width" row) as [w|]; [|done].
  destruct (CocoExport.cell_float float_of_str "height" row) as [h|]; [|done].
  cbn [of_option mbind Raw.result_bind option_bind]. rewrite methods_category_id_of.
  by destruct (Coco.category_id_of class_to_id _).
Qed.

Section RawExporter.
Variable float_of_str : string -> option float.
Variables (strip : string -> string) (isdigit : string -> bool)
  (to_int : string -> option Z) (lower underscored : string -> string).
Variable class_to_id : pydict Z.

End RawExporter.




(** ** Integer arithmetic in binary64 (C2) *)

Lemma shl_add p j k : shl (shl p j) k = shl p (k + j).
Proof. unfold shl. by rewrite Nat.iter_add. Qed.

Lemma shl_Z p k : Zpos (shl p k) = Zpos p * 2 ^ Z.of_nat k.
Proof.
  induction k as [|k IH].
  - simpl. lia.
  - change (Zpos (shl p (S k))) with (2 * Zpos (shl p k)).
    rewrite IH, Nat2Z.inj_succ, Z.pow_succ_r by lia. lia.
Qed.

Lemma shl_inj_Z p q : Zpos p = Zpos q -> p = q.
Proof. by intros [= ->]. Qed.

Lemma digits_shl p k :
  Zpos (SpecFloat.digits2_pos (shl p k)) = Zpos (SpecFloat.digits2_pos p) + Z.of_nat k.
Proof.
  induction k as [|k IH].
  - simpl. lia.
  - change (shl p (S k)) with (xO (shl p k)). cbn [SpecFloat.digits2_pos].
    rewrite Pos2Z.inj_succ, IH. lia.
Qed.

Lemma digits_bounds p :
  2 ^ (Zpos (SpecFloat.digits2_pos p) - 1) <= Zpos p < 2 ^ Zpos (SpecFloat.digits2_pos p).
Proof.
  induction p as [p IH|p IH|]; cbn [SpecFloat.digits2_pos].
  - rewrite Pos2Z.inj_succ, Pos2Z.inj_xI.
    replace (Z.succ (Zpos (SpecFloat.digits2_pos p)) - 1)
      with (Z.succ (Zpos (SpecFloat.digits2_pos p) - 1)) by lia.
    rewrite !Z.pow_succ_r by lia.
    revert IH. generalize (2 ^ (Zpos (SpecFloat.digits2_pos p) - 1)), (2 ^ Zpos (SpecFloat.digits2_pos p)). lia.
  - rewrite Pos2Z.inj_succ. change (Zpos p~0) with (2 * Zpos p).
    replace (Z.succ (Zpos (SpecFloat.digits2_pos p)) - 1)
      with (Z.succ (Zpos (SpecFloat.digits2_pos p) - 1)) by lia.
    rewrite !Z.pow_succ_r by lia.
    revert IH. generalize (2 ^ (Zpos (SpecFloat.digits2_pos p) - 1)), (2 ^ Zpos (SpecFloat.digits2_pos p)). lia.
  - simpl. lia.
Qed.

Lemma digits_le_53 p : Zpos p < 2 ^ 53 -> Zpos (SpecFloat.digits2_pos p) <= 53.
Proof.
  intros H. destruct (digits_bounds p) as [Hl _].
  destruct (Z.le_gt_cases (Zpos (SpecFloat.digits2_pos p)) 53) as [|Hgt]; [done|].
  assert (2 ^ 53 <= 2 ^ (Zpos (SpecFloat.digits2_pos p) - 1))
    by (apply Z.pow_le_mono_r; lia).
  lia.
Qed.

Lemma iter_pos_nat {A} (f : A -> A) p x :
  SpecFloat.iter_pos f p x = Nat.iter (Pos.to_nat p) f x.
Proof.
  revert x. induction p as [p IH|p IH|]; intros x; cbn [SpecFloat.iter_pos].
  - rewrite !IH, Pos2Nat.inj_xI, <- Nat.iter_add, <- Nat.iter_succ_r. f_equal. lia.
  - rewrite !IH, Pos2Nat.inj_xO, <- Nat.iter_add. f_equal. lia.
  - done.
Qed.

Lemma shr_exact p n j :
  Nat.iter n SpecFloat.shr_1 (exact (shl p (n + j))) = exact (shl p j).
Proof.
  induction n as [|n IH]; [done|].
  rewrite Nat.iter_succ_r.
  change (SpecFloat.shr_1 (exact (shl p (S n + j)))) with (exact (shl p (n + j))).
  apply IH.
Qed.

Lemma binary_round_aux_rest s m e l :
  SpecFloat.binary_round_aux prec emax s m e l
  = round_rest s (fst (SpecFloat.shr_fexp prec emax m e l))
               (snd (SpecFloat.shr_fexp prec emax m e l)).
Proof.
  unfold SpecFloat.binary_round_aux, round_rest.
  by destruct (SpecFloat.shr_fexp prec emax m e l).
Qed.

Lemma fexp_canonical e : -1074 <= e -> SpecFloat.fexp prec emax (53 + e) - e = 0.
Proof. unfold SpecFloat.fexp, SpecFloat.emin, prec, emax. lia. Qed.

Lemma shr_fexp_canonical m e :
  Zpos (SpecFloat.digits2_pos m) = 53 -> -1074 <= e ->
  SpecFloat.shr_fexp prec emax (Zpos m) e SpecFloat.loc_Exact = (exact m, e).
Proof.
  intros Hd He. unfold SpecFloat.shr_fexp. cbn [SpecFloat.Zdigits2].
  by rewrite Hd, fexp_canonical.
Qed.

(** A mantissa of exactly 53 bits goes through unchanged. *)
Lemma round_rest_canonical s m e :
  Zpos (SpecFloat.digits2_pos m) = 53 -> -1074 <= e <= 971 ->
  round_rest s (exact m) e = S754_finite s m e.
Proof.
  intros Hd He. unfold round_rest.
  cbn [exact SpecFloat.shr_m SpecFloat.loc_of_shr_record SpecFloat.round_nearest_even].
  rewrite shr_fexp_canonical by (done || lia). cbn [exact SpecFloat.shr_m].
  replace (e <=? emax - prec) with true; [done|].
  symmetry. apply Z.leb_le. unfold prec, emax. lia.
Qed.

(** The float of the integer [p * 2^k] handed over with exponent [-k]. *)
Lemma binary_round_shl s p (k : nat) :
  let d := Zpos (SpecFloat.digits2_pos p) in
  d <= 53 ->
  SpecFloat.binary_round prec emax s (shl p k) (- Z.of_nat k)
  = S754_finite s (shl p (Z.to_nat (53 - d))) (d - 53).
Proof.
  intros d Hd. assert (Hpos : 0 < d) by (unfold d; lia).
  unfold SpecFloat.binary_round. rewrite digits_shl. fold d.
  assert (Hf : SpecFloat.fexp prec emax (d + Z.of_nat k + - Z.of_nat k) = d - 53).
  { unfold SpecFloat.fexp, SpecFloat.emin, prec, emax. lia. }
  assert (Hcanon : Zpos (SpecFloat.digits2_pos (shl p (Z.to_nat (53 - d)))) = 53).
  { rewrite digits_shl. fold d. lia. }
  rewrite Hf. unfold SpecFloat.shl_align.
  destruct (d - 53 - - Z.of_nat k) as [|n|n] eqn:E.
  - replace (- Z.of_nat k) with (d - 53) by lia.
    replace k with (Z.to_nat (53 - d)) by lia.
    rewrite binary_round_aux_rest, shr_fexp_canonical by (done || lia).
    apply round_rest_canonical; [done|lia].
  - rewrite binary_round_aux_rest. unfold SpecFloat.shr_fexp.
    cbn [SpecFloat.Zdigits2 SpecFloat.shr_record_of_loc].
    rewrite digits_shl. fold d. rewrite Hf, E. cbn [SpecFloat.shr fst snd].
    rewrite iter_pos_nat.
    replace k with (Pos.to_nat n + Z.to_nat (53 - d))%nat at 1 by lia.
    change {| SpecFloat.shr_m := Zpos (shl p (Pos.to_nat n + Z.to_nat (53 - d)));
              SpecFloat.shr_r := false; SpecFloat.shr_s := false |}
      with (exact (shl p (Pos.to_nat n + Z.to_nat (53 - d)))).
    rewrite shr_exact.
    replace (- Z.of_nat k + Zpos n) with (d - 53) by lia.
    apply round_rest_canonical; [done|lia].
  - rewrite Pos2Nat.inj_iter.
    change (nat_rect (fun _ => positive) (shl p k) (fun _ => xO) (Pos.to_nat n))
      with (shl (shl p k) (Pos.to_nat n)).
    rewrite shl_add.
    replace (Pos.to_nat n + k)%nat with (Z.to_nat (53 - d)) by lia.
    rewrite binary_round_aux_rest, shr_fexp_canonical by (done || lia).
    apply round_rest_canonical; [done|lia].
Qed.

Lemma expo_range p : Zpos p < 2 ^ 53 -> -52 <= expo p <= 0.
Proof. intros H%digits_le_53. unfold expo. lia. Qed.

Lemma mant_Z p : Zpos p < 2 ^ 53 -> Zpos (mant p) = Zpos p * 2 ^ (- expo p).
Proof.
  intros H%digits_le_53. unfold mant, expo. rewrite shl_Z. f_equal. f_equal. lia.
Qed.

Lemma exact_int_signed s p :
  exact_int (SpecFloat.cond_Zopp s (Zpos p)) = S754_finite s (mant p) (expo p).
Proof. by destruct s. Qed.

Lemma normalize_scaled z (k : nat) :
  Z.abs z < 2 ^ 53 ->
  SpecFloat.binary_normalize prec emax (z * 2 ^ Z.of_nat k) (- Z.of_nat k) false
  = exact_int z.
Proof.
  intros Hz. destruct z as [|p|p].
  - done.
  - rewrite <- shl_Z. cbn [SpecFloat.binary_normalize exact_int].
    apply binary_round_shl, digits_le_53. lia.
  - replace (Zneg p * 2 ^ Z.of_nat k) with (Zneg (shl p k)).
    + cbn [SpecFloat.binary_normalize exact_int].
      apply binary_round_shl, digits_le_53. lia.
    + change (Zneg (shl p k)) with (- Zpos (shl p k)). rewrite shl_Z.
      change (Zneg p) with (- Zpos p). lia.
Qed.

Lemma normalize_int z :
  Z.abs z < 2 ^ 53 -> SpecFloat.binary_normalize prec emax z 0 false = exact_int z.
Proof.
  intros Hz. rewrite <- (normalize_scaled z 0 Hz). f_equal. simpl. lia.
Qed.

Lemma shl_align_fst m ex ez :
  ez <= ex -> Zpos (fst (SpecFloat.shl_align m ex ez)) = Zpos m * 2 ^ (ex - ez).
Proof.
  intros H. unfold SpecFloat.shl_align. destruct (ez - ex) as [|n|n] eqn:E.
  - replace (ex - ez) with 0 by lia. simpl. lia.
  - lia.
  - cbn [fst]. rewrite Pos2Nat.inj_iter.
    change (nat_rect (fun _ => positive) m (fun _ => xO) (Pos.to_nat n))
      with (shl m (Pos.to_nat n)).
    rewrite shl_Z. f_equal. f_equal. lia.
Qed.

(** The aligned mantissa of an integer at an exponent not above its own. *)
Lemma aligned_Z s p ez :
  Zpos p < 2 ^ 53 -> ez <= expo p ->
  SpecFloat.cond_Zopp s (Zpos (fst (SpecFloat.shl_align (mant p) (expo p) ez)))
  = SpecFloat.cond_Zopp s (Zpos p) * 2 ^ (- ez).
Proof.
  intros Hp He. rewrite shl_align_fst, mant_Z by done.
  pose proof (expo_range p Hp).
  rewrite <- Z.mul_assoc, <- Z.pow_add_r by lia.
  replace (- expo p + (expo p - ez)) with (- ez) by lia.
  destruct s; simpl; lia.
Qed.

Lemma sub_finite sa pa sb pb :
  let a := SpecFloat.cond_Zopp sa (Zpos pa) in
  let b := SpecFloat.cond_Zopp sb (Zpos pb) in
  Zpos pa < 2 ^ 53 -> Zpos pb < 2 ^ 53 -> Z.abs (a - b) < 2 ^ 53 ->
  SpecFloat.SFsub prec emax (S754_finite sa (mant pa) (expo pa))
                            (S754_finite sb (mant pb) (expo pb))
  = exact_int (a - b).
Proof.
  intros a b Ha Hb Hab. cbn [SpecFloat.SFsub].
  pose proof (expo_range pa Ha). pose proof (expo_range pb Hb).
  set (ez := Z.min (expo pa) (expo pb)).
  rewrite !aligned_Z by (done || lia). fold a b.
  rewrite <- Z.mul_sub_distr_r.
  replace ez with (- Z.of_nat (Z.to_nat (- ez))) at 2 by lia.
  replace (- ez) with (Z.of_nat (Z.to_nat (- ez))) at 1 by lia.
  by apply normalize_scaled.
Qed.

Lemma add_finite sa pa sb pb :
  let a := SpecFloat.cond_Zopp sa (Zpos pa) in
  let b := SpecFloat.cond_Zopp sb (Zpos pb) in
  Zpos pa < 2 ^ 53 -> Zpos pb < 2 ^ 53 -> Z.abs (a + b) < 2 ^ 53 ->
  SpecFloat.SFadd prec emax (S754_finite sa (mant pa) (expo pa))
                            (S754_finite sb (mant pb) (expo pb))
  = exact_int (a + b).
Proof.
  intros a b Ha Hb Hab. cbn [SpecFloat.SFadd].
  pose proof (expo_range pa Ha). pose proof (expo_range pb Hb).
  set (ez := Z.min (expo pa) (expo pb)).
  rewrite !aligned_Z by (done || lia). fold a b.
  rewrite <- Z.mul_add_distr_r.
  replace ez with (- Z.of_nat (Z.to_nat (- ez))) at 2 by lia.
  replace (- ez) with (Z.of_nat (Z.to_nat (- ez))) at 1 by lia.
  by apply normalize_scaled.
Qed.

Lemma Z_signed z : z <> 0 -> exists s p, z = SpecFloat.cond_Zopp s (Zpos p) /\ Zpos p = Z.abs z.
Proof.
  destruct z as [|p|p]; [done|..]; intros _.
  - by exists false, p.
  - by exists true, p.
Qed.

(** Subtraction and addition of integers below [2^53] are exact. *)
Lemma sub_exact a b :
  Z.abs a < 2 ^ 53 -> Z.abs b < 2 ^ 53 -> Z.abs (a - b) < 2 ^ 53 ->
  SpecFloat.SFsub prec emax (exact_int a) (exact_int b) = exact_int (a - b).
Proof.
  intros Ha Hb Hab.
  destruct (decide (a = 0)) as [->|Hna]; destruct (decide (b = 0)) as [->|Hnb].
  - done.
  - destruct b as [|p|p]; done.
  - rewrite Z.sub_0_r. destruct a as [|p|p]; done.
  - destruct (Z_signed a Hna) as (sa & pa & Ea & Hpa).
    destruct (Z_signed b Hnb) as (sb & pb & Eb & Hpb).
    rewrite Ea, Eb, !exact_int_signed. apply sub_finite; lia.
Qed.

Lemma add_exact a b :
  Z.abs a < 2 ^ 53 -> Z.abs b < 2 ^ 53 -> Z.abs (a + b) < 2 ^ 53 ->
  SpecFloat.SFadd prec emax (exact_int a) (exact_int b) = exact_int (a + b).
Proof.
  intros Ha Hb Hab.
  destruct (decide (a = 0)) as [->|Hna]; destruct (decide (b = 0)) as [->|Hnb].
  - done.
  - destruct b as [|p|p]; done.
  - rewrite Z.add_0_r. destruct a as [|p|p]; done.
  - destruct (Z_signed a Hna) as (sa & pa & Ea & Hpa).
    destruct (Z_signed b Hnb) as (sb & pb & Eb & Hpb).
    rewrite Ea, Eb, !exact_int_signed. apply add_finite; lia.
Qed.

Lemma float_of_nonneg_spec z :
  0 <= z < 2 ^ 53 -> Prim2SF (float_of_nonneg z) = exact_int z.
Proof.
  intros Hz. unfold float_of_nonneg. rewrite of_uint63_spec, Uint63.of_Z_spec.
  rewrite Z.mod_small.
  - apply normalize_int. lia.
  - split; [lia|]. apply Z.lt_trans with (2 ^ 53); [lia|]. done.
Qed.

Lemma float_of_int_spec z :
  Z.abs z < 2 ^ 53 -> Prim2SF (float_of_int z) = exact_int z.
Proof.
  intros Hz. unfold float_of_int. destruct (z <? 0) eqn:E.
  - apply Z.ltb_lt in E. rewrite opp_spec, float_of_nonneg_spec by lia.
    destruct z as [|p|p]; try lia. done.
  - apply Z.ltb_ge in E. apply float_of_nonneg_spec. lia.
Qed.

Lemma float_sub_int a b :
  Z.abs a < 2 ^ 53 -> Z.abs b < 2 ^ 53 -> Z.abs (a - b) < 2 ^ 53 ->
  (float_of_int a - float_of_int b)%float = float_of_int (a - b).
Proof.
  intros Ha Hb Hab. apply Prim2SF_inj.
  rewrite sub_spec, !float_of_int_spec by done. by apply sub_exact.
Qed.

Lemma float_add_int a b :
  Z.abs a < 2 ^ 53 -> Z.abs b < 2 ^ 53 -> Z.abs (a + b) < 2 ^ 53 ->
  (float_of_int a + float_of_int b)%float = float_of_int (a + b).
Proof.
  intros Ha Hb Hab. apply Prim2SF_inj.
  rewrite add_spec, !float_of_int_spec by done. by apply add_exact.
Qed.

(** C2, as the code has it: the conversion maps every box to
    [(xmin, ymin, xmax - xmin, ymax - ymin)] with binary64 subtraction;
    for integer coordinates below [2^53] in magnitude, whose differences
    are below [2^53] too, the width and the height are the integer
    differences and [(x + w, y + h)] is [(xmax, ymax)] again. *)
Theorem bbox_round_trip (xmin ymin xmax ymax : Z) :
  Z.abs xmin < 2 ^ 53 -> Z.abs xmax < 2 ^ 53 -> Z.abs (xmax - xmin) < 2 ^ 53 ->
  Z.abs ymin < 2 ^ 53 -> Z.abs ymax < 2 ^ 53 -> Z.abs (ymax - ymin) < 2 ^ 53 ->
  (forall a b c d : float,
     Reorganizer.convert_bbox_format a b c d = (a, b, (c - a)%float, (d - b)%float))
  /\ Reorganizer.convert_bbox_format (float_of_int xmin) (float_of_int ymin)
                                     (float_of_int xmax) (float_of_int ymax)
     = (float_of_int xmin, float_of_int ymin,
        float_of_int (xmax - xmin), float_of_int (ymax - ymin))
  /\ (float_of_int xmin + float_of_int (xmax - xmin))%float = float_of_int xmax
  /\ (float_of_int ymin + float_of_int (ymax - ymin))%float = float_of_int ymax.
Proof.
  intros Hx0 Hx1 Hw Hy0 Hy1 Hh.
  split; [done|]. split; [|split].
  - unfold Reorganizer.convert_bbox_format. by rewrite !float_sub_int.
  - rewrite float_add_int by (done || (replace (xmin + (xmax - xmin)) with xmax by lia; done)).
    f_equal. lia.
  - rewrite float_add_int by (done || (replace (ymin + (ymax - ymin)) with ymax by lia; done)).
    f_equal. lia.
Qed.

(** The box (10, 20, 50, 80) becomes (10, 20, 40, 60) and leads back to
    (50, 80). *)
Lemma bbox_round_trip_witness :
  Reorganizer.convert_bbox_format 10 20 50 80 = (10, 20, 40, 60)%float
  /\ (10 + 40)%float = 50%float /\ (20 + 60)%float = 80%float.
Proof.
  destruct (bbox_round_trip 10 20 50 80) as (_ & H1 & H2 & H3);
    [vm_compute; reflexivity..|].
  split; [exact H1|]. split; [exact H2|exact H3].
Defined.

(** C2 as worded fails for coordinates that are not integers: the box
    (0.3, 0.3, 0.9, 0.9) has width 0.6000000000000001, and adding it to
    0.3 gives 0.9000000000000001, the float next to 0.9. *)
Lemma bbox_round_trip_fails :
  let xmin := 0x1.3333333333333p-2%float in
  let xmax := 0x1.ccccccccccccdp-1%float in
  Reorganizer.convert_bbox_format xmin xmin xmax xmax
  = (xmin, xmin, 0x1.3333333333334p-1, 0x1.3333333333334p-1)%float
  /\ (xmin + 0x1.3333333333334p-1)%float = 0x1.ccccccccccccep-1%float
  /\ (xmin + 0x1.3333333333334p-1)%float <> xmax.
Proof.
  intros xmin xmax. split; [vm_compute; reflexivity|].
  split; [vm_compute; reflexivity|].
  intros H.
  assert (E : PrimFloat.eqb (xmin + 0x1.3333333333334p-1) xmax = true)
    by (rewrite H; vm_compute; reflexivity).
  vm_compute in E. discriminate.
Qed.

(** * Further properties of the scripts *)

(** ** Looking for the image of a stem *)

(** The probing loop shared by the three scripts returns the first of
    [stem.jpg], [stem.jpeg], [stem.png] that the directory holds, and
    nothing when it holds none of them. *)
Theorem find_image_priority (dir : directory) (stem : string) :
  (dir_exists dir (stem +:+ ".jpg") = true ->
     find_image dir stem = Some (stem +:+ ".jpg"))
  /\ (dir_exists dir (stem +:+ ".jpg") = false ->
      dir_exists dir (stem +:+ ".jpeg") = true ->
      find_image dir stem = Some (stem +:+ ".jpeg"))
  /\ (dir_exists dir (stem +:+ ".jpg") = false ->
      dir_exists dir (stem +:+ ".jpeg") = false ->
      dir_exists dir (stem +:+ ".png") = true ->
      find_image dir stem = Some (stem +:+ ".png"))
  /\ (dir_exists dir (stem +:+ ".jpg") = false ->
      dir_exists dir (stem +:+ ".jpeg") = false ->
      dir_exists dir (stem +:+ ".png") = false ->
      find_image dir stem = None)
  /\ (forall name, find_image dir stem = Some name ->
        name ∈ dir /\ exists ext, ext ∈ image_extensions /\ name = stem +:+ ext).
Proof.
  unfold find_image, image_extensions. cbn [map find].
  split; [by intros ->|].
  split; [by intros -> ->|].
  split; [by intros -> -> ->|].
  split; [by intros -> -> ->|].
  intros name.
  destruct (dir_exists dir (stem +:+ ".jpg")) eqn:E1;
    [|destruct (dir_exists dir (stem +:+ ".jpeg")) eqn:E2;
      [|destruct (dir_exists dir (stem +:+ ".png")) eqn:E3]];
    intros [= <-]; (split; [|eexists; split; [|reflexivity]]).
  - apply existsb_exists in E1 as (x & Hx & ->%String.eqb_eq). by apply list_elem_of_In.
  - left.
  - apply existsb_exists in E2 as (x & Hx & ->%String.eqb_eq). by apply list_elem_of_In.
  - right; left.
  - apply existsb_exists in E3 as (x & Hx & ->%String.eqb_eq). by apply list_elem_of_In.
  - right; right; left.
Qed.

Lemma find_image_priority_witness :
  find_image ["a.png"; "a.jpeg"; "b.png"] "a" = Some "a.jpeg"
  /\ find_image ["a.png"; "a.jpeg"; "b.png"] "b" = Some "b.png".
Proof.
  destruct (find_image_priority ["a.png"; "a.jpeg"; "b.png"] "a") as (_ & H2 & _).
  destruct (find_image_priority ["a.png"; "a.jpeg"; "b.png"] "b") as (_ & _ & H3 & _).
  split; [exact (H2 eq_refl eq_refl)|exact (H3 eq_refl eq_refl eq_refl)].
Defined.

(** ** Reorganizer: the stems of a flat CSV file *)

Lemma get_image_stems_acc (dir : directory) (rows : list csv_row) (acc stems : gset string) :
  Reorganizer.get_image_stems dir rows acc = Some stems ->
  forall s, s ∈ stems <->
    s ∈ acc
    \/ exists row cell,
         row ∈ rows /\ dict_get "filename" row = Some cell /\ str_strip cell ≠ ""
         /\ s = path_stem (str_strip cell) /\ is_Some (find_image dir s).
Proof.
  revert acc. induction rows as [|row r IH]; intros acc; simpl.
  - intros [= <-] s. split; [by left|]. intros [?|(row & cell & H & _)]; [done|].
    by apply elem_of_nil in H.
  - destruct (dict_get "filename" row) as [cell|] eqn:Ec; [|done].
    destruct (String.eqb (str_strip cell) "") eqn:Ee.
    { apply String.eqb_eq in Ee. intros H s. rewrite (IH _ H). split.
      - intros [?|(row' & cell' & ? & ?)]; [by left|right].
        exists row', cell'. split; [by right|done].
      - intros [?|(row' & cell' & [->|?]%elem_of_cons & Hc & Hne & ?)]; [by left| |].
        + congruence.
        + right. by exists row', cell'. }
    apply String.eqb_neq in Ee.
    destruct (find_image dir (path_stem (str_strip cell))) as [img|] eqn:Ef.
    + intros H s. rewrite (IH _ H), elem_of_union, elem_of_singleton. split.
      * intros [[->|?]|(row' & cell' & ? & ?)]; [right|by left|right].
        -- exists row, cell. rewrite Ef. repeat split; try done. left.
        -- exists row', cell'. split; [by right|done].
      * intros [?|(row' & cell' & [->|?]%elem_of_cons & Hc & Hne & -> & ?)];
          [by left; right| |].
        -- left; left. congruence.
        -- right. by exists row', cell'.
    + intros H s. rewrite (IH _ H). split.
      * intros [?|(row' & cell' & ? & ?)]; [by left|right].
        exists row', cell'. split; [by right|done].
      * intros [?|(row' & cell' & [->|?]%elem_of_cons & Hc & Hne & -> & Hi)]; [by left| |].
        -- assert (cell' = cell) as -> by congruence. rewrite Ef in Hi. by destruct Hi.
        -- right. by exists row', cell'.
Qed.

Lemma get_image_stems_raises (dir : directory) (rows : list csv_row) (acc : gset string) :
  Reorganizer.get_image_stems dir rows acc = None <->
  exists row, row ∈ rows /\ dict_get "filename" row = None.
Proof.
  revert acc. induction rows as [|row r IH]; intros acc; simpl.
  - split; [done|]. by intros (row & ?%elem_of_nil & _).
  - destruct (dict_get "filename" row) as [cell|] eqn:Ec.
    + assert (Hstep : forall acc',
                Reorganizer.get_image_stems dir r acc' = None <->
                exists row0, row0 ∈ row :: r /\ dict_get "filename" row0 = None).
      { intros acc'. rewrite IH. split.
        - intros (row0 & ? & ?). exists row0. split; [by right|done].
        - intros (row0 & [->|?]%elem_of_cons & ?); [congruence|]. by exists row0. }
      destruct (String.eqb (str_strip cell) ""); [apply Hstep|].
      destruct (find_image dir (path_stem (str_strip cell))); apply Hstep.
    + split; [|done]. intros _. exists row. split; [left|done].
Qed.

Section RawStems.
Variables (strip stem : string -> string).
Variable dir : directory.

Lemma raw_stems_acc (rows : list raw_row) (acc stems : gset string) :
  Raw.get_image_stems strip stem dir rows acc = Raw.Done stems ->
  forall s, s ∈ stems <->
    s ∈ acc
    \/ exists row cell,
         row ∈ rows /\ dict_get "filename" row = Some (Some cell) /\ strip cell ≠ ""
         /\ s = stem (strip cell) /\ is_Some (find_image dir s).
Proof.
  revert acc. induction rows as [|row rest IH]; intros acc; cbn [Raw.get_image_stems].
  - intros [= <-] s. split; [by left|]. intros [?|(row & ? & Hrow & _)]; [done|].
    by apply elem_of_nil in Hrow.
  - unfold Raw.item, Raw.stripped.
    destruct (dict_get "filename" row) as [[cell|]|] eqn:Ecell; [|done..].
    assert (Hskip : forall acc',
              (forall s, s ∈ acc' <-> s ∈ acc) ->
              Raw.get_image_stems strip stem dir rest acc' = Raw.Done stems ->
              (String.eqb (strip cell) "" = true
               \/ find_image dir (stem (strip cell)) = None) ->
              forall s, s ∈ stems <->
                s ∈ acc
                \/ exists row0 cell0,
                     row0 ∈ row :: rest /\ dict_get "filename" row0 = Some (Some cell0)
                     /\ strip cell0 ≠ "" /\ s = stem (strip cell0)
                     /\ is_Some (find_image dir s)).
    { intros acc' Hacc Hrun Hno s. rewrite (IH _ Hrun s), Hacc. split.
      - intros [?|(row0 & cell0 & ? & ?)]; [by left|].
        right. exists row0, cell0. split; [by right|done].
      - intros [?|(row0 & cell0 & [->|?]%elem_of_cons & Hc & Hne & -> & Himg)];
          [by left| |right; by exists row0, cell0].
        rewrite Ecell in Hc. injection Hc as <-. destruct Hno as [Hno|Hno].
        + by apply String.eqb_eq in Hno.
        + rewrite Hno in Himg. by destruct Himg. }
    destruct (String.eqb (strip cell) "") eqn:Eb.
    { intros Hrun. apply (Hskip acc); [done|done|by left]. }
    destruct (find_image dir (stem (strip cell))) as [img|] eqn:Ef.
    2:{ intros Hrun. apply (Hskip acc); [done|done|by right]. }
    intros Hrun s. rewrite (IH _ Hrun s), elem_of_union, elem_of_singleton.
    apply String.eqb_neq in Eb. split.
    + intros [[->|?]|(row0 & cell0 & ? & ?)].
      * right. exists row, cell. split; [left|]. repeat split; try done; try (by rewrite Ef).
      * by left.
      * right. exists row0, cell0. split; [by right|done].
    + intros [?|(row0 & cell0 & [->|?]%elem_of_cons & Hc & Hne & -> & Himg)].
      * left. by right.
      * rewrite Ecell in Hc. injection Hc as <-. left. by left.
      * right. by exists row0, cell0.
Qed.

Lemma raw_stems_raises (rows : list raw_row) (acc : gset string) (e : Raw.exn) :
  Raw.get_image_stems strip stem dir rows acc = Raw.Raised e <->
  exists before row after,
    rows = (before ++ row :: after)%list
    /\ Forall (fun r => exists cell, dict_get "filename" r = Some (Some cell)) before
    /\ (dict_get "filename" row = None /\ e = Raw.KeyError "filename"
        \/ dict_get "filename" row = Some None /\ e = Raw.AttributeError).
Proof.
  revert acc. induction rows as [|row rest IH]; intros acc; cbn [Raw.get_image_stems].
  - split; [done|]. intros ([|? ?] & ? & ? & ? & _); done.
  - unfold Raw.item, Raw.stripped.
    destruct (dict_get "filename" row) as [[cell|]|] eqn:Ecell.
    + assert (Hstep : forall acc',
                Raw.get_image_stems strip stem dir rest acc' = Raw.Raised e <->
                exists before row0 after,
                  row :: rest = (before ++ row0 :: after)%list
                  /\ Forall (fun r => exists cell, dict_get "filename" r = Some (Some cell))
                            before
                  /\ (dict_get "filename" row0 = None /\ e = Raw.KeyError "filename"
                      \/ dict_get "filename" row0 = Some None /\ e = Raw.AttributeError)).
      { intros acc'. rewrite IH. split.
        - intros (before & row0 & after & -> & Hb & He).
          exists (row :: before), row0, after. split; [done|]. split; [|done].
          constructor; [by exists cell|done].
        - intros ([|r0 before] & row0 & after & Hrows & Hb & He).
          + injection Hrows as <- _. rewrite Ecell in He.
            destruct He as [[? _]|[? _]]; done.
          + injection Hrows as <- ->. apply Forall_cons in Hb as [_ Hb].
            by exists before, row0, after. }
      destruct (String.eqb (strip cell) ""); [apply Hstep|].
      destruct (find_image dir (stem (strip cell))); apply Hstep.
    + split.
      * intros [= <-]. exists [], row, rest. split; [done|]. split; [constructor|by right].
      * intros ([|r0 before] & row0 & after & Hrows & Hb & He).
        -- injection Hrows as <- _. rewrite Ecell in He.
           destruct He as [[? _]|[_ ->]]; done.
        -- injection Hrows as <- _. apply Forall_cons in Hb as [[c Hc] _]. congruence.
    + split.
      * intros [= <-]. exists [], row, rest. split; [done|]. split; [constructor|by left].
      * intros ([|r0 before] & row0 & after & Hrows & Hb & He).
        -- injection Hrows as <- _. rewrite Ecell in He.
           destruct He as [[_ ->]|[? _]]; done.
        -- injection Hrows as <- _. apply Forall_cons in Hb as [[c Hc] _]. congruence.
Qed.

Lemma raw_stems_not_skipped (rows : list raw_row) (acc : gset string) :
  Raw.get_image_stems strip stem dir rows acc ≠ Raw.Skipped.
Proof.
  revert acc. induction rows as [|row rest IH]; intros acc; cbn [Raw.get_image_stems];
    [done|].
  unfold Raw.item, Raw.stripped.
  destruct (dict_get "filename" row) as [[cell|]|]; [|done..].
  destruct (String.eqb (strip cell) ""); [apply IH|].
  destruct (find_image dir (stem (strip cell))); apply IH.
Qed.
End RawStems.

(** On rows without missing cells, with [strip] and the stem of this
    file, [get_image_stems] with its exceptions is the one of the model
    without them. *)
Lemma raw_stems_full (dir : directory) (rows : list csv_row) (acc : gset string) :
  Raw.get_image_stems str_strip path_stem dir (full_row <$> rows) acc
  = match Reorganizer.get_image_stems dir rows acc with
    | Some stems => Raw.Done stems
    | None => Raw.Raised (Raw.KeyError "filename")
    end.
Proof.
  revert acc. induction rows as [|row rest IH]; intros acc; [done|].
  rewrite fmap_cons. cbn [Raw.get_image_stems Reorganizer.get_image_stems].
  unfold Raw.item, Raw.stripped. rewrite dict_get_full_row.
  destruct (dict_get "filename" row) as [cell|]; [|done].
  cbn [fmap option_fmap option_map].
  destruct (String.eqb (str_strip cell) ""); [apply IH|].
  destruct (find_image dir (path_stem (str_strip cell))); apply IH.
Qed.

(** [get_image_stems], whatever [strip] and the stem of a path do.  It
    stops at the first row that has no [filename] column, with
    [KeyError], or whose [filename] cell is missing because the line is
    shorter than the header, with [AttributeError]; otherwise it returns
    the stems of the non-blank stripped file names for which an image
    exists. *)
Theorem image_stems_spec (strip stem : string -> string) (dir : directory)
    (rows : list raw_row) :
  let run := Raw.get_image_stems strip stem dir rows ∅ in
  (forall e, run = Raw.Raised e <->
     exists before row after,
       rows = (before ++ row :: after)%list
       /\ Forall (fun r => exists cell, dict_get "filename" r = Some (Some cell)) before
       /\ (dict_get "filename" row = None /\ e = Raw.KeyError "filename"
           \/ dict_get "filename" row = Some None /\ e = Raw.AttributeError))
  /\ (forall stems, run = Raw.Done stems ->
      forall s, s ∈ stems <->
        exists row cell,
          row ∈ rows /\ dict_get "filename" row = Some (Some cell) /\ strip cell ≠ ""
          /\ s = stem (strip cell) /\ is_Some (find_image dir s))
  /\ run ≠ Raw.Skipped.
Proof.
  intros run. split; [intros e; apply raw_stems_raises|]. split.
  - intros stems H s. rewrite (raw_stems_acc strip stem dir rows ∅ stems H).
    split; [|by right]. intros [?|?]; [set_solver|done].
  - apply raw_stems_not_skipped.
Qed.

Lemma image_stems_spec_witness :
  Raw.get_image_stems str_strip path_stem ["a.jpg"; "b.png"] (full_row <$> flat_rows) ∅
  = Raw.Done {[ "a"; "b" ]}
  /\ "b" ∈ ({[ "a"; "b" ]} : gset string)
  /\ Raw.get_image_stems str_strip path_stem ["a.jpg"]
       [full_row [("filename", "a.jpg")]; [("class", Some "x"); ("filename", None)]] ∅
     = Raw.Raised Raw.AttributeError.
Proof.
  assert (H : Raw.get_image_stems str_strip path_stem ["a.jpg"; "b.png"]
                (full_row <$> flat_rows) ∅
              = Raw.Done {[ "a"; "b" ]}) by (vm_compute; reflexivity).
  destruct (image_stems_spec str_strip path_stem ["a.jpg"; "b.png"] (full_row <$> flat_rows))
    as (_ & Hs & _).
  destruct (image_stems_spec str_strip path_stem ["a.jpg"]
              [full_row [("filename", "a.jpg")]; [("class", Some "x"); ("filename", None)]])
    as (Hn & _).
  split; [exact H|split].
  - apply (Hs _ H).
    exists (full_row [("filename", " b.png "); ("class", "Rust leaf")]), " b.png ".
    split; [right; left|]. split; [reflexivity|]. split; [discriminate|].
    split; [reflexivity|]. by exists "b.png".
  - apply Hn. exists [full_row [("filename", "a.jpg")]],
      [("class", Some "x"); ("filename", None)], [].
    split; [reflexivity|]. split; [|by right].
    constructor; [by exists "a.jpg"|constructor].
Defined.

(** ** Reorganizer: the other split files *)


Lemma write_sets_files_stems (train_stems test_stems : gset string) (s : string) :
  s ∈ listed_stems (Reorganizer.write_sets_files train_stems test_stems) ->
  s ∈ train_stems \/ s ∈ test_stems.
Proof.
  assert (Htake : forall k, s ∈ take k (sorted_set train_stems) -> s ∈ train_stems).
  { intros k H. apply sorted_set_elem. by apply (subseteq_take k). }
  assert (Hdrop : forall k, s ∈ drop k (sorted_set train_stems) -> s ∈ train_stems).
  { intros k H. apply sorted_set_elem. by apply (subseteq_drop k). }
  unfold listed_stems, Reorganizer.write_sets_files. cbn.
  rewrite !elem_of_app, !sorted_set_elem, !elem_of_union, !elem_of_list_to_set.
  intros [?|[?|[?|[[?|?]|[?|?]]]]]; eauto.
Qed.

(** Every stem that [create_sets_files] writes to a split file has an
    image file in [images/]. *)
Theorem split_stems_have_images (train_csv test_csv : list csv_row)
    (images_dir : directory) (files : Reorganizer.sets_files) :
  Reorganizer.create_sets_files train_csv test_csv images_dir = Some files ->
  forall s, s ∈ listed_stems files ->
    exists name, find_image images_dir s = Some name /\ name ∈ images_dir.
Proof.
  unfold Reorganizer.create_sets_files.
  destruct (Reorganizer.get_image_stems images_dir train_csv ∅) as [tr|] eqn:Etr; [|done].
  destruct (Reorganizer.get_image_stems images_dir test_csv ∅) as [te|] eqn:Ete; [|done].
  intros [= <-] s Hs.
  assert (Hin : s ∈ tr \/ s ∈ te).
  { by apply write_sets_files_stems. }
  assert (Himg : is_Some (find_image images_dir s)).
  { destruct Hin as [H|H].
    - apply (get_image_stems_acc _ _ _ _ Etr) in H as [?|(_ & _ & _ & _ & _ & _ & ?)];
        [set_solver|done].
    - apply (get_image_stems_acc _ _ _ _ Ete) in H as [?|(_ & _ & _ & _ & _ & _ & ?)];
        [set_solver|done]. }
  destruct Himg as [name Hname]. exists name. split; [done|].
  unfold find_image in Hname. apply find_some in Hname as [_ Hex].
  apply existsb_exists in Hex as (x & Hx & ->%String.eqb_eq). by apply list_elem_of_In.
Qed.

Lemma split_stems_have_images_witness :
  exists name, find_image ["a.jpg"; "b.png"] "b" = Some name /\ name ∈ ["a.jpg"; "b.png"].
Proof.
  refine (split_stems_have_images flat_rows [] ["a.jpg"; "b.png"]
            (Reorganizer.write_sets_files {[ "a"; "b" ]} ∅) _ "b" _).
  - vm_compute. reflexivity.
  - vm_compute. right. left.
Defined.

(** ** Reorganizer: the dictionary returned by [create_labelmap] *)

Lemma numbering_keeps (numbered : list (Z * string)) (d : pydict Z) (k : string) :
  k ∉ (snd <$> numbered) ->
  dict_get k (fold_left (fun d ic => dict_set (snd ic) (fst ic) d) numbered d)
  = dict_get k d.
Proof.
  revert d. induction numbered as [|[i c] r IH]; intros d Hk; simpl; [done|].
  simpl in Hk. apply not_elem_of_cons in Hk as [Hne Hr].
  rewrite (IH _ Hr), dict_get_set.
  destruct (String.eqb k c) eqn:E; [|done]. by apply String.eqb_eq in E.
Qed.

Lemma numbering_lookup (numbered : list (Z * string)) (d : pydict Z) (i : Z) (c : string) :
  NoDup (snd <$> numbered) -> (i, c) ∈ numbered ->
  dict_get c (fold_left (fun d ic => dict_set (snd ic) (fst ic) d) numbered d) = Some i.
Proof.
  revert d. induction numbered as [|[j c'] r IH]; intros d Hn Hin; simpl.
  - by apply elem_of_nil in Hin.
  - simpl in Hn. apply NoDup_cons in Hn as [Hc' Hr].
    apply elem_of_cons in Hin as [[= -> ->]|Hin].
    + rewrite numbering_keeps by done. by rewrite dict_get_set, String.eqb_refl.
    + by apply IH.
Qed.

Lemma enumerate_snd {A : Type} (start : Z) (xs : list A) : snd <$> enumerate start xs = xs.
Proof.
  revert start. induction xs as [|x r IH]; intros start; [done|].
  cbn [enumerate fmap list_fmap]. f_equal. apply IH.
Qed.

(** For class names without repetition, the dictionary returned by
    [create_labelmap] gives the class at sorted position [i] the id
    [i + 1], the id of the labelmap entry made from it; and whatever the
    class names are, the label ids of the labelmap are 0, 1, ..., N, each
    equal to the object id of its entry. *)
Theorem create_labelmap_consistent (classes : list string) :
  let labelmap := fst (Reorganizer.create_labelmap classes) in
  let class_to_id := snd (Reorganizer.create_labelmap classes) in
  (label_id <$> labelmap = seqZ 0 (Z.of_nat (S (length classes)))
   /\ object_id <$> labelmap = label_id <$> labelmap
   /\ NoDup (label_id <$> labelmap))
  /\ (NoDup classes ->
      forall (i : nat) c, sorted classes !! i = Some c ->
        dict_get c class_to_id = Some (Z.of_nat i + 1)
        /\ exists item, labelmap !! S i = Some item
             /\ label_id item = Z.of_nat i + 1
             /\ object_name item = normalized c).
Proof.
  intros labelmap class_to_id.
  assert (Hids : label_id <$> labelmap = seqZ 0 (Z.of_nat (S (length classes)))).
  { unfold labelmap, Reorganizer.create_labelmap. cbn [fst fmap list_fmap label_id background].
    rewrite seqZ_cons by lia. f_equal.
    rewrite <- list_fmap_compose.
    change (label_id ∘ Reorganizer.labelmap_entry) with (@fst Z string).
    rewrite enumerate_fst. f_equal.
    assert (Hl : length (sorted classes) = length classes) by (by rewrite sorted_perm).
    rewrite Hl. f_equal. lia. }
  split.
  - split; [exact Hids|]. split.
    + unfold labelmap, Reorganizer.create_labelmap. cbn [fst fmap list_fmap]. f_equal.
      rewrite <- !list_fmap_compose. done.
    + rewrite Hids. apply NoDup_seqZ.
  - intros Hn i c Hc.
    assert (Hpair : (1 + Z.of_nat i, c) ∈ enumerate 1 (sorted classes)).
    { apply list_elem_of_lookup. exists i. by rewrite enumerate_lookup, Hc. }
    split.
    + unfold class_to_id, Reorganizer.create_labelmap. cbn [snd].
      rewrite (numbering_lookup _ _ (1 + Z.of_nat i) c); [f_equal; lia| |done].
      rewrite enumerate_snd, sorted_perm. done.
    + exists (Reorganizer.labelmap_entry (1 + Z.of_nat i, c)).
      unfold labelmap, Reorganizer.create_labelmap. cbn [fst].
      split; [|split; [simpl; lia|done]].
      simpl. by rewrite list_lookup_fmap, enumerate_lookup, Hc.
Qed.

Lemma create_labelmap_consistent_witness :
  dict_get "Rust leaf" (snd (Reorganizer.create_labelmap ["Rust leaf"; "Apple leaf"]))
  = Some 2.
Proof.
  destruct (create_labelmap_consistent ["Rust leaf"; "Apple leaf"]) as [_ H].
  assert (Hn : NoDup ["Rust leaf"; "Apple leaf"]).
  { apply NoDup_cons. split; [|apply NoDup_singleton].
    intros Hin. apply list_elem_of_singleton in Hin. discriminate. }
  exact (proj1 (H Hn 1%nat "Rust leaf" eq_refl)).
Defined.

(** ** Label updater: what a rewritten file looks like *)

Lemma label_id_of_sound (labelmap : list LabelMapEntry) (original : list string)
    (label : string) (v : Z) :
  Updater.label_id_of (Updater.build_table labelmap original) label = Some v ->
  exists item, item ∈ labelmap /\ 0 < object_id item /\ v = label_id item
    /\ normalized label = normalized (object_name item).
Proof.
  unfold Updater.label_id_of. intros H.
  assert (exists k, (k, v) ∈ Updater.build_table labelmap original
                    /\ str_lower k = str_lower label) as (k & Hk & Hl).
  { destruct (dict_get label _) as [w|] eqn:E.
    - injection H as ->. exists label. split; [by apply dict_get_elem|done].
    - by apply ci_scan_elem in H. }
  destruct (build_table_sound labelmap original _ _ Hk) as (item & Hin & Hpos & Hn & Hv).
  exists item. repeat split; try done. rewrite <- Hn. symmetry. by apply normalized_lower_eq.
Qed.

Section KnownIds.
Variable labelmap : list LabelMapEntry.

Lemma known_ids_entries (vars : string -> list string) (items : list LabelMapEntry)
    (d : pydict Z) :
  (forall item, item ∈ items -> item ∈ labelmap) ->
  known_ids labelmap d -> known_ids labelmap (fold_left (add_entry vars) items d).
Proof.
  revert d. induction items as [|item r IH]; intros d Hsub Hd; simpl; [done|].
  apply IH; [intros x Hx; apply Hsub; by right|].
  unfold add_entry. destruct (0 <? object_id item) eqn:E; [|done].
  apply Z.ltb_lt in E. intros k v H.
  destruct (dict_set_all_elem _ _ _ _ _ H) as [[Hk ->]|H']; [|exact (Hd _ _ H')].
  exists item. split; [apply Hsub; left|done].
Qed.

Lemma known_ids_load : known_ids labelmap (Coco.load_labelmap labelmap).
Proof.
  apply (known_ids_entries Coco.variants); [done|].
  intros k v H. by apply elem_of_nil in H.
Qed.

Lemma known_ids_original (d : pydict Z) (orig : string) :
  known_ids labelmap d -> known_ids labelmap (Updater.add_original labelmap d orig).
Proof.
  intros Hd. unfold Updater.add_original.
  set (d1 := match Updater.entry_named (normalized orig) labelmap with
             | Some item => dict_set orig (label_id item) d
             | None => d end).
  assert (Hd1 : known_ids labelmap d1).
  { unfold d1. destruct (Updater.entry_named _ _) as [item|] eqn:E; [|done].
    apply entry_named_spec in E as (Hin & Hpos & _). intros k v H.
    destruct (dict_set_elem _ _ _ _ _ H) as [[= -> ->]|H']; [by exists item|exact (Hd _ _ H')]. }
  destruct (dict_mem orig d1); [done|].
  destruct (ci_scan orig d1) as [val|] eqn:Es; [|done].
  apply ci_scan_elem in Es as (k0 & Hk0 & _). intros k v H.
  destruct (dict_set_elem _ _ _ _ _ H) as [[= -> ->]|H']; [exact (Hd1 _ _ Hk0)|exact (Hd1 _ _ H')].
Qed.

Lemma known_ids_table (original : list string) :
  known_ids labelmap (Updater.build_table labelmap original).
Proof.
  unfold Updater.build_table.
  assert (Hv : known_ids labelmap (Updater.variation_table labelmap)).
  { apply (known_ids_entries Updater.variations); [done|].
    intros k v H. by apply elem_of_nil in H. }
  revert Hv. generalize (Updater.variation_table labelmap).
  induction original as [|o r IH]; intros d Hd; simpl; [done|].
  by apply IH, known_ids_original.
Qed.

Lemma label_id_of_known (original : list string) (label : string) (v : Z) :
  Updater.label_id_of (Updater.build_table labelmap original) label = Some v ->
  exists item, item ∈ labelmap /\ 0 < object_id item /\ v = label_id item.
Proof.
  unfold Updater.label_id_of. intros H.
  assert (exists k, (k, v) ∈ Updater.build_table labelmap original) as (k & Hk).
  { destruct (dict_get label _) as [w|] eqn:E.
    - injection H as ->. exists label. by apply dict_get_elem.
    - apply ci_scan_elem in H as (k & Hk & _). by exists k. }
  exact (known_ids_table original _ _ Hk).
Qed.
End KnownIds.

Lemma update_row_shape (labelmap : list LabelMapEntry) (original : list string)
    (row : list string) :
  let row' := fst (UpdaterRun.update_row (Updater.build_table labelmap original) row) in
  length row' = length row
  /\ (forall j : nat, j ≠ 5%nat -> row' !! j = row !! j)
  /\ (row' = row
      \/ (6 <= length row)%nat
         /\ (exists item, item ∈ labelmap /\ 0 < object_id item
               /\ row' !! 5%nat = Some (str_of_int (label_id item)))
         /\ (ascii_labelmap labelmap = true ->
             forallb is_ascii original = true ->
             is_ascii (nth 5 row "") = true ->
             exists item, item ∈ labelmap /\ 0 < object_id item
               /\ row' !! 5%nat = Some (str_of_int (label_id item))
               /\ normalized (str_strip (nth 5 row ""))
                  = normalized (object_name item))).
Proof.
  unfold UpdaterRun.update_row.
  destruct (6 <=? length row)%nat eqn:E; [|by auto].
  apply Nat.leb_le in E.
  destruct (Updater.label_id_of _ _) as [v|] eqn:Ev; [|by auto].
  cbn [fst]. split; [apply length_insert|]. split.
  - intros j Hj. by apply list_lookup_insert_ne.
  - right. split; [done|]. split.
    + destruct (label_id_of_known _ _ _ _ Ev) as (item & Hin & Hpos & ->).
      exists item. repeat split; try done. apply list_lookup_insert_eq. lia.
    + intros _ _ _.
      destruct (label_id_of_sound _ _ _ _ Ev) as (item & Hin & Hpos & -> & Hn).
      exists item. repeat split; try done. apply list_lookup_insert_eq. lia.
Qed.

(** A file rewritten by the updater has the rows of the file it read: the
    header is kept, every row keeps its length and all its cells but the
    sixth, and a sixth cell that changes becomes the label id of a
    non-background entry.  When the names of the labelmap, the original
    spellings and the old label are ASCII strings, on which the [str]
    methods of this file are those of Python, the name of such an entry is
    the old label up to case and up to the choice between space and
    underscore. *)
Theorem update_file_shape (labelmap : list LabelMapEntry) (original : list string)
    (file rows : UpdaterRun.csv_file) :
  UpdaterRun.update_file (Updater.build_table labelmap original) file
  = UpdaterRun.Written rows ->
  length rows = length file
  /\ rows !! O = file !! O
  /\ forall (i : nat) row, file !! S i = Some row ->
       exists row', rows !! S i = Some row'
         /\ length row' = length row
         /\ (forall j : nat, j ≠ 5%nat -> row' !! j = row !! j)
         /\ (row' = row
             \/ (6 <= length row)%nat
                /\ (exists item, item ∈ labelmap /\ 0 < object_id item
                      /\ row' !! 5%nat = Some (str_of_int (label_id item)))
                /\ (ascii_labelmap labelmap = true ->
                    forallb is_ascii original = true ->
                    is_ascii (nth 5 row "") = true ->
                    exists item, item ∈ labelmap /\ 0 < object_id item
                      /\ row' !! 5%nat = Some (str_of_int (label_id item))
                      /\ normalized (str_strip (nth 5 row ""))
                         = normalized (object_name item))).
Proof.
  destruct file as [|header body]; [done|]. simpl.
  destruct (existsb snd _); [|done]. intros [= <-].
  split; [simpl; by rewrite !length_map|]. split; [done|].
  intros i row Hrow. simpl in Hrow.
  exists (fst (UpdaterRun.update_row (Updater.build_table labelmap original) row)).
  split.
  - simpl. change (map fst (map ?f body)) with (fst <$> (f <$> body)).
    by rewrite !list_lookup_fmap, Hrow.
  - apply update_row_shape.
Qed.

Lemma update_file_shape_witness :
  let file := [csv_header; ["0"; "5"; "5"; "10"; "10"; "Rust Leaf"]; ["note"]] in
  exists rows,
    UpdaterRun.update_file (Updater.build_table lm_rust []) file = UpdaterRun.Written rows
    /\ length rows = 3%nat.
Proof.
  intros file.
  exists [csv_header; ["0"; "5"; "5"; "10"; "10"; "2"]; ["note"]].
  assert (H : UpdaterRun.update_file (Updater.build_table lm_rust []) file
              = UpdaterRun.Written [csv_header; ["0"; "5"; "5"; "10"; "10"; "2"]; ["note"]])
    by (vm_compute; reflexivity).
  split; [exact H|].
  exact (proj1 (update_file_shape lm_rust [] file _ H)).
Defined.

(** ** Label updater: a run over the directory *)

Lemma update_files_names (table : pydict Z) (dir : list (string * UpdaterRun.csv_file)) :
  fst <$> fst (UpdaterRun.update_files table dir) = fst <$> dir.
Proof.
  induction dir as [|[name file] rest IH]; [done|]. simpl.
  destruct (UpdaterRun.update_file table file); [done|..];
    destruct (UpdaterRun.update_files table rest) as [rest' count];
    cbn [fst] in *; rewrite fmap_cons; cbn [fst]; by f_equal.
Qed.

Lemma update_files_raises (table : pydict Z) (dir : list (string * UpdaterRun.csv_file)) :
  snd (UpdaterRun.update_files table dir) = None <-> exists f, f ∈ dir /\ snd f = [].
Proof.
  induction dir as [|[name file] rest IH]; simpl.
  - split; [done|]. by intros (f & ?%elem_of_nil & _).
  - assert (Hrest : file ≠ [] ->
              (exists f, f ∈ (name, file) :: rest /\ snd f = [])
              <-> exists f, f ∈ rest /\ snd f = []).
    { intros Hne. split.
      - intros (f & [->|?]%elem_of_cons & Hf); [done|]. by exists f.
      - intros (f & ? & ?). exists f. split; [by right|done]. }
    destruct file as [|header body].
    + simpl. split; [|done]. intros _. exists (name, []). split; [left|done].
    + rewrite Hrest by done. rewrite <- IH. unfold UpdaterRun.update_file.
      destruct (existsb snd _);
        destruct (UpdaterRun.update_files table rest) as [rest' [n|]]; simpl; done.
Qed.

(** The run keeps the file names and their order.  It is stopped by an
    exception exactly when some file has no row at all; the files listed
    before the first such file are then already rewritten, and that file
    and the files after it are left as they were. *)
Theorem update_files_exception (table : pydict Z)
    (dir : list (string * UpdaterRun.csv_file)) :
  fst <$> fst (UpdaterRun.update_files table dir) = fst <$> dir
  /\ (snd (UpdaterRun.update_files table dir) = None <->
      exists f, f ∈ dir /\ snd f = [])
  /\ (forall before name after before' n,
        dir = (before ++ (name, []) :: after)%list ->
        UpdaterRun.update_files table before = (before', Some n) ->
        UpdaterRun.update_files table dir
        = ((before' ++ (name, []) :: after)%list, None)).
Proof.
  split; [apply update_files_names|]. split; [apply update_files_raises|].
  intros before name after before' n -> Hb.
  revert before' n Hb. induction before as [|[name0 file0] rest IH]; intros before' n.
  - simpl. by intros [= <- _].
  - simpl. destruct (UpdaterRun.update_file table file0) as [| |rows]; [done|..].
    + destruct (UpdaterRun.update_files table rest) as [rest' count] eqn:Er.
      intros [= <- ->]. by rewrite (IH rest' n eq_refl).
    + destruct (UpdaterRun.update_files table rest) as [rest' count] eqn:Er.
      intros [= <- Hc]. destruct count as [m|]; [|done].
      by rewrite (IH rest' m eq_refl).
Qed.

Lemma update_files_exception_witness :
  let file := [csv_header; ["0"; "5"; "5"; "10"; "10"; "Rust Leaf"]] in
  let file' := [csv_header; ["0"; "5"; "5"; "10"; "10"; "2"]] in
  UpdaterRun.update_files (Updater.build_table lm_rust [])
    [("a.csv", file); ("b.csv", []); ("c.csv", file)]
  = ([("a.csv", file'); ("b.csv", []); ("c.csv", file)], None).
Proof.
  intros file file'.
  destruct (update_files_exception (Updater.build_table lm_rust [])
              [("a.csv", file); ("b.csv", []); ("c.csv", file)]) as (_ & _ & H).
  exact (H [("a.csv", file)] "b.csv" [("c.csv", file)] [("a.csv", file')] 1%nat
           eq_refl eq_refl).
Defined.

(** ** Label updater: the original spellings *)

Lemma add_original_get_other (labelmap : list LabelMapEntry) (d : pydict Z)
    (orig k : string) :
  k ≠ orig -> dict_get k (Updater.add_original labelmap d orig) = dict_get k d.
Proof.
  intros Hne. apply String.eqb_neq in Hne. unfold Updater.add_original.
  destruct (Updater.entry_named (normalized orig) labelmap) as [item|];
    destruct (dict_mem orig _); try destruct (ci_scan orig _);
    rewrite ?dict_get_set, ?Hne; done.
Qed.

Lemma add_original_get_named (labelmap : list LabelMapEntry) (d : pydict Z)
    (orig : string) (item : LabelMapEntry) :
  Updater.entry_named (normalized orig) labelmap = Some item ->
  dict_get orig (Updater.add_original labelmap d orig) = Some (label_id item).
Proof.
  intros H. unfold Updater.add_original. rewrite H, dict_mem_set_same.
  by rewrite dict_get_set, String.eqb_refl.
Qed.

Lemma build_table_named (labelmap : list LabelMapEntry) (original : list string)
    (orig : string) (item : LabelMapEntry) (d : pydict Z) :
  Updater.entry_named (normalized orig) labelmap = Some item ->
  orig ∈ original \/ dict_get orig d = Some (label_id item) ->
  dict_get orig (fold_left (Updater.add_original labelmap) original d)
  = Some (label_id item).
Proof.
  intros Hitem. revert d. induction original as [|o r IH]; intros d H; simpl.
  - destruct H as [H|H]; [by apply elem_of_nil in H|done].
  - apply IH. destruct (decide (orig = o)) as [<-|Hne].
    + right. by apply add_original_get_named.
    + destruct H as [[?|?]%elem_of_cons|H]; [done|by left|].
      right. by rewrite add_original_get_other.
Qed.

Lemma entry_named_first (name : string) (before after : list LabelMapEntry)
    (item : LabelMapEntry) :
  Forall (fun e => ~ (0 < object_id e /\ object_name e = name)) before ->
  0 < object_id item -> object_name item = name ->
  Updater.entry_named name (before ++ item :: after) = Some item.
Proof.
  intros Hb Hpos Hname. unfold Updater.entry_named.
  induction Hb as [|e r He Hr IH]; simpl.
  - apply Z.ltb_lt in Hpos. rewrite Hpos, Hname, String.eqb_refl. done.
  - destruct (0 <? object_id e) eqn:E1; [|done].
    destruct (String.eqb (object_name e) name) eqn:E2; [|done].
    exfalso. apply He. split; [by apply Z.ltb_lt|by apply String.eqb_eq].
Qed.

(** A spelling found in the flat CSV files resolves to the label id of
    the first non-background labelmap entry that is named by the spelling
    in lower case with underscores for spaces, whatever the variations of
    the other entries are. *)
Theorem original_spelling_resolves (before after : list LabelMapEntry)
    (item : LabelMapEntry) (original : list string) (orig : string) :
  Forall (fun e => ~ (0 < object_id e /\ object_name e = normalized orig)) before ->
  0 < object_id item ->
  object_name item = normalized orig ->
  orig ∈ original ->
  Updater.label_id_of (Updater.build_table (before ++ item :: after) original) orig
  = Some (label_id item).
Proof.
  intros Hb Hpos Hname Hin.
  unfold Updater.label_id_of, Updater.build_table.
  rewrite (build_table_named _ _ _ item); [done| |by left].
  by apply entry_named_first.
Qed.

Lemma original_spelling_resolves_witness :
  Updater.label_id_of (Updater.build_table lm_twice ["Apple Leaf"]) "Apple Leaf" = Some 1.
Proof.
  refine (original_spelling_resolves [background] [entry 2 2 "apple_leaf"]
            (entry 1 1 "apple_leaf") ["Apple Leaf"] "Apple Leaf" _ _ eq_refl _).
  - repeat constructor. simpl. lia.
  - simpl. lia.
  - left.
Defined.

(** ** From the reorganizer to the label updater *)

Lemma create_labelmap_split (classes : list string) (i : nat) (c : string) :
  sorted classes !! i = Some c ->
  fst (Reorganizer.create_labelmap classes)
  = ((background
        :: map Reorganizer.labelmap_entry (take i (enumerate 1 (sorted classes))))
     ++ Reorganizer.labelmap_entry (1 + Z.of_nat i, c)
     :: map Reorganizer.labelmap_entry (drop (S i) (enumerate 1 (sorted classes))))%list.
Proof.
  intros Hc. unfold Reorganizer.create_labelmap. cbn [fst].
  rewrite <- app_comm_cons. f_equal.
  assert (Hl : enumerate 1 (sorted classes) !! i = Some (1 + Z.of_nat i, c))
    by (by rewrite enumerate_lookup, Hc).
  rewrite <- (take_drop_middle _ _ _ Hl) at 1.
  by rewrite map_app.
Qed.

Lemma updater_first_class (classes original : list string) (i : nat) (c c0 : string) :
  sorted classes !! i = Some c0 ->
  normalized c0 = normalized c ->
  (forall (j : nat) c', (j < i)%nat -> sorted classes !! j = Some c' ->
                        normalized c' ≠ normalized c) ->
  c ∈ original ->
  Updater.label_id_of
    (Updater.build_table (fst (Reorganizer.create_labelmap classes)) original) c
  = Some (Z.of_nat i + 1).
Proof.
  intros Hc Hn Hfirst Hin.
  rewrite (create_labelmap_split classes i c0 Hc).
  unfold Updater.label_id_of, Updater.build_table.
  rewrite (build_table_named _ _ _ (Reorganizer.labelmap_entry (1 + Z.of_nat i, c0)));
    [simpl; f_equal; lia| |by left].
  apply entry_named_first; [|simpl; lia|done].
  constructor; [simpl; lia|].
  apply Forall_forall. intros e He.
  apply list_elem_of_In, in_map_iff in He as ([j c'] & <- & Hjc).
  apply list_elem_of_In, list_elem_of_lookup in Hjc as (k & Hk).
  pose proof (lookup_lt_Some _ _ _ Hk) as Hlt. rewrite length_take in Hlt.
  rewrite lookup_take_lt in Hk by lia.
  rewrite enumerate_lookup in Hk.
  destruct (sorted classes !! k) as [c''|] eqn:Ek; [|done].
  injection Hk as <- <-. intros [_ Hname]. simpl in Hname.
  by apply (Hfirst k c''); [lia|..].
Qed.

(** On the labelmap the reorganizer writes, the updater gives a class
    name of the flat CSV files the id of the first class, in sorted
    order, that has the same form in lower case with underscores for
    spaces. *)
Theorem updater_label_first_class (train_csv test_csv : list csv_row)
    (original : list string) (i : nat) (c c0 : string) :
  let classes := Reorganizer.get_all_classes [train_csv; test_csv] in
  classes !! i = Some c0 ->
  normalized c0 = normalized c ->
  (forall (j : nat) c', (j < i)%nat -> classes !! j = Some c' ->
                        normalized c' ≠ normalized c) ->
  c ∈ original ->
  Updater.label_id_of
    (Updater.build_table (Reorganizer.main_labelmap train_csv test_csv) original) c
  = Some (Z.of_nat i + 1).
Proof.
  intros classes Hc Hn Hfirst Hin. unfold Reorganizer.main_labelmap. fold classes.
  assert (Hs : sorted classes = classes) by apply sorted_fixed, sorted_sorted.
  apply (updater_first_class classes original i c c0); rewrite ?Hs; done.
Qed.

Lemma updater_label_first_class_witness :
  Updater.label_id_of
    (Updater.build_table (Reorganizer.main_labelmap flat_train flat_test)
                         ["Rust leaf"; "apple Scab"; "Apple leaf"]) "Rust leaf"
  = Some 2.
Proof.
  refine (updater_label_first_class flat_train flat_test
            ["Rust leaf"; "apple Scab"; "Apple leaf"] 1 "Rust leaf" "Rust leaf"
            _ eq_refl _ _).
  - vm_compute. reflexivity.
  - intros [|j] c' Hj; [|lia]. vm_compute. intros [= <-]. discriminate.
  - left.
Defined.

(** When no two class names of the flat CSV files agree in lower case
    with underscores for spaces, the updater run on the reorganizer's
    labelmap gives every class name the id that the reorganizer's own
    dictionary [class_to_id] gives it. *)
Theorem updater_follows_reorganizer (train_csv test_csv : list csv_row)
    (original : list string) (c : string) :
  let classes := Reorganizer.get_all_classes [train_csv; test_csv] in
  (forall a b, a ∈ classes -> b ∈ classes -> normalized a = normalized b -> a = b) ->
  (forall s, s ∈ original <-> s ∈ UpdaterRun.original_classes [train_csv; test_csv]) ->
  c ∈ classes ->
  exists id,
    dict_get c (snd (Reorganizer.create_labelmap classes)) = Some id
    /\ Updater.label_id_of
         (Updater.build_table (Reorganizer.main_labelmap train_csv test_csv) original) c
       = Some id.
Proof.
  intros classes Hinj Horig Hc.
  assert (Hn : NoDup classes) by apply sorted_set_NoDup.
  assert (Hs : sorted classes = classes) by apply sorted_fixed, sorted_sorted.
  pose proof Hc as Hc'. apply list_elem_of_lookup in Hc' as (i & Hi).
  exists (Z.of_nat i + 1). split.
  - unfold Reorganizer.create_labelmap. cbn [snd].
    rewrite (numbering_lookup _ _ (1 + Z.of_nat i) c); [f_equal; lia|..].
    + by rewrite enumerate_snd, Hs.
    + apply list_elem_of_lookup. exists i. by rewrite enumerate_lookup, Hs, Hi.
  - unfold Reorganizer.main_labelmap. fold classes.
    apply (updater_first_class classes original i c c); rewrite ?Hs; try done.
    + intros j c' Hj Hc' Heq.
      assert (c' = c) as ->.
      { apply Hinj; [by apply list_elem_of_lookup_2 in Hc'|done..]. }
      pose proof (NoDup_lookup _ _ _ _ Hn Hc' Hi). lia.
    + apply Horig. by apply sorted_set_elem in Hc.
Qed.

Lemma updater_follows_reorganizer_witness :
  exists id,
    dict_get "Apple leaf"
      (snd (Reorganizer.create_labelmap (Reorganizer.get_all_classes [flat_train; flat_test])))
    = Some id
    /\ Updater.label_id_of
         (Updater.build_table (Reorganizer.main_labelmap flat_train flat_test)
                              ["Rust leaf"; "apple Scab"; "Apple leaf"]) "Apple leaf"
       = Some id.
Proof.
  assert (Hclasses : Reorganizer.get_all_classes [flat_train; flat_test]
                     = ["Apple leaf"; "Rust leaf"; "apple Scab"])
    by (vm_compute; reflexivity).
  apply (updater_follows_reorganizer flat_train flat_test
           ["Rust leaf"; "apple Scab"; "Apple leaf"] "Apple leaf").
  - rewrite Hclasses. intros a b Ha Hb.
    rewrite !elem_of_cons, !elem_of_nil in Ha, Hb.
    destruct Ha as [->|[->|[->|[]]]]; destruct Hb as [->|[->|[->|[]]]]; intros Heq;
      first [reflexivity | vm_compute in Heq; discriminate Heq].
  - intros s. rewrite <- sorted_set_elem.
    change (sorted_set (UpdaterRun.original_classes [flat_train; flat_test]))
      with (Reorganizer.get_all_classes [flat_train; flat_test]).
    rewrite Hclasses, !elem_of_cons, !elem_of_nil. tauto.
  - rewrite Hclasses. left.
Defined.

(** ** COCO exporter: which image and which category an annotation has *)

Section ExporterLinks.
Import CocoExport.
Variable float_of_str : string -> option float.
Variable image_size : string -> Z * Z.
Variable category : string.
Variable layout : Layout.
Variable class_to_id : pydict Z.

Lemma annotation_of_info (iid counter : Z) (boxes : list Box) :
  annotation_info <$> map (annotation_of iid) (enumerate counter boxes)
  = box_info iid <$> boxes.
Proof.
  revert counter. induction boxes as [|b r IH]; intros counter; [done|].
  cbn [enumerate map fmap list_fmap]. f_equal. apply IH.
Qed.

Lemma with_image_cons (dir : directory) (stem : string) (stems : list string) :
  with_image dir (stem :: stems)
  = match find_image dir stem with
    | Some _ => stem :: with_image dir stems
    | None => with_image dir stems
    end.
Proof.
  unfold with_image. destruct (find_image dir stem) as [img|] eqn:E.
  - apply filter_cons_True. by rewrite E.
  - apply filter_cons_False. rewrite E. by intros [? ?].
Qed.

Lemma export_loop_info (stems : list string) (st : LoopState) :
  let final :=
    fold_left (export_stem float_of_str image_size category layout class_to_id) stems st in
  let present := with_image (images_dir layout) stems in
  annotation_info <$> annotations final
  = ((annotation_info <$> annotations st)
     ++ (enumerate (image_id_counter st) present
           ≫= stem_info float_of_str layout class_to_id))%list
  /\ length (images final) = (length (images st) + length present)%nat.
Proof.
  revert st. induction stems as [|stem r IH]; intros st; cbn zeta.
  - cbn [fold_left]. unfold with_image. rewrite filter_nil. simpl.
    by rewrite app_nil_r, Nat.add_0_r.
  - cbn [fold_left]. rewrite with_image_cons.
    destruct (IH (export_stem float_of_str image_size category layout class_to_id st stem))
      as [Ha Hl].
    rewrite Ha, Hl. clear Ha Hl IH. unfold export_stem.
    destruct (find_image (images_dir layout) stem) as [img|]; [|done].
    destruct (image_size img) as [w h]. rewrite add_boxes_spec.
    cbn [images annotations image_id_counter enumerate].
    rewrite bind_cons, fmap_app, annotation_of_info, length_app, <- app_assoc.
    split; [done|]. simpl. lia.
Qed.

Lemma parse_row_category (row : csv_row) (box : Box) :
  parse_row float_of_str class_to_id row = Some box ->
  Coco.category_id_of class_to_id (str_strip (row_get "label" "" row))
  = Some (box_category_id box).
Proof.
  unfold parse_row.
  destruct (cell_float float_of_str "x" row) as [x|]; [|done].
  destruct (cell_float float_of_str "y" row) as [y|]; [|done].
  destruct (cell_float float_of_str "width" row) as [w|]; [|done].
  destruct (cell_float float_of_str "height" row) as [h|]; [|done].
  simpl. destruct (Coco.category_id_of _ _) as [c|]; [|done].
  simpl. by intros [= <-].
Qed.
End ExporterLinks.

Lemma category_id_of_listed (labelmap : list LabelMapEntry) (label : string) (id : Z) :
  str_isdigit label = false ->
  Coco.category_id_of (Coco.load_labelmap labelmap) label = Some id ->
  exists cat, cat ∈ CocoExport.categories_of labelmap
    /\ CocoExport.cat_ident cat = id
    /\ normalized (CocoExport.cat_name cat) = normalized label.
Proof.
  unfold Coco.category_id_of. intros -> H.
  assert (exists k, (k, id) ∈ Coco.load_labelmap labelmap
                    /\ normalized k = normalized label) as (k & Hk & Hn).
  { destruct (dict_get (normalized label) _) as [v|] eqn:E.
    - injection H as ->. exists (normalized label).
      split; [by apply dict_get_elem|apply normalized_idem].
    - apply ci_scan_elem in H as (k & Hk & Hl). exists k.
      split; [done|by apply normalized_lower_eq]. }
  destruct (load_labelmap_sound labelmap _ _ Hk) as (item & Hin & Hpos & Hname & ->).
  eexists. split; [apply categories_of_elem; by exists item|].
  split; [done|]. simpl. by rewrite <- Hname.
Qed.

Lemma category_id_of_known (labelmap : list LabelMapEntry) (label : string) (id : Z) :
  str_isdigit label = false ->
  Coco.category_id_of (Coco.load_labelmap labelmap) label = Some id ->
  exists cat, cat ∈ CocoExport.categories_of labelmap /\ CocoExport.cat_ident cat = id.
Proof.
  unfold Coco.category_id_of. intros -> H.
  assert (exists k, (k, id) ∈ Coco.load_labelmap labelmap) as (k & Hk).
  { destruct (dict_get (normalized label) _) as [v|] eqn:E.
    - injection H as ->. exists (normalized label). by apply dict_get_elem.
    - apply ci_scan_elem in H as (k & Hk & _). by exists k. }
  destruct (known_ids_load labelmap _ _ Hk) as (item & Hin & Hpos & ->).
  eexists. split; [apply categories_of_elem; by exists item|done].
Qed.

(** The annotations of a split are the boxes of the CSV files of the
    stems that have an image, stem after stem in sorted order and row
    after row, each under the id of the image of its stem and with
    [iscrowd] 0; an image without a CSV file is listed without
    annotations; and every annotation refers to an image of the list. *)
Theorem export_annotations_of_images (float_of_str : string -> option float)
    (image_size : string -> Z * Z) (layout : CocoExport.Layout) (split category : string) :
  let result :=
    CocoExport.collect_annotations_for_split float_of_str image_size layout split category in
  let images := fst (fst result) in
  let annotations := snd (fst result) in
  let present :=
    with_image (CocoExport.images_dir layout)
      (sorted_set (CocoExport.target_stems
                     (dict_get (split +:+ ".txt") (CocoExport.sets_dir layout))
                     (CocoExport.images_dir layout))) in
  annotation_info <$> annotations
  = enumerate 1 present
      ≫= stem_info float_of_str layout (Coco.load_labelmap (CocoExport.labelmap_json layout))
  /\ length images = length present
  /\ forall a, a ∈ annotations ->
       CocoExport.iscrowd a = 0
       /\ exists img, img ∈ images /\ CocoExport.image_ident img = CocoExport.image_id a.
Proof.
  intros result images annotations present.
  set (start := {| CocoExport.images := []; CocoExport.annotations := [];
                   CocoExport.image_id_counter := 1; CocoExport.ann_id_counter := 1 |}).
  set (stems := sorted_set _) in present.
  set (table := Coco.load_labelmap (CocoExport.labelmap_json layout)).
  destruct (export_loop_info float_of_str image_size category layout table stems start)
    as [Ha Hl].
  assert (Hstart : numbered start) by (by constructor).
  pose proof (export_loop_numbered float_of_str image_size category layout table
                stems start Hstart) as [Hi _ _ _ _].
  change (annotation_info <$> annotations
          = enumerate 1 present ≫= stem_info float_of_str layout table) in Ha.
  change (length images = length present) in Hl.
  change (CocoExport.image_ident <$> images = seqZ 1 (Z.of_nat (length images))) in Hi.
  split; [exact Ha|]. split; [exact Hl|].
  intros a Hin.
  assert (Hinfo : annotation_info a ∈ annotation_info <$> annotations)
    by (apply list_elem_of_fmap; by exists a).
  rewrite Ha in Hinfo. apply list_elem_of_bind in Hinfo as ([i stem] & Hbox & Hp).
  unfold stem_info in Hbox. apply list_elem_of_fmap in Hbox as (b & Hb & _).
  unfold annotation_info, box_info in Hb. injection Hb as Hid _ _ _ Hcrowd.
  split; [done|]. simpl in Hid.
  apply list_elem_of_lookup in Hp as (k & Hk).
  rewrite enumerate_lookup in Hk.
  destruct (present !! k) as [s|] eqn:Ek; [|done]. injection Hk as <- _.
  apply lookup_lt_Some in Ek. rewrite <- Hl in Ek.
  destruct (lookup_lt_is_Some_2 images k Ek) as [img Himg].
  exists img. split; [by apply list_elem_of_lookup_2 in Himg|].
  assert (Hk : (CocoExport.image_ident <$> images) !! k = Some (CocoExport.image_ident img))
    by (by rewrite list_lookup_fmap, Himg).
  rewrite Hi in Hk. apply lookup_seqZ in Hk as [Hk _]. lia.
Qed.

(** The category of every annotation comes from the label cell of a row
    of the CSV file of a stem of the split.  When that label is not a
    digit string, the category is one of the exported list; and when the
    names of the labelmap and the label are ASCII strings, on which the
    [str] methods of this file are those of Python, the name of such a
    category is the label up to case and up to the choice between space
    and underscore. *)
Theorem export_categories_listed (float_of_str : string -> option float)
    (image_size : string -> Z * Z) (layout : CocoExport.Layout) (split category : string) :
  let result :=
    CocoExport.collect_annotations_for_split float_of_str image_size layout split category in
  let annotations := snd (fst result) in
  let categories := snd result in
  forall a, a ∈ annotations ->
    exists stem rows row,
      stem ∈ CocoExport.target_stems
               (dict_get (split +:+ ".txt") (CocoExport.sets_dir layout))
               (CocoExport.images_dir layout)
      /\ dict_get (stem +:+ ".csv") (CocoExport.csv_dir layout) = Some rows
      /\ row ∈ rows
      /\ Coco.category_id_of (Coco.load_labelmap (CocoExport.labelmap_json layout))
           (str_strip (row_get "label" "" row))
         = Some (CocoExport.category_id a)
      /\ (str_isdigit (str_strip (row_get "label" "" row)) = false ->
          (exists cat, cat ∈ categories
             /\ CocoExport.cat_ident cat = CocoExport.category_id a)
          /\ (ascii_labelmap (CocoExport.labelmap_json layout) = true ->
              is_ascii (str_strip (row_get "label" "" row)) = true ->
              exists cat, cat ∈ categories
                /\ CocoExport.cat_ident cat = CocoExport.category_id a
                /\ normalized (CocoExport.cat_name cat)
                   = normalized (str_strip (row_get "label" "" row)))).
Proof.
  intros result annotations categories a Hin.
  set (start := {| CocoExport.images := []; CocoExport.annotations := [];
                   CocoExport.image_id_counter := 1; CocoExport.ann_id_counter := 1 |}).
  set (table := Coco.load_labelmap (CocoExport.labelmap_json layout)).
  set (set_of_stems := CocoExport.target_stems _ _).
  destruct (export_loop_info float_of_str image_size category layout table
              (sorted_set set_of_stems) start) as [Ha _].
  change (annotation_info <$> annotations
          = enumerate 1 (with_image (CocoExport.images_dir layout) (sorted_set set_of_stems))
              ≫= stem_info float_of_str layout table) in Ha.
  assert (Hinfo : annotation_info a ∈ annotation_info <$> annotations)
    by (apply list_elem_of_fmap; by exists a).
  rewrite Ha in Hinfo. apply list_elem_of_bind in Hinfo as ([i stem] & Hbox & Hp).
  unfold stem_info in Hbox. apply list_elem_of_fmap in Hbox as (b & Hb & Hboxes).
  unfold annotation_info, box_info in Hb. injection Hb as _ Hcat _ _ _.
  cbn [snd] in Hboxes.
  destruct (dict_get (stem +:+ ".csv") (CocoExport.csv_dir layout)) as [rows|] eqn:Ecsv;
    [|by apply elem_of_nil in Hboxes].
  simpl in Hboxes. apply list_elem_of_omap in Hboxes as (row & Hrow & Hparse).
  apply parse_row_category in Hparse. rewrite <- Hcat in Hparse.
  exists stem, rows, row.
  split.
  { assert (Hs : stem ∈ snd <$> enumerate 1 (with_image (CocoExport.images_dir layout)
                                                (sorted_set set_of_stems)))
      by (apply list_elem_of_fmap; by exists (i, stem)).
    rewrite enumerate_snd in Hs. unfold with_image in Hs.
    apply list_elem_of_filter in Hs as [_ Hs]. by apply sorted_set_elem in Hs. }
  split; [done|]. split; [done|]. split; [done|].
  intros Hd. split.
  - exact (category_id_of_known _ _ _ Hd Hparse).
  - intros _ _. by apply category_id_of_listed.
Qed.

(** A row without the columns [x], [y], [width] and [height] is not
    skipped: when its label resolves it gives the box (0, 0, 0, 0) of
    area 0, whatever [float] makes of strings. *)
Theorem parse_row_defaults (float_of_str : string -> option float)
    (class_to_id : pydict Z) (row : csv_row) :
  Forall (fun key => dict_get key row = None) ["x"; "y"; "width"; "height"] ->
  CocoExport.parse_row float_of_str class_to_id row
  = (fun id => {| CocoExport.box_x := 0; CocoExport.box_y := 0;
                  CocoExport.box_width := 0; CocoExport.box_height := 0;
                  CocoExport.box_category_id := id; CocoExport.box_area := 0 |})
      <$> Coco.category_id_of class_to_id (str_strip (row_get "label" "" row)).
Proof.
  intros H. apply Forall_cons in H as [Hx H]. apply Forall_cons in H as [Hy H].
  apply Forall_cons in H as [Hw H]. apply Forall_cons in H as [Hh _].
  unfold CocoExport.parse_row, CocoExport.cell_float. rewrite Hx, Hy, Hw, Hh. simpl.
  by destruct (Coco.category_id_of _ _).
Qed.

Lemma parse_row_defaults_witness :
  CocoExport.parse_row (fun _ => None) (Coco.load_labelmap lm_rust) (label_only "Rust Leaf")
  = Some {| CocoExport.box_x := 0; CocoExport.box_y := 0;
            CocoExport.box_width := 0; CocoExport.box_height := 0;
            CocoExport.box_category_id := 2; CocoExport.box_area := 0 |}.
Proof.
  refine (parse_row_defaults (fun _ => None) (Coco.load_labelmap lm_rust)
            (label_only "Rust Leaf") _).
  repeat constructor.
Defined.

Lemma export_annotations_of_images_witness :
  annotation_info
    <$> snd (fst (CocoExport.collect_annotations_for_split float_of_digits
                    (fun _ => (640, 480)) layout_two "train" "plant_diseases"))
  = [ (1, 2, [5; 6; 10; 20]%float, 200%float, 0);
      (1, 1, [5; 6; 10; 20]%float, 200%float, 0);
      (2, 2, [5; 6; 10; 20]%float, 200%float, 0) ].
Proof.
  pose proof (export_annotations_of_images float_of_digits (fun _ => (640, 480))
                layout_two "train" "plant_diseases") as H.
  cbv zeta in H. destruct H as [H _]. rewrite H.
  vm_compute. reflexivity.
Defined.

Lemma export_categories_listed_witness :
  let a :=
    first_annotation
      (snd (fst (CocoExport.collect_annotations_for_split float_of_digits
                   (fun _ => (640, 480)) layout_two "train" "plant_diseases"))) in
  exists stem rows row,
    stem ∈ CocoExport.target_stems
             (dict_get ("train" +:+ ".txt") (CocoExport.sets_dir layout_two))
             (CocoExport.images_dir layout_two)
    /\ dict_get (stem +:+ ".csv") (CocoExport.csv_dir layout_two) = Some rows
    /\ row ∈ rows
    /\ Coco.category_id_of (Coco.load_labelmap (CocoExport.labelmap_json layout_two))
         (str_strip (row_get "label" "" row))
       = Some (CocoExport.category_id a)
    /\ (str_isdigit (str_strip (row_get "label" "" row)) = false ->
        (exists cat, cat ∈ CocoExport.categories_of (CocoExport.labelmap_json layout_two)
           /\ CocoExport.cat_ident cat = CocoExport.category_id a)
        /\ (ascii_labelmap (CocoExport.labelmap_json layout_two) = true ->
            is_ascii (str_strip (row_get "label" "" row)) = true ->
            exists cat, cat ∈ CocoExport.categories_of (CocoExport.labelmap_json layout_two)
              /\ CocoExport.cat_ident cat = CocoExport.category_id a
              /\ normalized (CocoExport.cat_name cat)
                 = normalized (str_strip (row_get "label" "" row)))).
Proof.
  intros a.
  apply (export_categories_listed float_of_digits (fun _ => (640, 480))
           layout_two "train" "plant_diseases" a).
  vm_compute. left.
Defined.

(** ** The split files, written and read back *)

Lemma str_app_assoc (s t u : string) : (s +:+ t) +:+ u = s +:+ (t +:+ u).
Proof.
  induction s as [|c r IH]; [done|].
  change (String c ((r +:+ t) +:+ u) = String c (r +:+ (t +:+ u))). by rewrite IH.
Qed.

Lemma str_app_nil (s : string) : s +:+ "" = s.
Proof.
  induction s as [|c r IH]; [done|].
  change (String c (r +:+ "") = String c r). by rewrite IH.
Qed.

Lemma splitlines_line (line s rest : string) :
  str_forall (fun c => negb (is_linebreak c)) s = true ->
  splitlines_from false line (s +:+ String "010" rest)
  = (line +:+ s) :: splitlines_from false "" rest.
Proof.
  revert line. induction s as [|c r IH]; intros line H.
  - change ("" +:+ String "010" rest) with (String "010" rest).
    cbn [splitlines_from andb]. change (is_linebreak "010") with true. cbn iota.
    change (Ascii.eqb "010" "013") with false.
    f_equal. by rewrite str_app_nil.
  - simpl in H. apply andb_true_iff in H as [Hc Hr]. apply negb_true_iff in Hc.
    change (String c r +:+ String "010" rest) with (String c (r +:+ String "010" rest)).
    cbn [splitlines_from andb]. rewrite Hc, (IH _ Hr). f_equal.
    by rewrite str_app_assoc.
Qed.

Lemma splitlines_write_lines (stems : list string) :
  Forall (fun s => str_forall (fun c => negb (is_linebreak c)) s = true) stems ->
  str_splitlines (write_lines stems) = stems.
Proof.
  unfold str_splitlines. induction 1 as [|s r Hs Hr IH]; [done|].
  cbn [write_lines fold_right]. rewrite splitlines_line by done.
  f_equal. exact IH.
Qed.

Lemma clean_stem_spec (s : string) :
  clean_stem s = true <->
  str_forall (fun c => negb (is_linebreak c)) s = true /\ s ≠ "" /\ str_strip s = s.
Proof.
  unfold clean_stem.
  rewrite !andb_true_iff, negb_true_iff, String.eqb_neq, String.eqb_eq. tauto.
Qed.

Lemma read_write_lines (stems : list string) :
  Forall (fun s => clean_stem s = true) stems ->
  CocoExport.read_split_list (Some (write_lines stems)) = stems.
Proof.
  intros H. unfold CocoExport.read_split_list.
  rewrite splitlines_write_lines.
  2:{ eapply Forall_impl; [exact H|]. intros s Hs. by apply clean_stem_spec in Hs as [? _]. }
  induction H as [|s r Hs Hr IH]; [done|].
  apply clean_stem_spec in Hs as (_ & Hne & Hstrip).
  cbn [map]. rewrite Hstrip, filter_cons_True by done. by rewrite IH.
Qed.

(** A list of stems written to a split file, one per line, is read back
    by the exporter as it was written, provided no stem holds a line
    break, is empty, or starts or ends with white space. *)
Theorem split_file_round_trip (stems : list string) :
  Forall (fun s => clean_stem s = true) stems ->
  str_splitlines (write_lines stems) = stems
  /\ CocoExport.read_split_list (Some (write_lines stems)) = stems.
Proof.
  intros H. split; [|by apply read_write_lines].
  apply splitlines_write_lines. eapply Forall_impl; [exact H|].
  intros s Hs. by apply clean_stem_spec in Hs as [? _].
Qed.

Lemma split_file_round_trip_witness :
  CocoExport.read_split_list (Some (write_lines ["img 01"; "b"; "a.b"]))
  = ["img 01"; "b"; "a.b"].
Proof.
  refine (proj2 (split_file_round_trip ["img 01"; "b"; "a.b"] _)).
  repeat constructor.
Defined.

(** ** From the reorganizer's split files to the exporter *)





(** ** Reorganizer: copying the images *)

Section CopyFacts.
Context {C : Type}.
Implicit Types (d source dest : pydict C) (st : pydict C * Z) (name : string).

Lemma dict_set_absent name (c : C) d :
  dict_mem name d = false -> dict_set name c d = (d ++ [(name, c)])%list.
Proof.
  unfold dict_mem. induction d as [|[k v] r IH]; simpl; [done|].
  destruct (String.eqb name k); [done|]. intros H. by rewrite IH.
Qed.

Lemma dict_mem_elem name (c : C) d : (name, c) ∈ d -> dict_mem name d = true.
Proof.
  unfold dict_mem. induction d as [|[k v] r IH]; simpl.
  - by intros ?%elem_of_nil.
  - intros [[= <- <-]|H]%elem_of_cons; [by rewrite String.eqb_refl|].
    destruct (String.eqb name k); [done|]. by apply IH.
Qed.

Lemma dict_get_glob ext name source :
  dict_get name (glob ext source)
  = if str_endswith ext name then dict_get name source else None.
Proof.
  unfold glob. induction source as [|[k v] r IH].
  - simpl. by destruct (str_endswith ext name).
  - rewrite filter_cons. destruct (decide _) as [Hk|Hk]; cbn [fst] in Hk;
      cbn [dict_get]; rewrite IH; destruct (String.eqb name k) eqn:E; try done.
    + apply String.eqb_eq in E as ->. by rewrite Hk.
    + apply String.eqb_eq in E as ->. by destruct (str_endswith ext k).
Qed.

Lemma copy_loop_get (l : list (string * C)) st name :
  dict_get name (fst (fold_left copy_image l st))
  = match dict_get name (fst st) with
    | Some c => Some c
    | None => dict_get name l
    end.
Proof.
  revert st. induction l as [|[k v] r IH]; intros [d n]; cbn [fold_left].
  - simpl. by destruct (dict_get name d).
  - rewrite IH. unfold copy_image. cbn [fst snd dict_get].
    unfold dict_mem. destruct (dict_get k d) as [w|] eqn:Ek; cbn [fst].
    + destruct (String.eqb name k) eqn:E; [|done].
      apply String.eqb_eq in E as ->. by rewrite Ek.
    + rewrite dict_get_set. destruct (String.eqb name k) eqn:E; [|done].
      apply String.eqb_eq in E as ->. by rewrite Ek.
Qed.

Lemma copy_loop_added (l : list (string * C)) st :
  exists added,
    fst (fold_left copy_image l st) = (fst st ++ added)%list
    /\ snd (fold_left copy_image l st) = snd st + Z.of_nat (length added).
Proof.
  revert st. induction l as [|[k v] r IH]; intros [d n]; cbn [fold_left].
  - exists []. simpl. rewrite app_nil_r. split; [done|lia].
  - destruct (IH (copy_image (d, n) (k, v))) as (added & Hd & Hn).
    rewrite Hd, Hn. unfold copy_image. cbn [fst snd].
    destruct (dict_mem k d) eqn:E; cbn [fst snd].
    + by exists added.
    + exists ((k, v) :: added). rewrite dict_set_absent by done.
      rewrite <- app_assoc. split; [done|]. simpl. lia.
Qed.

Lemma copy_loop_skip (l : list (string * C)) st :
  Forall (fun img => dict_mem (fst img) (fst st) = true) l ->
  fold_left copy_image l st = st.
Proof.
  induction 1 as [|img r Himg Hr IH]; [done|].
  cbn [fold_left]. unfold copy_image at 2. by rewrite Himg.
Qed.

Lemma copy_images_get source dest name :
  dict_get name (fst (copy_images source dest))
  = match dict_get name dest with
    | Some c => Some c
    | None => if is_image_name name then dict_get name source else None
    end.
Proof.
  unfold copy_images, is_image_name, image_extensions. cbn [fold_left existsb].
  rewrite !copy_loop_get, !dict_get_glob. cbn [fst].
  destruct (dict_get name dest) as [c|]; [done|].
  destruct (str_endswith ".jpg" name), (str_endswith ".jpeg" name),
    (str_endswith ".png" name), (dict_get name source); done.
Qed.

Lemma copy_images_added source dest :
  exists added,
    fst (copy_images source dest) = (dest ++ added)%list
    /\ snd (copy_images source dest) = Z.of_nat (length added).
Proof.
  unfold copy_images, image_extensions. cbn [fold_left].
  destruct (copy_loop_added (glob ".jpg" source) (dest, 0)) as (a1 & Hd1 & Hn1).
  destruct (copy_loop_added (glob ".jpeg" source)
              (fold_left copy_image (glob ".jpg" source) (dest, 0))) as (a2 & Hd2 & Hn2).
  destruct (copy_loop_added (glob ".png" source)
              (fold_left copy_image (glob ".jpeg" source)
                 (fold_left copy_image (glob ".jpg" source) (dest, 0))))
    as (a3 & Hd3 & Hn3).
  exists (a1 ++ a2 ++ a3)%list. rewrite Hd3, Hn3, Hd2, Hn2, Hd1, Hn1. cbn [fst snd].
  rewrite <- !app_assoc, !length_app. split; [done|lia].
Qed.

(** [copy_images] leaves the files that the destination holds as they
    are and puts the new files after them; a name that the destination
    does not hold is found there afterwards exactly when it ends in
    [.jpg], [.jpeg] or [.png] and the source holds it, with the content
    it has in the source; the number returned is the number of files
    added; and a second run copies nothing. *)
Theorem copy_images_spec source dest :
  let dest' := fst (copy_images source dest) in
  let copied := snd (copy_images source dest) in
  (exists added, dest' = (dest ++ added)%list /\ copied = Z.of_nat (length added))
  /\ (forall name,
        dict_get name dest'
        = match dict_get name dest with
          | Some c => Some c
          | None => if is_image_name name then dict_get name source else None
          end)
  /\ copy_images source dest' = (dest', 0).
Proof.
  intros dest' copied.
  split; [apply copy_images_added|]. split; [apply copy_images_get|].
  assert (Hall : forall ext, ext ∈ image_extensions ->
            Forall (fun img => dict_mem (fst img) dest' = true) (glob ext source)).
  { intros ext Hext. apply Forall_forall. intros [k v] Hin.
    unfold glob in Hin. apply list_elem_of_filter in Hin as [Hend Hin]. simpl in Hend.
    unfold dict_mem, dest'. rewrite copy_images_get. cbn [fst].
    destruct (dict_get k dest) as [c|]; [done|].
    assert (His : is_image_name k = true).
    { unfold is_image_name. apply existsb_exists. exists ext.
      split; [by apply list_elem_of_In|done]. }
    rewrite His. apply dict_mem_elem in Hin. unfold dict_mem in Hin.
    by destruct (dict_get k source). }
  unfold copy_images at 1. unfold image_extensions in *. cbn [fold_left].
  rewrite (copy_loop_skip (glob ".jpg" source) (dest', 0))
    by (cbn [fst]; apply Hall; rewrite !elem_of_cons; tauto).
  rewrite (copy_loop_skip (glob ".jpeg" source) (dest', 0))
    by (cbn [fst]; apply Hall; rewrite !elem_of_cons; tauto).
  apply copy_loop_skip. cbn [fst]. apply Hall. rewrite !elem_of_cons. tauto.
Qed.

(** The two calls of [main]: an image name that is both in [TRAIN] and
    in [TEST] keeps the content it has in [TRAIN], and the two numbers
    printed add up to the number of files that [images/] has gained. *)
Theorem copy_train_then_test (train_dir test_dir dest : pydict C) :
  let first := copy_images train_dir dest in
  let second := copy_images test_dir (fst first) in
  (forall name, dict_get name dest = None -> is_image_name name = true ->
     dict_get name (fst second)
     = match dict_get name train_dir with
       | Some c => Some c
       | None => dict_get name test_dir
       end)
  /\ snd first + snd second
     = Z.of_nat (length (fst second)) - Z.of_nat (length dest).
Proof.
  intros first second. split.
  - intros name Hd Hi. unfold second, first. rewrite !copy_images_get, Hd, Hi.
    by destruct (dict_get name train_dir).
  - destruct (copy_images_added train_dir dest) as (a1 & Hd1 & Hn1).
    destruct (copy_images_added test_dir (fst first)) as (a2 & Hd2 & Hn2).
    fold first in Hd1, Hn1. fold second in Hd2, Hn2.
    rewrite Hn1, Hn2, Hd2, Hd1, !length_app. lia.
Qed.
End CopyFacts.

Lemma copy_train_then_test_witness :
  dict_get "a.jpg" (fst (copy_images folder_test (fst (copy_images folder_train []))))
  = Some 1.
Proof.
  exact (proj1 (copy_train_then_test folder_train folder_test []) "a.jpg" eq_refl eq_refl).
Defined.

(** ** Reorganizer: the per-image CSV files *)

Lemma dict_set_keys {A : Type} (k : string) (v : A) (d : pydict A) :
  fst <$> dict_set k v d
  = if dict_mem k d then fst <$> d else ((fst <$> d) ++ [k])%list.
Proof.
  unfold dict_mem. induction d as [|[k' v'] r IH]; [done|]. cbn [dict_set dict_get].
  destruct (String.eqb k k') eqn:E; [done|].
  rewrite !fmap_cons, IH. by destruct (dict_get k r).
Qed.

Lemma dict_mem_keys {A : Type} (k : string) (d : pydict A) :
  dict_mem k d = true <-> k ∈ fst <$> d.
Proof.
  unfold dict_mem. induction d as [|[k' v'] r IH]; cbn [dict_get].
  - split; [done|]. by intros ?%elem_of_nil.
  - rewrite fmap_cons, elem_of_cons. cbn [fst].
    destruct (String.eqb k k') eqn:E.
    + apply String.eqb_eq in E. split; [by left|done].
    + apply String.eqb_neq in E. rewrite IH. split; [by right|]. by intros [?|?].
Qed.

Lemma dict_set_NoDup {A : Type} (k : string) (v : A) (d : pydict A) :
  NoDup (fst <$> d) -> NoDup (fst <$> dict_set k v d).
Proof.
  intros H. rewrite dict_set_keys. destruct (dict_mem k d) eqn:E; [done|].
  apply NoDup_app. split; [done|]. split; [|apply NoDup_singleton].
  intros x Hx ->%list_elem_of_singleton.
  apply dict_mem_keys in Hx. congruence.
Qed.

Lemma dict_get_NoDup {A : Type} (k : string) (v : A) (d : pydict A) :
  NoDup (fst <$> d) -> (k, v) ∈ d -> dict_get k d = Some v.
Proof.
  induction d as [|[k' v'] r IH]; [by intros _ ?%elem_of_nil|].
  rewrite fmap_cons. cbn [fst dict_get]. intros [Hk Hr]%NoDup_cons.
  intros [[= <- <-]|Hin]%elem_of_cons; [by rewrite String.eqb_refl|].
  destruct (String.eqb k k') eqn:E; [|by apply IH].
  apply String.eqb_eq in E as ->. exfalso. apply Hk.
  apply list_elem_of_fmap. by exists (k', v).
Qed.

Lemma group_append_get {A : Type} (k k' : string) (v : A) (d : pydict (list A)) :
  dict_get k' (group_append k v d)
  = if String.eqb k' k then extended (dict_get k d) [v] else dict_get k' d.
Proof.
  unfold group_append. rewrite dict_get_set.
  destruct (String.eqb k' k); [|done]. by destruct (dict_get k d).
Qed.

Lemma extended_app {A : Type} (old : option (list A)) (v : A) (new : list A) :
  extended (extended old [v]) new = extended old (v :: new).
Proof. destruct old as [l|]; simpl; [|done]. by rewrite <- app_assoc. Qed.

Lemma extended_nil {A : Type} (old : option (list A)) : extended old [] = old.
Proof. destruct old as [l|]; simpl; [|done]. by rewrite app_nil_r. Qed.

Section PerImageFacts.
Variable float_of_str : string -> option float.
Variable str_of_float : float -> string.

Lemma annotations_of_cons (filename : string) (row : csv_row) (rest : list csv_row) :
  annotations_of float_of_str filename (row :: rest)
  = match row_annotation float_of_str filename row with
    | Some ann => ann :: annotations_of float_of_str filename rest
    | None => annotations_of float_of_str filename rest
    end.
Proof. done. Qed.

Lemma read_rows_get (rows : list csv_row) (start groups : pydict (list FlatAnnotation))
    (filename : string) :
  read_rows float_of_str rows start = inr groups ->
  dict_get filename groups
  = extended (dict_get filename start) (annotations_of float_of_str filename rows).
Proof.
  revert start. induction rows as [|row rest IH]; intros start.
  - intros [= <-]. change (annotations_of float_of_str filename []) with (@nil FlatAnnotation).
    by rewrite extended_nil.
  - cbn [read_rows]. rewrite annotations_of_cons. unfold row_annotation.
    destruct (flat_row float_of_str row) as [e|[[f ann]|]]; [done|..];
      cbn [mbind error_bind]; intros H; rewrite (IH _ H); [|done].
    rewrite group_append_get, (String.eqb_sym filename f).
    destruct (String.eqb f filename) eqn:E; [|done].
    apply String.eqb_eq in E as ->. by rewrite extended_app.
Qed.

Lemma read_rows_NoDup (rows : list csv_row) (start groups : pydict (list FlatAnnotation)) :
  read_rows float_of_str rows start = inr groups ->
  NoDup (fst <$> start) -> NoDup (fst <$> groups).
Proof.
  revert start. induction rows as [|row rest IH]; intros start.
  - by intros [= <-].
  - cbn [read_rows].
    destruct (flat_row float_of_str row) as [e|[[f ann]|]]; [done|..];
      cbn [mbind error_bind]; intros H Hn; apply (IH _ H); [|done].
    by apply dict_set_NoDup.
Qed.

Lemma read_rows_raises (rows : list csv_row) (start : pydict (list FlatAnnotation))
    (e : error) :
  read_rows float_of_str rows start = inl e <->
  exists before row after,
    rows = (before ++ row :: after)%list
    /\ Forall (fun r => exists item, flat_row float_of_str r = inr item) before
    /\ flat_row float_of_str row = inl e.
Proof.
  revert start. induction rows as [|row rest IH]; intros start.
  - split; [done|]. intros ([|? ?] & ? & ? & ? & _); done.
  - cbn [read_rows]. destruct (flat_row float_of_str row) as [e'|item] eqn:Er;
      cbn [mbind error_bind].
    + split.
      * intros [= ->]. exists [], row, rest. by repeat split.
      * intros ([|r0 before] & row' & after & Hrows & Hb & Hrow).
        -- injection Hrows as <- _. congruence.
        -- injection Hrows as <- _. apply Forall_cons in Hb as [[? Hb] _]. congruence.
    + rewrite IH. split.
      * intros (before & row' & after & -> & Hb & Hrow).
        exists (row :: before), row', after. split; [done|]. split; [|done].
        constructor; [by exists item|done].
      * intros ([|r0 before] & row' & after & Hrows & Hb & Hrow).
        -- injection Hrows as <- _. congruence.
        -- injection Hrows as <- ->. apply Forall_cons in Hb as [_ Hb].
           by exists before, row', after.
Qed.

End PerImageFacts.

Section RawRows.
Variable float_of_str : string -> option float.
Variable strip : string -> string.
Variable isdigit : string -> bool.

Lemma raw_annotations_of_cons (filename : string) (row : raw_row) (rest : list raw_row) :
  Raw.annotations_of float_of_str strip isdigit filename (row :: rest)
  = match Raw.row_annotation float_of_str strip isdigit filename row with
    | Some ann => ann :: Raw.annotations_of float_of_str strip isdigit filename rest
    | None => Raw.annotations_of float_of_str strip isdigit filename rest
    end.
Proof. done. Qed.

Lemma raw_read_rows_get (rows : list raw_row) (start groups : pydict (list FlatAnnotation))
    (filename : string) :
  Raw.read_rows float_of_str strip isdigit rows start = Raw.Done groups ->
  dict_get filename groups
  = extended (dict_get filename start)
             (Raw.annotations_of float_of_str strip isdigit filename rows).
Proof.
  revert start. induction rows as [|row rest IH]; intros start.
  - intros [= <-].
    change (Raw.annotations_of float_of_str strip isdigit filename [])
      with (@nil FlatAnnotation).
    by rewrite extended_nil.
  - cbn [Raw.read_rows]. rewrite raw_annotations_of_cons. unfold Raw.row_annotation.
    destruct (Raw.flat_row float_of_str strip isdigit row) as [[f ann]| |e]; [| |done];
      intros H; rewrite (IH _ H); [|done].
    rewrite group_append_get, (String.eqb_sym filename f).
    destruct (String.eqb f filename) eqn:E; [|done].
    apply String.eqb_eq in E as ->. by rewrite extended_app.
Qed.

Lemma raw_read_rows_NoDup (rows : list raw_row)
    (start groups : pydict (list FlatAnnotation)) :
  Raw.read_rows float_of_str strip isdigit rows start = Raw.Done groups ->
  NoDup (fst <$> start) -> NoDup (fst <$> groups).
Proof.
  revert start. induction rows as [|row rest IH]; intros start.
  - by intros [= <-].
  - cbn [Raw.read_rows].
    destruct (Raw.flat_row float_of_str strip isdigit row) as [[f ann]| |e]; [| |done];
      intros H Hn; apply (IH _ H); [|done].
    by apply dict_set_NoDup.
Qed.

Lemma raw_read_rows_raises (rows : list raw_row) (start : pydict (list FlatAnnotation))
    (e : Raw.exn) :
  Raw.read_rows float_of_str strip isdigit rows start = Raw.Raised e <->
  exists before row after,
    rows = (before ++ row :: after)%list
    /\ Forall (fun r => forall e', Raw.flat_row float_of_str strip isdigit r ≠ Raw.Raised e')
              before
    /\ Raw.flat_row float_of_str strip isdigit row = Raw.Raised e.
Proof.
  revert start. induction rows as [|row rest IH]; intros start.
  - split; [done|]. intros ([|? ?] & ? & ? & ? & _); done.
  - cbn [Raw.read_rows].
    assert (Hgo : forall start',
              (forall e', Raw.flat_row float_of_str strip isdigit row ≠ Raw.Raised e') ->
              Raw.read_rows float_of_str strip isdigit rest start' = Raw.Raised e <->
              exists before row0 after,
                row :: rest = (before ++ row0 :: after)%list
                /\ Forall (fun r => forall e',
                             Raw.flat_row float_of_str strip isdigit r ≠ Raw.Raised e')
                          before
                /\ Raw.flat_row float_of_str strip isdigit row0 = Raw.Raised e).
    { intros start' Hrow. rewrite IH. split.
      - intros (before & row' & after & -> & Hb & Hr).
        exists (row :: before), row', after. split; [done|]. split; [|done].
        by constructor.
      - intros ([|r0 before] & row' & after & Hrows & Hb & Hr).
        + injection Hrows as <- _. by destruct (Hrow e).
        + injection Hrows as <- ->. apply Forall_cons in Hb as [_ Hb].
          by exists before, row', after. }
    destruct (Raw.flat_row float_of_str strip isdigit row) as [[f ann]| |e0] eqn:Er.
    + by apply Hgo.
    + by apply Hgo.
    + split.
      * intros [= ->]. exists [], row, rest. by repeat split.
      * intros ([|r0 before] & row' & after & Hrows & Hb & Hr).
        -- injection Hrows as <- _. congruence.
        -- injection Hrows as <- _. apply Forall_cons in Hb as [Hb _].
           by destruct (Hb e0).
Qed.

Lemma raw_read_rows_not_skipped (rows : list raw_row)
    (start : pydict (list FlatAnnotation)) :
  Raw.read_rows float_of_str strip isdigit rows start ≠ Raw.Skipped.
Proof.
  revert start. induction rows as [|row rest IH]; intros start; cbn [Raw.read_rows];
    [done|].
  destruct (Raw.flat_row float_of_str strip isdigit row) as [[f ann]| |e]; [..|done];
    apply IH.
Qed.

Lemma raw_flat_row_skips (row : raw_row) (fc cc : string) :
  dict_get "filename" row = Some (Some fc) ->
  dict_get "class" row = Some (Some cc) ->
  strip fc = "" \/ strip cc = "" \/ isdigit (strip cc) = true ->
  Raw.flat_row float_of_str strip isdigit row = Raw.Skipped.
Proof.
  intros Hf Hc Hskip. unfold Raw.flat_row, Raw.item. rewrite Hf, Hc.
  cbn [mbind Raw.result_bind Raw.stripped].
  destruct Hskip as [-> | [-> | ->]]; [done|..].
  - by rewrite orb_true_r.
  - by rewrite orb_true_r.
Qed.

Lemma raw_flat_row_raises (row : raw_row) (e : Raw.exn) :
  Raw.flat_row float_of_str strip isdigit row = Raw.Raised e ->
  (exists key, key ∈ ["filename"; "class"; "xmin"; "ymin"; "xmax"; "ymax"]
     /\ dict_get key row = None /\ e = Raw.KeyError key)
  \/ (exists key, key ∈ ["filename"; "class"]
        /\ dict_get key row = Some None /\ e = Raw.AttributeError)
  \/ (exists key, key ∈ ["xmin"; "ymin"; "xmax"; "ymax"]
        /\ dict_get key row = Some None /\ e = Raw.TypeError)
  \/ (exists key cell, key ∈ ["xmin"; "ymin"; "xmax"; "ymax"]
        /\ dict_get key row = Some (Some cell) /\ float_of_str cell = None
        /\ e = Raw.ValueError cell).
Proof.
  unfold Raw.flat_row, Raw.item, Raw.stripped, Raw.to_float.
  destruct (dict_get "filename" row) as [[fc|]|] eqn:Ef; cbn [mbind Raw.result_bind];
    [| intros [= <-]; right; left; exists "filename"; rewrite !elem_of_cons; tauto
     | intros [= <-]; left; exists "filename"; rewrite !elem_of_cons; tauto].
  destruct (dict_get "class" row) as [[cc|]|] eqn:Ec; cbn [mbind Raw.result_bind];
    [| intros [= <-]; right; left; exists "class"; rewrite !elem_of_cons; tauto
     | intros [= <-]; left; exists "class"; rewrite !elem_of_cons; tauto].
  destruct (_ || _ || _); [done|].
  destruct (dict_get "xmin" row) as [xmin|] eqn:E1; cbn [mbind Raw.result_bind];
    [| intros [= <-]; left; exists "xmin"; rewrite !elem_of_cons; tauto].
  destruct (dict_get "ymin" row) as [ymin|] eqn:E2; cbn [mbind Raw.result_bind];
    [| intros [= <-]; left; exists "ymin"; rewrite !elem_of_cons; tauto].
  destruct (dict_get "xmax" row) as [xmax|] eqn:E3; cbn [mbind Raw.result_bind];
    [| intros [= <-]; left; exists "xmax"; rewrite !elem_of_cons; tauto].
  destruct (dict_get "ymax" row) as [ymax|] eqn:E4; cbn [mbind Raw.result_bind];
    [| intros [= <-]; left; exists "ymax"; rewrite !elem_of_cons; tauto].
  destruct xmin as [c1|]; cbn [mbind Raw.result_bind];
    [destruct (float_of_str c1) as [v1|] eqn:F1; cbn [mbind Raw.result_bind];
     [| intros [= <-]; do 3 right; exists "xmin", c1; rewrite !elem_of_cons; tauto]
    | intros [= <-]; right; right; left; exists "xmin"; rewrite !elem_of_cons; tauto].
  destruct ymin as [c2|]; cbn [mbind Raw.result_bind];
    [destruct (float_of_str c2) as [v2|] eqn:F2; cbn [mbind Raw.result_bind];
     [| intros [= <-]; do 3 right; exists "ymin", c2; rewrite !elem_of_cons; tauto]
    | intros [= <-]; right; right; left; exists "ymin"; rewrite !elem_of_cons; tauto].
  destruct xmax as [c3|]; cbn [mbind Raw.result_bind];
    [destruct (float_of_str c3) as [v3|] eqn:F3; cbn [mbind Raw.result_bind];
     [| intros [= <-]; do 3 right; exists "xmax", c3; rewrite !elem_of_cons; tauto]
    | intros [= <-]; right; right; left; exists "xmax"; rewrite !elem_of_cons; tauto].
  destruct ymax as [c4|]; cbn [mbind Raw.result_bind];
    [destruct (float_of_str c4) as [v4|] eqn:F4; cbn [mbind Raw.result_bind];
     [| intros [= <-]; do 3 right; exists "ymax", c4; rewrite !elem_of_cons; tauto]
    | intros [= <-]; right; right; left; exists "ymax"; rewrite !elem_of_cons; tauto].
  done.
Qed.

(** The first loop of [create_per_image_csvs], on rows that may come
    from lines shorter than the header, whatever [strip] and [isdigit]
    do.  When it completes, each file name is keyed once and holds the
    annotations of its rows in the order of the rows, and a file name
    without annotation is not keyed.  A row whose stripped file name is
    empty, or whose stripped class is empty or passes [isdigit], adds
    nothing, whatever its coordinate cells are.  An exception is the one
    of the first row that raises one, the rows after it are not looked
    at, and it is a [KeyError] for a missing column, an [AttributeError]
    for a missing [filename] or [class] cell, a [TypeError] for a missing
    coordinate cell or a [ValueError] for a coordinate cell that [float]
    rejects. *)
Theorem read_rows_spec (rows : list raw_row) :
  let flat := Raw.flat_row float_of_str strip isdigit in
  let run := Raw.read_rows float_of_str strip isdigit rows [] in
  (forall groups, run = Raw.Done groups ->
     NoDup (fst <$> groups)
     /\ forall filename,
          dict_get filename groups
          = match Raw.annotations_of float_of_str strip isdigit filename rows with
            | [] => None
            | anns => Some anns
            end)
  /\ (forall row fc cc,
        dict_get "filename" row = Some (Some fc) ->
        dict_get "class" row = Some (Some cc) ->
        strip fc = "" \/ strip cc = "" \/ isdigit (strip cc) = true ->
        flat row = Raw.Skipped)
  /\ (forall e, run = Raw.Raised e <->
        exists before row after,
          rows = (before ++ row :: after)%list
          /\ Forall (fun r => forall e', flat r ≠ Raw.Raised e') before
          /\ flat row = Raw.Raised e)
  /\ (forall row e, flat row = Raw.Raised e ->
        (exists key, key ∈ ["filename"; "class"; "xmin"; "ymin"; "xmax"; "ymax"]
           /\ dict_get key row = None /\ e = Raw.KeyError key)
        \/ (exists key, key ∈ ["filename"; "class"]
              /\ dict_get key row = Some None /\ e = Raw.AttributeError)
        \/ (exists key, key ∈ ["xmin"; "ymin"; "xmax"; "ymax"]
              /\ dict_get key row = Some None /\ e = Raw.TypeError)
        \/ (exists key cell, key ∈ ["xmin"; "ymin"; "xmax"; "ymax"]
              /\ dict_get key row = Some (Some cell) /\ float_of_str cell = None
              /\ e = Raw.ValueError cell))
  /\ run ≠ Raw.Skipped.
Proof.
  intros flat run. split; [|split; [|split; [|split]]].
  - intros groups H. split.
    + apply (raw_read_rows_NoDup _ _ _ H). constructor.
    + intros filename. rewrite (raw_read_rows_get _ _ _ filename H).
      cbn [dict_get extended].
      by destruct (Raw.annotations_of float_of_str strip isdigit filename rows).
  - apply raw_flat_row_skips.
  - intros e. apply raw_read_rows_raises.
  - apply raw_flat_row_raises.
  - apply raw_read_rows_not_skipped.
Qed.
End RawRows.

(** On rows without missing cells, with [strip] and [isdigit] of this
    file, the row of the first loop with its exceptions is the one of the
    model without them. *)
Lemma raw_flat_row_full (float_of_str : string -> option float) (row : csv_row) :
  Raw.flat_row float_of_str str_strip str_isdigit (full_row row)
  = match flat_row float_of_str row with
    | inl (KeyError key) => Raw.Raised (Raw.KeyError key)
    | inl (ValueError cell) => Raw.Raised (Raw.ValueError cell)
    | inr None => Raw.Skipped
    | inr (Some p) => Raw.Done p
    end.
Proof.
  unfold Raw.flat_row, flat_row, Raw.item, row_item, Raw.stripped.
  rewrite !dict_get_full_row.
  destruct (dict_get "filename" row) as [fc|]; [|done].
  destruct (dict_get "class" row) as [cc|]; [|done].
  cbn [fmap option_fmap option_map mbind Raw.result_bind error_bind].
  destruct (_ || _ || _); [done|].
  destruct (dict_get "xmin" row) as [xmin|]; [|done].
  destruct (dict_get "ymin" row) as [ymin|]; [|done].
  destruct (dict_get "xmax" row) as [xmax|]; [|done].
  destruct (dict_get "ymax" row) as [ymax|]; [|done].
  cbn [fmap option_fmap option_map mbind Raw.result_bind error_bind].
  unfold convert_bbox_cells, to_float, Raw.to_float.
  destruct (float_of_str xmin) as [a|]; [|done].
  destruct (float_of_str ymin) as [b|]; [|done].
  destruct (float_of_str xmax) as [c|]; [|done].
  destruct (float_of_str ymax) as [d|]; [|done].
  done.
Qed.

Lemma read_rows_spec_witness :
  let rows := [raw_flat "a.jpg" "Rust leaf" (Some "22"); raw_flat "b.png" "7" None;
               raw_flat " a.jpg" " Apple leaf " (Some "5")] in
  (exists groups,
     Raw.read_rows float_of_digits str_strip str_isdigit rows [] = Raw.Done groups
     /\ fst <$> groups = ["a.jpg"]
     /\ (flat_label <$> default [] (dict_get "a.jpg" groups)) = ["Rust leaf"; "Apple leaf"])
  /\ Raw.read_rows float_of_digits str_strip str_isdigit
       (rows ++ [raw_flat_short "c.jpg"; raw_flat "d.jpg" "Rust leaf" None]) []
     = Raw.Raised Raw.AttributeError.
Proof.
  intros rows.
  destruct (read_rows_spec float_of_digits str_strip str_isdigit rows) as (H & _).
  destruct (read_rows_spec float_of_digits str_strip str_isdigit
              (rows ++ [raw_flat_short "c.jpg"; raw_flat "d.jpg" "Rust leaf" None]))
    as (_ & _ & Hr & _).
  split.
  - destruct (Raw.read_rows float_of_digits str_strip str_isdigit rows []) as [groups| |e]
      eqn:E; [|vm_compute in E; discriminate E..].
    exists groups. split; [done|].
    destruct (H groups eq_refl) as [_ Hget]. rewrite Hget.
    injection E as <-. split; vm_compute; reflexivity.
  - apply Hr. exists rows, (raw_flat_short "c.jpg"), [raw_flat "d.jpg" "Rust leaf" None].
    split; [reflexivity|]. split; [|reflexivity].
    repeat constructor; intros e'; vm_compute; discriminate.
Defined.

Section PerImageWrites.
Variable float_of_str : string -> option float.
Variable str_of_float : float -> string.
Variable images_dir : directory.

Lemma write_loop_warnings (groups : list (string * list FlatAnnotation))
    (st : pydict UpdaterRun.csv_file * list string) :
  snd (fold_left (write_group str_of_float images_dir) groups st)
  = (snd st
     ++ (not_found <$> filter (fun f => image_found images_dir f = false)
                              (fst <$> groups)))%list.
Proof.
  revert st. induction groups as [|[f anns] r IH]; intros st; cbn [fold_left].
  - simpl. by rewrite app_nil_r.
  - rewrite IH, fmap_cons, filter_cons. unfold write_group. cbn [fst snd].
    destruct (image_found images_dir f) eqn:E; cbn [fst snd].
    + by rewrite decide_False by done.
    + rewrite decide_True by done. by rewrite fmap_cons, <- app_assoc.
Qed.

Lemma write_loop_get (groups : list (string * list FlatAnnotation))
    (st : pydict UpdaterRun.csv_file * list string) (key : string) :
  dict_get key (fst (fold_left (write_group str_of_float images_dir) groups st))
  = match last (filter (fun g => image_found images_dir (fst g) = true
                                 /\ csv_key (fst g) = key) groups) with
    | Some g => Some (per_image_file str_of_float (snd g))
    | None => dict_get key (fst st)
    end.
Proof.
  revert st. induction groups as [|[f anns] r IH]; intros st; cbn [fold_left]; [done|].
  rewrite IH, filter_cons. unfold write_group. cbn [fst snd].
  fold (csv_key f).
  destruct (decide _) as [[Hf Hk]|Hn]; cbn [fst snd] in *.
  - rewrite last_cons. destruct (last _) as [g|]; [done|].
    rewrite Hf. cbn [fst]. by rewrite dict_get_set, Hk, String.eqb_refl.
  - destruct (last _) as [g|]; [done|].
    destruct (image_found images_dir f) eqn:Hf; [|done]. cbn [fst].
    rewrite dict_get_set. destruct (String.eqb key (csv_key f)) eqn:E; [|done].
    apply String.eqb_eq in E. exfalso. by apply Hn.
Qed.

(** The second loop of [create_per_image_csvs] and the number returned.
    The number is the number of file names that have an annotation,
    whether their image is found or not; one warning is printed for each
    of them without an image; a file of [csv/] that is not the file of a
    name with an image is left as it is, and the file of such a name
    holds the header and the annotations of one name that it is the file
    of. *)
Theorem per_image_files_written (rows : list csv_row)
    (csv_dir csv_dir' : pydict UpdaterRun.csv_file) (warnings : list string) (count : Z) :
  create_per_image_csvs float_of_str str_of_float rows images_dir csv_dir
  = inr (csv_dir', warnings, count) ->
  exists names,
    NoDup names
    /\ (forall f, f ∈ names <-> annotations_of float_of_str f rows ≠ [])
    /\ count = Z.of_nat (length names)
    /\ warnings
       = not_found <$> filter (fun f => image_found images_dir f = false) names
    /\ forall key,
         ((forall f, f ∈ names -> image_found images_dir f = true -> csv_key f ≠ key)
          /\ dict_get key csv_dir' = dict_get key csv_dir)
         \/ exists f, f ∈ names /\ image_found images_dir f = true /\ csv_key f = key
              /\ dict_get key csv_dir'
                 = Some (per_image_file str_of_float
                           (annotations_of float_of_str f rows)).
Proof.
  unfold create_per_image_csvs.
  destruct (read_rows float_of_str rows []) as [e|groups] eqn:Er; [done|].
  cbn [mbind error_bind mret error_ret]. intros [= <- <- <-].
  assert (Hn : NoDup (fst <$> groups)).
  { apply (read_rows_NoDup _ _ _ _ Er). constructor. }
  assert (Hget : forall f, dict_get f groups
                           = extended None (annotations_of float_of_str f rows)).
  { intros f. by rewrite (read_rows_get _ _ _ _ f Er). }
  exists (fst <$> groups). split; [done|]. split.
  { intros f. rewrite <- dict_mem_keys. unfold dict_mem. rewrite Hget.
    destruct (annotations_of float_of_str f rows); simpl; split; done. }
  split; [by rewrite length_fmap|]. split; [by rewrite write_loop_warnings|].
  intros key. rewrite write_loop_get. cbn [fst].
  match goal with |- context [last ?l] => set (matching := l) end.
  destruct (last matching) as [[f anns]|] eqn:El.
  - right. apply last_Some_elem_of in El. unfold matching in El.
    apply list_elem_of_filter in El as [[Hf Hk] Hin].
    cbn [fst snd] in *. exists f.
    split; [apply list_elem_of_fmap; by exists (f, anns)|].
    split; [done|]. split; [done|]. f_equal. f_equal.
    apply (dict_get_NoDup _ _ _ Hn) in Hin. rewrite Hget in Hin.
    destruct (annotations_of float_of_str f rows); simpl in Hin; congruence.
  - left. split; [|done]. apply last_None in El.
    intros f Hin Hf Hk. apply list_elem_of_fmap in Hin as ([f' anns] & -> & Hin).
    assert (Hin' : (f', anns) ∈ matching) by (by apply list_elem_of_filter).
    rewrite El in Hin'. by apply elem_of_nil in Hin'.
Qed.
End PerImageWrites.

Lemma per_image_files_written_witness :
  exists names,
    NoDup names
    /\ (forall f, f ∈ names <-> annotations_of float_of_digits f flat_boxes ≠ [])
    /\ 3 = Z.of_nat (length names)
    /\ [not_found "ghost.jpg"]
       = not_found <$> filter (fun f => image_found ["a.jpg"; "b.png"] f = false) names
    /\ forall key,
         ((forall f, f ∈ names -> image_found ["a.jpg"; "b.png"] f = true -> csv_key f ≠ key)
          /\ dict_get key
               [("a.csv", per_image_file (fun _ => "0.0")
                            (annotations_of float_of_digits "a.jpg" flat_boxes));
                ("b.csv", per_image_file (fun _ => "0.0")
                            (annotations_of float_of_digits "b.png" flat_boxes))]
             = dict_get key [])
         \/ exists f, f ∈ names /\ image_found ["a.jpg"; "b.png"] f = true /\ csv_key f = key
              /\ dict_get key
                   [("a.csv", per_image_file (fun _ => "0.0")
                                (annotations_of float_of_digits "a.jpg" flat_boxes));
                    ("b.csv", per_image_file (fun _ => "0.0")
                                (annotations_of float_of_digits "b.png" flat_boxes))]
                 = Some (per_image_file (fun _ => "0.0") (annotations_of float_of_digits f flat_boxes)).
Proof.
  apply (per_image_files_written float_of_digits (fun _ => "0.0") ["a.jpg"; "b.png"] flat_boxes []).
  vm_compute. reflexivity.
Defined.

(** ** From the per-image files of the reorganizer to the label updater *)

Lemma str_rstrip_idem (s : string) : str_rstrip (str_rstrip s) = str_rstrip s.
Proof.
  induction s as [|c r IH]; [done|]. cbn [str_rstrip].
  destruct (str_rstrip r) as [|a t] eqn:E.
  - destruct (is_space c) eqn:Ec; [done|]. cbn [str_rstrip]. by rewrite Ec.
  - change (str_rstrip (String c (String a t)))
      with (match str_rstrip (String a t) with
            | EmptyString => if is_space c then EmptyString else String c EmptyString
            | String a' t' => String c (String a' t')
            end).
    by rewrite IH.
Qed.

Lemma str_lstrip_length (s : string) :
  (String.length (str_lstrip s) <= String.length s)%nat.
Proof.
  induction s as [|c r IH]; [done|]. cbn [str_lstrip].
  destruct (is_space c); simpl; lia.
Qed.

Lemma str_lstrip_idem (s : string) : str_lstrip (str_lstrip s) = str_lstrip s.
Proof.
  induction s as [|c r IH]; [done|]. cbn [str_lstrip].
  destruct (is_space c) eqn:E; [done|]. cbn [str_lstrip]. by rewrite E.
Qed.

Lemma str_rstrip_lead (s : string) :
  str_lstrip s = s -> str_lstrip (str_rstrip s) = str_rstrip s.
Proof.
  destruct s as [|c r]; [done|]. cbn [str_lstrip].
  destruct (is_space c) eqn:E.
  - intros H. pose proof (str_lstrip_length r) as Hl. rewrite H in Hl. simpl in Hl. lia.
  - intros _. cbn [str_rstrip]. destruct (str_rstrip r) as [|a t].
    + rewrite E. cbn [str_lstrip]. by rewrite E.
    + cbn [str_lstrip]. by rewrite E.
Qed.

Lemma str_strip_idem (s : string) : str_strip (str_strip s) = str_strip s.
Proof.
  unfold str_strip. rewrite str_rstrip_lead by apply str_lstrip_idem.
  apply str_rstrip_idem.
Qed.

Lemma entry_named_exists (name : string) (labelmap : list LabelMapEntry)
    (item : LabelMapEntry) :
  item ∈ labelmap -> 0 < object_id item -> object_name item = name ->
  exists item', Updater.entry_named name labelmap = Some item'.
Proof.
  intros Hin Hpos Hname. unfold Updater.entry_named.
  destruct (find _ labelmap) as [item'|] eqn:E; [by exists item'|].
  apply list_elem_of_In in Hin. pose proof (find_none _ _ E _ Hin) as Hf.
  simpl in Hf. apply Z.ltb_lt in Hpos. rewrite Hpos, Hname, String.eqb_refl in Hf. done.
Qed.

Lemma class_resolves (train_csv test_csv : list csv_row) (original : list string)
    (c : string) :
  c ∈ Reorganizer.get_all_classes [train_csv; test_csv] ->
  c ∈ original ->
  exists v,
    Updater.label_id_of
      (Updater.build_table (Reorganizer.main_labelmap train_csv test_csv) original) c
    = Some v
    /\ 0 <= v.
Proof.
  intros Hc Hin.
  set (classes := Reorganizer.get_all_classes [train_csv; test_csv]) in *.
  assert (Hs : sorted classes = classes) by apply sorted_fixed, sorted_sorted.
  pose proof Hc as Hc'. apply list_elem_of_lookup in Hc' as (i & Hi).
  destruct (entry_named_exists (normalized c)
              (Reorganizer.main_labelmap train_csv test_csv)
              (Reorganizer.labelmap_entry (1 + Z.of_nat i, c))) as [item Hitem].
  { unfold Reorganizer.main_labelmap, Reorganizer.create_labelmap. fold classes.
    cbn [fst]. right. apply list_elem_of_In, in_map, list_elem_of_In.
    apply list_elem_of_lookup. exists i. by rewrite enumerate_lookup, Hs, Hi. }
  { simpl. lia. }
  { done. }
  assert (Hv : Updater.label_id_of
                 (Updater.build_table (Reorganizer.main_labelmap train_csv test_csv) original) c
               = Some (label_id item)).
  { unfold Updater.label_id_of, Updater.build_table.
    by rewrite (build_table_named _ _ _ item); [|done|left]. }
  exists (label_id item). split; [done|].
  apply (resolved_nonneg _ (main_labelmap_plain train_csv test_csv) original c _ Hv).
Qed.

Section ClassFiles.
Variable float_of_str : string -> option float.
Variable str_of_float : float -> string.
Variable classes : list string.

Lemma flat_row_label (row : csv_row) (f : string) (ann : FlatAnnotation) :
  flat_row float_of_str row = inr (Some (f, ann)) ->
  flat_label ann = str_strip (row_get "class" "" row)
  /\ Reorganizer.is_class_name (flat_label ann) = true.
Proof.
  unfold flat_row, row_item, row_get.
  destruct (dict_get "filename" row) as [fc|]; [|done].
  destruct (dict_get "class" row) as [cc|]; [|done].
  cbn [mbind error_bind].
  destruct (String.eqb (str_strip fc) "") eqn:Ef; [done|].
  destruct (String.eqb (str_strip cc) "") eqn:Ec; [done|].
  destruct (str_isdigit (str_strip cc)) eqn:Ed; [done|]. cbn [orb].
  destruct (dict_get "xmin" row) as [xmin|]; [|done].
  destruct (dict_get "ymin" row) as [ymin|]; [|done].
  destruct (dict_get "xmax" row) as [xmax|]; [|done].
  destruct (dict_get "ymax" row) as [ymax|]; [|done].
  cbn [mbind error_bind].
  destruct (convert_bbox_cells float_of_str xmin ymin xmax ymax) as [e|[[[x y] w] h]];
    [done|].
  cbn [mbind error_bind mret error_ret]. intros [= _ <-]. cbn [flat_label].
  split; [done|]. unfold Reorganizer.is_class_name. by rewrite Ec, Ed.
Qed.

Lemma annotations_of_elem (f : string) (rows : list csv_row) (ann : FlatAnnotation) :
  ann ∈ annotations_of float_of_str f rows ->
  exists row, row ∈ rows /\ flat_row float_of_str row = inr (Some (f, ann)).
Proof.
  unfold annotations_of. intros (row & Hrow & Hann)%list_elem_of_omap.
  exists row. split; [done|]. unfold row_annotation in Hann.
  destruct (flat_row float_of_str row) as [e|[[f' a]|]]; try done.
  destruct (String.eqb f' f) eqn:E; [|done].
  apply String.eqb_eq in E as ->. by injection Hann as ->.
Qed.

Lemma per_image_file_class (anns : list FlatAnnotation) :
  anns ≠ [] ->
  Forall (fun ann => flat_label ann ∈ classes
                     /\ str_strip (flat_label ann) = flat_label ann) anns ->
  class_file classes (per_image_file str_of_float anns).
Proof.
  intros Hne Hall. exists (map (per_image_row str_of_float) (enumerate 0 anns)).
  split; [done|]. split.
  { destruct anns; [done|]. simpl. done. }
  apply Forall_forall. intros row Hrow.
  apply list_elem_of_In, in_map_iff in Hrow as ([i ann] & <- & Hin).
  assert (Hann : ann ∈ anns).
  { rewrite <- (enumerate_snd 0 anns). apply list_elem_of_fmap.
    exists (i, ann). split; [done|by apply list_elem_of_In]. }
  rewrite Forall_forall in Hall. destruct (Hall ann Hann) as [Hc Hs].
  split; [done|]. by exists (flat_label ann).
Qed.

Lemma write_loop_class (images_dir : directory)
    (groups : list (string * list FlatAnnotation))
    (st : pydict UpdaterRun.csv_file * list string) :
  Forall (fun g => class_file classes (per_image_file str_of_float (snd g))) groups ->
  Forall (fun file => class_file classes (snd file)) (fst st) ->
  Forall (fun file => class_file classes (snd file))
         (fst (fold_left (write_group str_of_float images_dir) groups st)).
Proof.
  intros Hg. revert st. induction Hg as [|g r Hfile Hr IH]; intros st Hst; [done|].
  cbn [fold_left]. apply IH. unfold write_group.
  destruct (image_found images_dir (fst g)); [|done]. cbn [fst].
  apply Forall_forall. intros [k file] Hin.
  apply dict_set_elem in Hin as [[= -> ->]|Hin]; [done|].
  rewrite Forall_forall in Hst. by apply (Hst (k, file)).
Qed.

Lemma create_per_image_csvs_class (rows : list csv_row) (images_dir : directory)
    (csv_dir csv_dir' : pydict UpdaterRun.csv_file) (warnings : list string) (count : Z) :
  create_per_image_csvs float_of_str str_of_float rows images_dir csv_dir
  = inr (csv_dir', warnings, count) ->
  (forall row c, row ∈ rows -> c = str_strip (row_get "class" "" row) ->
                 Reorganizer.is_class_name c = true -> c ∈ classes) ->
  Forall (fun file => class_file classes (snd file)) csv_dir ->
  Forall (fun file => class_file classes (snd file)) csv_dir'.
Proof.
  unfold create_per_image_csvs.
  destruct (read_rows float_of_str rows []) as [e|groups] eqn:Er; [done|].
  cbn [mbind error_bind mret error_ret]. intros [= <- _ _] Hclasses Hdir.
  apply write_loop_class; [|done].
  assert (Hn : NoDup (fst <$> groups)).
  { apply (read_rows_NoDup _ _ _ _ Er). constructor. }
  apply Forall_forall. intros [f anns] Hin. cbn [snd].
  apply (dict_get_NoDup _ _ _ Hn) in Hin.
  rewrite (read_rows_get _ _ _ _ f Er) in Hin. cbn [dict_get extended] in Hin.
  destruct (annotations_of float_of_str f rows) as [|a l] eqn:Ea; [done|].
  injection Hin as <-. apply per_image_file_class; [done|].
  rewrite <- Ea. apply Forall_forall. intros ann Hann.
  apply annotations_of_elem in Hann as (row & Hrow & Hflat).
  apply flat_row_label in Hflat as [Hl Hc]. split.
  - by apply (Hclasses row).
  - rewrite Hl. apply str_strip_idem.
Qed.
End ClassFiles.

Section UpdateClassFiles.
Variable table : pydict Z.
Variable classes : list string.
Hypothesis resolves :
  forall c, c ∈ classes -> exists v, Updater.label_id_of table c = Some v /\ 0 <= v.

Lemma update_row_class (row : list string) :
  class_row classes row ->
  exists v, UpdaterRun.update_row table row = (<[5%nat := str_of_int v]> row, true)
            /\ 0 <= v.
Proof.
  intros (Hlen & c & Hc & Hin & Hs). unfold UpdaterRun.update_row. rewrite Hlen.
  cbn [Nat.leb]. rewrite (nth_lookup_Some _ _ _ _ Hc), Hs.
  destruct (resolves c Hin) as (v & -> & Hv). by exists v.
Qed.

Lemma update_file_class (file : UpdaterRun.csv_file) :
  class_file classes file ->
  exists file', UpdaterRun.update_file table file = UpdaterRun.Written file'
                /\ UpdaterRun.numeric_labels file' = true.
Proof.
  intros (body & -> & Hne & Hall). unfold UpdaterRun.update_file.
  assert (Hex : existsb snd (map (UpdaterRun.update_row table) body) = true).
  { destruct body as [|row r]; [done|]. apply Forall_cons in Hall as [Hrow _].
    destruct (update_row_class row Hrow) as (v & Hv & _). simpl. by rewrite Hv. }
  rewrite Hex. eexists. split; [done|].
  cbn [UpdaterRun.numeric_labels]. apply forallb_forall. intros row' Hrow'.
  apply in_map_iff in Hrow' as (p & <- & Hp).
  apply in_map_iff in Hp as (row & <- & Hrow).
  rewrite Forall_forall in Hall. apply list_elem_of_In in Hrow.
  destruct (update_row_class row (Hall row Hrow)) as (v & Hv & Hpos).
  rewrite Hv. cbn [fst]. apply orb_true_iff. right.
  destruct (Hall row Hrow) as (Hlen & _).
  assert (Hnth : nth 5 (<[5%nat := str_of_int v]> row) "" = str_of_int v).
  { apply nth_lookup_Some. apply list_lookup_insert_eq. lia. }
  rewrite Hnth, str_strip_digits; by apply str_of_int_isdigit.
Qed.

Lemma update_files_class (dir : list (string * UpdaterRun.csv_file)) :
  Forall (fun file => class_file classes (snd file)) dir ->
  exists updated,
    UpdaterRun.update_files table dir = (updated, Some (length dir))
    /\ fst <$> updated = fst <$> dir
    /\ Forall (fun file => UpdaterRun.numeric_labels (snd file) = true) updated.
Proof.
  induction 1 as [|[name file] rest Hfile Hrest IH].
  - exists []. by repeat split.
  - destruct IH as (updated & Hu & Hnames & Hnum).
    destruct (update_file_class file Hfile) as (file' & Hf & Hn).
    exists ((name, file') :: updated). cbn [UpdaterRun.update_files].
    rewrite Hf, Hu. cbn [fmap option_fmap option_map length].
    split; [done|]. split; [by rewrite !fmap_cons, Hnames|by constructor].
Qed.
End UpdateClassFiles.

(** The label updater run after the reorganizer, on the labelmap and the
    per-image files that the reorganizer has written into an empty
    [csv/] for the two flat CSV files: every label resolves, so every
    file is rewritten, and afterwards every label is a number. *)
Theorem reorganized_labels_resolve (float_of_str : string -> option float)
    (str_of_float : float -> string) (train_csv test_csv : list csv_row)
    (images_dir : directory) (csv1 csv2 : pydict UpdaterRun.csv_file)
    (warnings1 warnings2 : list string) (count1 count2 : Z) (original : list string) :
  create_per_image_csvs float_of_str str_of_float train_csv images_dir []
  = inr (csv1, warnings1, count1) ->
  create_per_image_csvs float_of_str str_of_float test_csv images_dir csv1
  = inr (csv2, warnings2, count2) ->
  (forall s, s ∈ original <-> s ∈ UpdaterRun.original_classes [train_csv; test_csv]) ->
  exists updated,
    UpdaterRun.update_csv_labels (Reorganizer.main_labelmap train_csv test_csv)
      original csv2
    = (updated, Some (length csv2))
    /\ fst <$> updated = fst <$> csv2
    /\ Forall (fun file => UpdaterRun.numeric_labels (snd file) = true) updated.
Proof.
  intros H1 H2 Horig.
  set (classes := Reorganizer.get_all_classes [train_csv; test_csv]).
  assert (Hsub : forall rows, rows = train_csv \/ rows = test_csv ->
            forall row c, row ∈ rows -> c = str_strip (row_get "class" "" row) ->
                          Reorganizer.is_class_name c = true -> c ∈ classes).
  { intros rows Hrows row c Hrow Hc Hname. unfold classes, Reorganizer.get_all_classes.
    apply sorted_set_elem. cbn [fold_left]. rewrite !add_classes_elem.
    destruct Hrows as [->| ->]; [left; right|right]; by exists row. }
  assert (Hc1 : Forall (fun file => class_file classes (snd file)) csv1).
  { apply (create_per_image_csvs_class _ _ classes _ _ _ _ _ _ H1); [|constructor].
    apply Hsub. by left. }
  assert (Hc2 : Forall (fun file => class_file classes (snd file)) csv2).
  { apply (create_per_image_csvs_class _ _ classes _ _ _ _ _ _ H2); [|done].
    apply Hsub. by right. }
  unfold UpdaterRun.update_csv_labels.
  apply (update_files_class _ classes); [|done].
  intros c Hc. apply class_resolves; [done|].
  apply Horig. by apply sorted_set_elem in Hc.
Qed.

Lemma reorganized_labels_resolve_witness :
  exists updated,
    UpdaterRun.update_csv_labels (Reorganizer.main_labelmap flat_boxes [])
      ["Rust leaf"; "Apple leaf"]
      [("a.csv", per_image_file (fun _ => "0.0")
                   (annotations_of float_of_digits "a.jpg" flat_boxes));
       ("b.csv", per_image_file (fun _ => "0.0")
                   (annotations_of float_of_digits "b.png" flat_boxes))]
    = (updated, Some 2%nat)
    /\ fst <$> updated = ["a.csv"; "b.csv"]
    /\ Forall (fun file => UpdaterRun.numeric_labels (snd file) = true) updated.
Proof.
  refine (reorganized_labels_resolve float_of_digits (fun _ => "0.0") flat_boxes []
            ["a.jpg"; "b.png"] _ _ _ [] 3 0 ["Rust leaf"; "Apple leaf"] _ _ _).
  - vm_compute. reflexivity.
  - vm_compute. reflexivity.
  - intros s. rewrite <- sorted_set_elem.
    change (sorted_set (UpdaterRun.original_classes [flat_boxes; []]))
      with (Reorganizer.get_all_classes [flat_boxes; []]).
    assert (Hclasses : Reorganizer.get_all_classes [flat_boxes; []]
                       = ["Apple leaf"; "Rust leaf"]) by (vm_compute; reflexivity).
    rewrite Hclasses, !elem_of_cons, !elem_of_nil. tauto.
Defined.

(** ** The exporter on the names and on the numbers of the classes *)

Lemma pretty_char_value (d : N) :
  (d < 10)%N -> Z.of_N (ord (pretty_N_char d)) - 48 = Z.of_N d.
Proof.
  intros H.
  assert (d = 0 \/ d = 1 \/ d = 2 \/ d = 3 \/ d = 4 \/ d = 5 \/ d = 6 \/ d = 7
          \/ d = 8 \/ d = 9)%N as Hd by lia.
  by decompose [or] Hd; subst.
Qed.

Lemma int_from_pretty (x : N) (s : string) :
  int_from 0 (pretty_N_go x s) = int_from (Z.of_N x) s.
Proof.
  revert s. induction (N.lt_wf_0 x) as [x _ IH]; intros s.
  destruct (decide (x = 0)%N) as [->|Hx].
  - by rewrite pretty_N_go_0.
  - rewrite pretty_N_go_step by lia. rewrite IH by (apply N.div_lt; lia).
    cbn [int_from]. rewrite pretty_char_value by (apply N.mod_lt; lia).
    f_equal. rewrite (N.div_mod x 10) at 3 by lia. lia.
Qed.

(** [int(str(n))] is [n] for a non-negative integer. *)
Lemma int_of_str_of_int (n : Z) : 0 <= n -> int_of_digits (str_of_int n) = n.
Proof.
  intros Hn. unfold int_of_digits, str_of_int, pretty, pretty_Z.
  destruct n as [|p|p]; [done| |lia].
  unfold pretty, pretty_positive, pretty, pretty_N.
  destruct (decide (N.pos p = 0%N)); [done|].
  by rewrite int_from_pretty.
Qed.

Lemma coco_resolves_normalized (labelmap : list LabelMapEntry) (item : LabelMapEntry)
    (label : string) :
  item ∈ labelmap -> 0 < object_id item -> unambiguous labelmap = true ->
  str_isdigit label = false -> normalized label = object_name item ->
  Coco.category_id_of (Coco.load_labelmap labelmap) label = Some (label_id item).
Proof.
  intros Hin Hpos Hun Hdig Hname. unfold Coco.category_id_of. rewrite Hdig.
  assert (Hmem : dict_mem (normalized label) (Coco.load_labelmap labelmap) = true).
  { apply (add_entries_mem Coco.variants (normalized label) item); try done.
    rewrite Hname. left. }
  unfold dict_mem in Hmem.
  destruct (dict_get (normalized label) (Coco.load_labelmap labelmap)) as [v|] eqn:E;
    [|done].
  apply dict_get_elem in E.
  destruct (load_labelmap_sound labelmap _ _ E) as (other & Ho & Hpo & Hk & ->).
  f_equal. apply (unambiguous_spec labelmap); try done.
  by rewrite <- Hk, Hname.
Qed.

(** The exporter's lookup of the label in lower case with underscores
    for spaces: a label that is not a digit string and whose form is the
    name of a non-background entry gets the label id of that entry, in a
    labelmap in which entries with the same normalized name carry the same
    label id. *)
Theorem exporter_resolves_normalized (labelmap : list LabelMapEntry)
    (item : LabelMapEntry) (label : string) :
  item ∈ labelmap -> 0 < object_id item -> unambiguous labelmap = true ->
  str_isdigit label = false -> normalized label = object_name item ->
  Coco.category_id_of (Coco.load_labelmap labelmap) label = Some (label_id item)
  /\ exists cat, cat ∈ CocoExport.categories_of labelmap
       /\ CocoExport.cat_ident cat = label_id item
       /\ CocoExport.cat_name cat = normalized label.
Proof.
  intros Hin Hpos Hun Hdig Hname. split; [by apply coco_resolves_normalized|].
  eexists. split; [apply categories_of_elem; by exists item|]. by split.
Qed.

Lemma exporter_resolves_normalized_witness :
  Coco.category_id_of (Coco.load_labelmap lm_rust) "Bell pepper LEAF" = Some 1.
Proof.
  refine (proj1 (exporter_resolves_normalized lm_rust (entry 1 1 "bell_pepper_leaf")
                   "Bell pepper LEAF" _ _ eq_refl eq_refl eq_refl)).
  - right. left.
  - simpl. lia.
Defined.

Lemma main_labelmap_unambiguous (train_csv test_csv : list csv_row) :
  (forall a b, a ∈ Reorganizer.get_all_classes [train_csv; test_csv] ->
               b ∈ Reorganizer.get_all_classes [train_csv; test_csv] ->
               normalized a = normalized b -> a = b) ->
  unambiguous (Reorganizer.main_labelmap train_csv test_csv) = true.
Proof.
  intros Hinj. set (classes := Reorganizer.get_all_classes [train_csv; test_csv]) in *.
  assert (Hn : NoDup classes) by apply sorted_set_NoDup.
  assert (Hs : sorted classes = classes) by apply sorted_fixed, sorted_sorted.
  assert (Hentry : forall item,
            In item (Reorganizer.main_labelmap train_csv test_csv) ->
            (0 <? object_id item) = true ->
            exists (i : nat) c, classes !! i = Some c
              /\ item = Reorganizer.labelmap_entry (1 + Z.of_nat i, c)).
  { intros item Hin Hpos. unfold Reorganizer.main_labelmap, Reorganizer.create_labelmap in Hin.
    fold classes in Hin. cbn [fst] in Hin. destruct Hin as [<-|Hin]; [done|].
    apply in_map_iff in Hin as ([i c] & <- & Hp).
    apply list_elem_of_In, list_elem_of_lookup in Hp as [j Hj].
    rewrite enumerate_lookup, Hs in Hj.
    destruct (classes !! j) as [c'|] eqn:Ec; [|done].
    injection Hj as <- <-. by exists j, c'. }
  unfold unambiguous. apply forallb_forall. intros a Ha.
  apply forallb_forall. intros b Hb.
  destruct (0 <? object_id a) eqn:Epa; [|done].
  destruct (0 <? object_id b) eqn:Epb; [|done].
  destruct (String.eqb _ _) eqn:En; [|done]. cbn [andb implb].
  apply String.eqb_eq in En.
  destruct (Hentry a Ha Epa) as (i & ca & Hi & ->).
  destruct (Hentry b Hb Epb) as (j & cb & Hj & ->).
  cbn [Reorganizer.labelmap_entry object_name label_id fst snd] in *.
  rewrite !normalized_idem in En.
  assert (ca = cb) as ->.
  { apply Hinj; [by apply list_elem_of_lookup_2 in Hi|by apply list_elem_of_lookup_2 in Hj|done]. }
  pose proof (NoDup_lookup _ _ _ _ Hn Hi Hj) as ->. apply Z.eqb_refl.
Qed.

(** When no two class names of the flat CSV files agree in lower case
    with underscores for spaces, the exporter run on the reorganizer's
    labelmap gives a class name the id that the reorganizer's dictionary
    [class_to_id] gives it, and it gives the same id to that id written as
    a number: the categories are the same whether the label updater has
    been run on the per-image files or not. *)
Theorem exporter_follows_reorganizer (train_csv test_csv : list csv_row) (c : string) :
  let classes := Reorganizer.get_all_classes [train_csv; test_csv] in
  let table := Coco.load_labelmap (Reorganizer.main_labelmap train_csv test_csv) in
  (forall a b, a ∈ classes -> b ∈ classes -> normalized a = normalized b -> a = b) ->
  c ∈ classes ->
  exists id,
    dict_get c (snd (Reorganizer.create_labelmap classes)) = Some id
    /\ Coco.category_id_of table c = Some id
    /\ Coco.category_id_of table (str_of_int id) = Some id.
Proof.
  intros classes table Hinj Hc.
  assert (Hn : NoDup classes) by apply sorted_set_NoDup.
  assert (Hs : sorted classes = classes) by apply sorted_fixed, sorted_sorted.
  pose proof Hc as Hc'. apply list_elem_of_lookup in Hc' as (i & Hi).
  exists (Z.of_nat i + 1). split; [|split].
  - unfold Reorganizer.create_labelmap. cbn [snd].
    rewrite (numbering_lookup _ _ (1 + Z.of_nat i) c); [f_equal; lia|..].
    + by rewrite enumerate_snd, Hs.
    + apply list_elem_of_lookup. exists i. by rewrite enumerate_lookup, Hs, Hi.
  - replace (Z.of_nat i + 1)
      with (label_id (Reorganizer.labelmap_entry (1 + Z.of_nat i, c))) by (simpl; lia).
    apply coco_resolves_normalized.
    + unfold Reorganizer.main_labelmap, Reorganizer.create_labelmap. fold classes.
      cbn [fst]. right. apply list_elem_of_In, in_map, list_elem_of_In.
      apply list_elem_of_lookup. exists i. by rewrite enumerate_lookup, Hs, Hi.
    + simpl. lia.
    + by apply main_labelmap_unambiguous.
    + apply sorted_set_elem in Hc. unfold Reorganizer.get_all_classes in Hc.
      cbn [fold_left] in Hc. rewrite !add_classes_elem in Hc.
      destruct Hc as [[Hc|Hc]|Hc]; [set_solver|..];
        destruct Hc as (row & _ & _ & Hname);
        by apply is_class_name_spec in Hname as [_ ?].
    + done.
  - unfold Coco.category_id_of.
    rewrite str_of_int_isdigit by lia. f_equal. apply int_of_str_of_int. lia.
Qed.

Lemma exporter_follows_reorganizer_witness :
  exists id,
    dict_get "Apple leaf"
      (snd (Reorganizer.create_labelmap (Reorganizer.get_all_classes [flat_train; flat_test])))
    = Some id
    /\ Coco.category_id_of
         (Coco.load_labelmap (Reorganizer.main_labelmap flat_train flat_test)) "Apple leaf"
       = Some id
    /\ Coco.category_id_of
         (Coco.load_labelmap (Reorganizer.main_labelmap flat_train flat_test)) (str_of_int id)
       = Some id.
Proof.
  assert (Hclasses : Reorganizer.get_all_classes [flat_train; flat_test]
                     = ["Apple leaf"; "Rust leaf"; "apple Scab"])
    by (vm_compute; reflexivity).
  apply (exporter_follows_reorganizer flat_train flat_test "Apple leaf").
  - rewrite Hclasses. intros a b Ha Hb.
    rewrite !elem_of_cons, !elem_of_nil in Ha, Hb.
    destruct Ha as [->|[->|[->|[]]]]; destruct Hb as [->|[->|[->|[]]]]; intros Heq;
      first [reflexivity | vm_compute in Heq; discriminate Heq].
  - rewrite Hclasses. left.
Defined.

(** ** One box through the three scripts *)

Lemma flat_row_inv (float_of_str : string -> option float) (row : csv_row)
    (f : string) (ann : FlatAnnotation) :
  flat_row float_of_str row = inr (Some (f, ann)) ->
  exists xmin ymin xmax ymax fxmin fymin fxmax fymax,
    dict_get "xmin" row = Some xmin /\ dict_get "ymin" row = Some ymin
    /\ dict_get "xmax" row = Some xmax /\ dict_get "ymax" row = Some ymax
    /\ float_of_str xmin = Some fxmin /\ float_of_str ymin = Some fymin
    /\ float_of_str xmax = Some fxmax /\ float_of_str ymax = Some fymax
    /\ (flat_x ann, flat_y ann, flat_width ann, flat_height ann)
       = Reorganizer.convert_bbox_format fxmin fymin fxmax fymax.
Proof.
  unfold flat_row, row_item.
  destruct (dict_get "filename" row) as [fc|]; [|done].
  destruct (dict_get "class" row) as [cc|]; [|done].
  cbn [mbind error_bind].
  destruct (_ || _ || _); [done|].
  destruct (dict_get "xmin" row) as [xmin|]; [|done].
  destruct (dict_get "ymin" row) as [ymin|]; [|done].
  destruct (dict_get "xmax" row) as [xmax|]; [|done].
  destruct (dict_get "ymax" row) as [ymax|]; [|done].
  cbn [mbind error_bind]. unfold convert_bbox_cells, to_float.
  destruct (float_of_str xmin) as [a|] eqn:Ea; [|done].
  destruct (float_of_str ymin) as [b|] eqn:Eb; [|done].
  destruct (float_of_str xmax) as [c|] eqn:Ec; [|done].
  destruct (float_of_str ymax) as [d|] eqn:Ed; [|done].
  cbn [mbind error_bind]. unfold Reorganizer.convert_bbox_format.
  cbn [mret error_ret]. intros [= _ <-].
  by exists xmin, ymin, xmax, ymax, a, b, c, d.
Qed.

Lemma dict_row_header (a b c d e g : string) :
  dict_row csv_header [a; b; c; d; e; g]
  = [("#item", a); ("x", b); ("y", c); ("width", d); ("height", e); ("label", g)].
Proof. reflexivity. Qed.

(** One box from the flat CSV file to the COCO document.  A row of the
    flat CSV file that gives an annotation is written by the reorganizer
    as a row of a per-image file; when the label updater resolves its
    class to an id [v], the exporter reads the rewritten row as the box
    (xmin, ymin, xmax - xmin, ymax - ymin) of category [v], with the
    product of the last two as area, provided the text written for each
    of the four floats is read back as that float. *)
Theorem box_through_scripts (float_of_str : string -> option float)
    (str_of_float : float -> string) (table class_to_id : pydict Z)
    (row : csv_row) (f : string) (ann : FlatAnnotation) (i v : Z) :
  flat_row float_of_str row = inr (Some (f, ann)) ->
  Updater.label_id_of table (flat_label ann) = Some v ->
  0 <= v ->
  Forall (fun x => float_of_str (str_of_float x) = Some x)
         [flat_x ann; flat_y ann; flat_width ann; flat_height ann] ->
  let written := per_image_row str_of_float (i, ann) in
  let updated := fst (UpdaterRun.update_row table written) in
  CocoExport.parse_row float_of_str class_to_id (dict_row csv_header updated)
  = Some {| CocoExport.box_x := flat_x ann; CocoExport.box_y := flat_y ann;
            CocoExport.box_width := flat_width ann;
            CocoExport.box_height := flat_height ann;
            CocoExport.box_category_id := v;
            CocoExport.box_area := (flat_width ann * flat_height ann)%float |}
  /\ exists xmin ymin xmax ymax,
       float_of_str (row_get "xmin" "" row) = Some xmin
       /\ float_of_str (row_get "ymin" "" row) = Some ymin
       /\ float_of_str (row_get "xmax" "" row) = Some xmax
       /\ float_of_str (row_get "ymax" "" row) = Some ymax
       /\ flat_x ann = xmin /\ flat_y ann = ymin
       /\ flat_width ann = (xmax - xmin)%float
       /\ flat_height ann = (ymax - ymin)%float.
Proof.
  intros Hrow Hv Hpos Hfloat written updated.
  apply Forall_cons in Hfloat as [Hx Hfloat]. apply Forall_cons in Hfloat as [Hy Hfloat].
  apply Forall_cons in Hfloat as [Hw Hfloat]. apply Forall_cons in Hfloat as [Hh _].
  split.
  - destruct (flat_row_label _ _ _ _ Hrow) as [Hlabel _].
    assert (Hstrip : str_strip (flat_label ann) = flat_label ann).
    { rewrite Hlabel. apply str_strip_idem. }
    assert (Hupd : updated
                   = [str_of_int i; str_of_float (flat_x ann); str_of_float (flat_y ann);
                      str_of_float (flat_width ann); str_of_float (flat_height ann);
                      str_of_int v]).
    { unfold updated, written, UpdaterRun.update_row, per_image_row.
      cbn [length Nat.leb nth fst snd]. by rewrite Hstrip, Hv. }
    rewrite Hupd, dict_row_header.
    unfold CocoExport.parse_row, CocoExport.cell_float, row_get.
    cbn [dict_get String.eqb Ascii.eqb Bool.eqb].
    rewrite Hx, Hy, Hw, Hh. cbn [mbind option_bind].
    assert (Hd : str_isdigit (str_of_int v) = true) by by apply str_of_int_isdigit.
    rewrite (str_strip_digits _ Hd). unfold Coco.category_id_of. rewrite Hd.
    by rewrite int_of_str_of_int.
  - destruct (flat_row_inv _ _ _ _ Hrow)
      as (xmin & ymin & xmax & ymax & a & b & c & d
          & Exmin & Eymin & Exmax & Eymax & Ha & Hb & Hc & Hd & Hbox).
    unfold Reorganizer.convert_bbox_format in Hbox. injection Hbox as -> -> -> ->.
    exists a, b, c, d. unfold row_get. by rewrite Exmin, Eymin, Exmax, Eymax.
Qed.

Lemma box_through_scripts_witness :
  let ann := {| flat_x := 1; flat_y := 2; flat_width := 2; flat_height := 1;
                flat_label := "Rust leaf" |} in
  CocoExport.parse_row float_of_digits (Coco.load_labelmap lm_rust)
    (dict_row csv_header
       (fst (UpdaterRun.update_row (Updater.build_table lm_rust ["Rust leaf"])
               (per_image_row float_text (0, ann)))))
  = Some {| CocoExport.box_x := 1; CocoExport.box_y := 2;
            CocoExport.box_width := 2; CocoExport.box_height := 1;
            CocoExport.box_category_id := 2; CocoExport.box_area := (2 * 1)%float |}.
Proof.
  intros ann.
  refine (proj1 (box_through_scripts float_of_digits float_text
                   (Updater.build_table lm_rust ["Rust leaf"]) (Coco.load_labelmap lm_rust)
                   (flat_box "a.jpg" "Rust leaf" "1" "2" "3" "3") "a.jpg" ann 0 2
                   _ _ _ _)).
  - vm_compute. reflexivity.
  - vm_compute. reflexivity.
  - lia.
  - repeat constructor.
Defined.
